(** * pytest-django fixtures: a shallow embedding of [pytest_django/fixtures.py]

    The definitions follow the layout of the source file:

    - [Py]         Python values and exceptions shared by the fixtures;
    - [Queries]    [_assert_num_queries] and its two fixtures;
    - [Suffix]     [_set_suffix_to_test_databases] and the tox / xdist fixtures;
    - [Session]    [django_db_setup] and [_disable_native_migrations];
    - [Isolation]  [_django_db_fixture_helper], [db], [transactional_db],
                   [django_db_reset_sequences] and [_live_server_helper].

    Collaborators that live outside the file (Django, pytest, the database
    blocker, [is_django_unittest], [skip_if_no_django]) appear as fields of
    an environment record or as events of a trace.

    The properties come after the definitions, one module of facts for each
    module of definitions. *)

From Stdlib Require Import ZArith String List Bool Lia.
From stdpp Require Import base option list strings gmap pretty.

Open Scope string_scope.

(* ===================================================================== *)
(** ** Python values and exceptions *)
(* ===================================================================== *)

Module Py.

(** A raised Python exception: the name of its class, the names of the
    classes that class derives from, and its text.  [KeyboardInterrupt],
    [SystemExit] and pytest's outcome exceptions derive from [BaseException]
    without deriving from [Exception]. *)
Record exc := Exc {
  exc_class : string;            (* e.__class__.__name__ *)
  exc_bases : list string;       (* the other classes of type(e).__mro__ *)
  exc_str : string               (* str(e) *)
}.

(** [isinstance(e, cls)], which is what [except cls:] tests. *)
Definition isinstance (e : exc) (cls : string) : bool :=
  bool_decide (cls ∈ exc_class e :: exc_bases e).

(** The values stored in the dictionaries the fixtures read. *)
Inductive val :=
| None_ : val
| Str (s : string) : val.

#[global] Instance val_eq_dec : EqDecision val.
Proof. solve_decision. Defined.

(** Truthiness, as used by [if x:] and [not x]. *)
Definition truthy (v : val) : bool :=
  match v with
  | None_ => false
  | Str s => negb (String.eqb s "")
  end.

(** [x or y] where [x] is [None] or a string: [x] when it is truthy. *)
Definition or_ (x : option string) (y : string) : string :=
  match x with
  | Some s => if String.eqb s "" then y else s
  | None => y
  end.

(** The newline character. *)
Definition nl : string := String (Ascii.ascii_of_nat 10) EmptyString.

(** [sep.join(l)] *)
Definition join (sep : string) (l : list string) : string := String.concat sep l.

(** [sub in s] for strings, as a proposition. *)
Definition contains (sub s : string) : Prop :=
  exists pre post, s = pre +:+ sub +:+ post.

End Py.

(* ===================================================================== *)
(** ** Query-count assertions ([_assert_num_queries]) *)
(* ===================================================================== *)

Module Queries.
Import Py.

(** One entry of [context.captured_queries]. *)
Record query := Query { sql : string; time : string }.

(** What the block wrapped by the context manager did: the queries it
    issued on the connection and, when it did not run to completion, the
    exception it raised. *)
Record block := Block {
  captured_queries : list query;
  raised : option exc
}.

(** The outcome of the [with] statement. *)
Inductive outcome :=
| Passed                      (* the generator ran to its end *)
| Failed (msg : string)       (* pytest.fail(msg) *)
| Propagated (e : exc).       (* the block's own exception *)

(** [config.getoption("verbose")] is the only thing read from the config. *)
Record config := Config { verbose_option : Z }.

(** ["{}".format(n)] for an [int]. *)
Definition fmt (n : Z) : string := pretty n.

(** [len(context)] *)
Definition num_performed_of (b : block) : Z := Z.of_nat (length (captured_queries b)).

(** The text built under [if failed:]. *)
Definition failure_message (verbose : bool) (num : Z) (exact : bool)
    (info : option string) (num_performed : Z) (qs : list query) : string :=
  let msg :=
    "Expected to perform " +:+ fmt num +:+ " queries "
      +:+ (if exact then "" else "or less ")
      +:+ ("but "
           +:+ (if Z.eqb num_performed 1 then "1 was" else fmt num_performed +:+ " were")
           +:+ " done") in
  let msg :=
    match info with
    | Some i => if String.eqb i "" then msg else msg +:+ nl +:+ i
    | None => msg
    end in
  if verbose then
    msg +:+ (nl +:+ nl +:+ "Queries:" +:+ nl +:+ "========" +:+ nl +:+ nl)
        +:+ join (nl +:+ nl) (map sql qs)
  else
    msg +:+ " (add -v option to show queries)".

(** [_assert_num_queries(config, num, exact, connection, info)] entered
    around block [b].  The connection only selects whose queries are
    captured, so it is part of [b]. *)
Definition _assert_num_queries (cfg : config) (num : Z) (exact : bool)
    (info : option string) (b : block) : outcome :=
  let verbose := Z.ltb 0 (verbose_option cfg) in
  match raised b with
  | Some e => Propagated e           (* thrown into the generator at [yield] *)
  | None =>
      let num_performed := num_performed_of b in
      let failed :=
        if exact then negb (Z.eqb num num_performed)
        else Z.ltb num num_performed in
      if failed then
        Failed (failure_message verbose num exact info num_performed (captured_queries b))
      else Passed
  end.

(** [partial(_assert_num_queries, pytestconfig)]; [exact] keeps its default. *)
Definition django_assert_num_queries (pytestconfig : config)
    (num : Z) (info : option string) : block -> outcome :=
  _assert_num_queries pytestconfig num true info.

(** [partial(_assert_num_queries, pytestconfig, exact=False)] *)
Definition django_assert_max_num_queries (pytestconfig : config)
    (num : Z) (info : option string) : block -> outcome :=
  _assert_num_queries pytestconfig num false info.

(** The first line of the failure message in exact mode. *)
Definition exact_headline (num performed : Z) : string :=
  "Expected to perform " +:+ fmt num +:+ " queries but "
    +:+ (if Z.eqb performed 1 then "1 was" else fmt performed +:+ " were")
    +:+ " done".

(** The part contributed by [info]. *)
Definition info_part (info : option string) : string :=
  match info with
  | Some i => if String.eqb i "" then "" else nl +:+ i
  | None => ""
  end.

(** What follows the headline and the info: the statements or the hint. *)
Definition tail_part (verbose : bool) (qs : list query) : string :=
  if verbose then
    (nl +:+ nl +:+ "Queries:" +:+ nl +:+ "========" +:+ nl +:+ nl)
      +:+ join (nl +:+ nl) (map sql qs)
  else " (add -v option to show queries)".

End Queries.

(* ===================================================================== *)
(** ** Parallel suffixes ([_set_suffix_to_test_databases]) *)
(* ===================================================================== *)

Module Suffix.
Import Py.

(** One value of [settings.DATABASES]: a dictionary whose ["TEST"] entry is
    itself a dictionary.  [items] holds every other key (["ENGINE"],
    ["NAME"], ["USER"], ...); [TEST = None] means the key is absent. *)
Record db_settings := DbSettings {
  items : gmap string val;
  TEST : option (gmap string val)
}.

(** [settings.DATABASES], in insertion order. *)
Definition databases := list (string * db_settings).

(** [KeyError(key)] *)
Definition KeyError (key : string) : exc :=
  {| exc_class := "KeyError";
     exc_bases := ["LookupError"; "Exception"; "BaseException"];
     exc_str := "'" +:+ key +:+ "'" |}.

(** [d[key]] *)
Definition subscript (d : gmap string val) (key : string) : exc + val :=
  match d !! key with
  | Some v => inr v
  | None => inl (KeyError key)
  end.

(** ["{}".format(v)] *)
Definition fmt (v : val) : string :=
  match v with
  | None_ => "None"
  | Str s => s
  end.

(** [db_settings.get("TEST", {}).get("NAME")] *)
Definition get_test_name (d : db_settings) : val :=
  match TEST d with
  | Some t => default None_ (t !! "NAME")
  | None => None_
  end.

(** [db_settings.setdefault("TEST", {}); db_settings["TEST"]["NAME"] = name] *)
Definition set_test_name (d : db_settings) (name : string) : db_settings :=
  {| items := items d;
     TEST := Some (<["NAME" := Str name]> (default ∅ (TEST d))) |}.

(** The three ways one iteration of the loop can end without raising. *)
Inductive step :=
| Continue                      (* [continue]: the entry is not touched *)
| Assign (name : string).       (* the new [TEST]["NAME"] *)

(** The body of the [for] loop up to the assignment. *)
Definition loop_body (suffix : string) (d : db_settings) : exc + step :=
  let test_name := get_test_name d in
  let named (test_name : val) : exc + step :=
    if decide (test_name = Str ":memory:") then inr Continue
    else inr (Assign (fmt test_name +:+ "_" +:+ suffix)) in
  if truthy test_name then named test_name
  else
    match subscript (items d) "ENGINE" with
    | inl e => inl e
    | inr engine =>
        if decide (engine = Str "django.db.backends.sqlite3") then inr Continue
        else
          match subscript (items d) "NAME" with
          | inl e => inl e
          | inr name => named (Str ("test_" +:+ fmt name))
          end
    end.

(** One iteration, as a function on the entry. *)
Definition suffix_one (suffix : string) (d : db_settings) : exc + db_settings :=
  match loop_body suffix d with
  | inl e => inl e
  | inr Continue => inr d
  | inr (Assign name) => inr (set_test_name d name)
  end.

(** [for db_settings in settings.DATABASES.values(): ...], mutating in
    place: entries before a raising one keep their new names. *)
Fixpoint _set_suffix_to_test_databases (suffix : string) (dbs : databases)
    : databases * option exc :=
  match dbs with
  | [] => ([], None)
  | (alias, d) :: rest =>
      match suffix_one suffix d with
      | inl e => ((alias, d) :: rest, Some e)
      | inr d' =>
          let '(rest', r) := _set_suffix_to_test_databases suffix rest in
          ((alias, d') :: rest', r)
      end
  end.

(** How a fixture function ends. *)
Inductive outcome :=
| Returned
| Raised (e : exc).

(** What the fixtures read from the process. *)
Record environment := Environment {
  no_django : option exc;               (* what skip_if_no_django() raises, if it does *)
  TOX_PARALLEL_ENV : option string;     (* os.getenv("TOX_PARALLEL_ENV") *)
  workerid : option string              (* getattr(config, "workerinput", {}).get("workerid") *)
}.

(** The call [skip_if_no_django()]; the function is defined in
    [lazy_django] and returns or raises pytest's skip. *)
Definition skip_if_no_django (env : environment) : outcome :=
  match no_django env with
  | Some e => Raised e
  | None => Returned
  end.

(** [if suffix: _set_suffix_to_test_databases(suffix=suffix)] *)
Definition apply_if_set (suffix : option string) (dbs : databases) : databases * outcome :=
  match suffix with
  | Some s =>
      if String.eqb s "" then (dbs, Returned)
      else
        let '(dbs', r) := _set_suffix_to_test_databases s dbs in
        (dbs', match r with Some e => Raised e | None => Returned end)
  | None => (dbs, Returned)
  end.

Definition django_db_modify_db_settings_tox_suffix (env : environment)
    (dbs : databases) : databases * outcome :=
  match skip_if_no_django env with
  | Returned => apply_if_set (TOX_PARALLEL_ENV env) dbs
  | o => (dbs, o)
  end.

Definition django_db_modify_db_settings_xdist_suffix (env : environment)
    (dbs : databases) : databases * outcome :=
  match skip_if_no_django env with
  | Returned => apply_if_set (workerid env) dbs
  | o => (dbs, o)
  end.

(** The fixture's arguments are set up in the order they are declared,
    tox first; its own body only checks that Django is configured. *)
Definition django_db_modify_db_settings_parallel_suffix (env : environment)
    (dbs : databases) : databases * outcome :=
  match django_db_modify_db_settings_tox_suffix env dbs with
  | (dbs1, Returned) =>
      match django_db_modify_db_settings_xdist_suffix env dbs1 with
      | (dbs2, Returned) => (dbs2, skip_if_no_django env)
      | r => r
      end
  | r => r
  end.

Definition django_db_modify_db_settings (env : environment)
    (dbs : databases) : databases * outcome :=
  match django_db_modify_db_settings_parallel_suffix env dbs with
  | (dbs1, Returned) => (dbs1, skip_if_no_django env)
  | r => r
  end.

(** [settings.DATABASES[alias]["TEST"]["NAME"]] after the fixtures ran. *)
Definition test_name_of (dbs : databases) (alias : string) : option val :=
  d ← (list_to_map dbs : gmap string db_settings) !! alias;
  Some (get_test_name d).

(** *** The rule in the words of the specification *)

(** An in-memory (file-less) database, as the loop recognises one: an SQLite
    database without a test name, which Django creates in memory, or the
    test name [":memory:"]. *)
Definition in_memory (d : db_settings) : bool :=
  (negb (truthy (get_test_name d))
   && bool_decide (items d !! "ENGINE" = Some (Str "django.db.backends.sqlite3")))
  || bool_decide (get_test_name d = Str ":memory:").

(** In-memory databases are left untouched; otherwise a configured test
    name gets [_<suffix>] appended, and without one the name becomes
    [test_<dbname>_<suffix>]. *)
Definition suffixed (suffix : string) (d : db_settings) : db_settings :=
  if in_memory d then d
  else
    match get_test_name d with
    | Str t =>
        if String.eqb t "" then
          set_test_name d ("test_" +:+ fmt (default None_ (items d !! "NAME")) +:+ "_" +:+ suffix)
        else set_test_name d (t +:+ "_" +:+ suffix)
    | None_ =>
        set_test_name d ("test_" +:+ fmt (default None_ (items d !! "NAME")) +:+ "_" +:+ suffix)
    end.

(** A connection whose settings name an engine and a database. *)
Definition configured (d : db_settings) : Prop :=
  is_Some (items d !! "ENGINE") ∧ is_Some (items d !! "NAME").

End Suffix.

(* ===================================================================== *)
(** ** Session database setup ([django_db_setup]) *)
(* ===================================================================== *)

Module Session.
Import Py.

(** [settings.MIGRATION_MODULES]: the project's dictionary, or an instance
    of the class [DisableMigrations] local to [_disable_native_migrations]. *)
Inductive migration_modules :=
| ModulesDict (d : gmap string val)
| DisableMigrations.

(** [item in m] *)
Definition contains_ (m : migration_modules) (item : string) : bool :=
  match m with
  | ModulesDict d => bool_decide (is_Some (d !! item))
  | DisableMigrations => true
  end.

(** [m[item]] *)
Definition getitem (m : migration_modules) (item : string) : exc + val :=
  match m with
  | ModulesDict d => Suffix.subscript d item
  | DisableMigrations => inr None_
  end.

(** The value bound to [migrate.Command]: Django's command class, or a
    [MigrateSilentCommand] deriving from the class that was bound there when
    [_disable_native_migrations] ran. *)
Inductive command_class :=
| DjangoMigrateCommand
| MigrateSilentCommand (base : command_class).

(** Keyword arguments of [handle]. *)
Inductive kwarg :=
| KInt (n : Z)
| KBool (b : bool)
| KStr (s : string).

(** [handle] of an instance of [c], called with keyword arguments [kwargs]:
    the keyword arguments with which Django's own [handle] is finally
    entered.  Positional arguments are passed through untouched. *)
Fixpoint handle (c : command_class) (kwargs : gmap string kwarg) : gmap string kwarg :=
  match c with
  | DjangoMigrateCommand => kwargs
  | MigrateSilentCommand base => handle base (<["verbosity" := KInt 0]> kwargs)
  end.

(** The opaque value returned by [setup_databases]. *)
Definition db_cfg := nat.

(** Modelled from the spec: the blocker gate, which is defined in
    [plugin.py].  [django_db_blocker.unblock()] opens the gate and, as the
    context manager of a [with] statement, restores it when the block is
    left, by its end or by an exception.  The other events are the calls
    into Django, in the order they happen. *)
Inductive event :=
| Unblock                                             (* django_db_blocker.unblock() *)
| Restore                                             (* leaving the [with] block *)
| SetupDatabases (verbosity : Z) (interactive : bool) (keepdb : option bool)
| TeardownDatabases (cfg : db_cfg) (verbosity : Z).

(** The closures given to [request.addfinalizer]. *)
Inductive finalizer :=
| teardown_database (cfg : db_cfg).

Record state := State {
  MIGRATION_MODULES : migration_modules;     (* settings.MIGRATION_MODULES *)
  migrate_Command : command_class;           (* migrate.Command *)
  finalizers : list finalizer;               (* newest first *)
  warnings : list string;                    (* request.node.warn, oldest first *)
  trace : list event                         (* oldest first *)
}.

(** Django's primitives and the command line. *)
Record environment := Environment {
  verbose : Z;                               (* request.config.option.verbose *)
  setup_databases : exc + db_cfg;            (* what the call does *)
  teardown_databases : db_cfg -> option exc; (* [Some e]: the call raises [e] *)
  repr : exc -> string                       (* repr(e) *)
}.

Definition emit (ev : event) (st : state) : state :=
  {| MIGRATION_MODULES := MIGRATION_MODULES st;
     migrate_Command := migrate_Command st;
     finalizers := finalizers st;
     warnings := warnings st;
     trace := trace st ++ [ev] |}.

Definition addfinalizer (f : finalizer) (st : state) : state :=
  {| MIGRATION_MODULES := MIGRATION_MODULES st;
     migrate_Command := migrate_Command st;
     finalizers := f :: finalizers st;
     warnings := warnings st;
     trace := trace st |}.

Definition warn (msg : string) (st : state) : state :=
  {| MIGRATION_MODULES := MIGRATION_MODULES st;
     migrate_Command := migrate_Command st;
     finalizers := finalizers st;
     warnings := warnings st ++ [msg];
     trace := trace st |}.

Definition _disable_native_migrations (st : state) : state :=
  {| MIGRATION_MODULES := DisableMigrations;
     migrate_Command := MigrateSilentCommand (migrate_Command st);
     finalizers := finalizers st;
     warnings := warnings st;
     trace := trace st |}.

(** [setup_databases_args]: only ["keepdb"] is ever set. *)
Definition setup_databases_args (django_db_keepdb django_db_createdb : bool) : option bool :=
  if django_db_keepdb && negb django_db_createdb then Some true else None.

(** The fixture [django_db_setup].  The result is the state it leaves and,
    when it does not return, the exception raised by [setup_databases]. *)
Definition django_db_setup (env : environment)
    (django_db_use_migrations django_db_keepdb django_db_createdb : bool)
    (st : state) : state * option exc :=
  let st := if negb django_db_use_migrations then _disable_native_migrations st else st in
  let args := setup_databases_args django_db_keepdb django_db_createdb in
  let st := emit Unblock st in
  let st := emit (SetupDatabases (verbose env) false args) st in
  match setup_databases env with
  | inl e => (emit Restore st, Some e)
  | inr cfg =>
      let st := emit Restore st in
      if negb django_db_keepdb then (addfinalizer (teardown_database cfg) st, None)
      else (st, None)
  end.

(** The text of the warning. *)
Definition teardown_warning (env : environment) (e : exc) : string :=
  "Error when trying to teardown test databases: " +:+ repr env e.

(** Running one finalizer: the body of the nested [teardown_database]. *)
Definition run_finalizer (env : environment) (f : finalizer) (st : state)
    : state * option exc :=
  match f with
  | teardown_database cfg =>
      let st := emit Unblock st in
      let st := emit (TeardownDatabases cfg (verbose env)) st in
      match teardown_databases env cfg with
      | None => (emit Restore st, None)
      | Some e =>
          if isinstance e "Exception" then     (* except Exception as exc: *)
            (emit Restore (warn (teardown_warning env e) st), None)
          else (emit Restore st, Some e)
      end
  end.

(** The end of the session: pytest calls every finalizer, newest first,
    going on after one that raises, and reports what was raised. *)
Fixpoint run_finalizers (env : environment) (fs : list finalizer) (st : state)
    : state * list exc :=
  match fs with
  | [] => (st, [])
  | f :: fs =>
      let '(st1, r) := run_finalizer env f st in
      let '(st2, errs) := run_finalizers env fs st1 in
      (st2, match r with Some e => e :: errs | None => errs end)
  end.

Definition session_finish (env : environment) (st : state) : state * list exc :=
  run_finalizers env (finalizers st)
    {| MIGRATION_MODULES := MIGRATION_MODULES st;
       migrate_Command := migrate_Command st;
       finalizers := [];
       warnings := warnings st;
       trace := trace st |}.

(** A whole session around [django_db_setup]: set up, then finish. *)
Definition session (env : environment)
    (django_db_use_migrations django_db_keepdb django_db_createdb : bool)
    (st : state) : state * list exc :=
  let '(st1, _) := django_db_setup env django_db_use_migrations
                     django_db_keepdb django_db_createdb st in
  session_finish env st1.

(** *** A process to try the fixture on *)

(** A process in which nothing has run yet; Django's default for
    [MIGRATION_MODULES] is the empty dictionary. *)
Definition fresh : state :=
  {| MIGRATION_MODULES := ModulesDict ∅;
     migrate_Command := DjangoMigrateCommand;
     finalizers := [];
     warnings := [];
     trace := [] |}.

Definition KeyboardInterrupt : exc :=
  {| exc_class := "KeyboardInterrupt"; exc_bases := ["BaseException"]; exc_str := "" |}.

Definition OperationalError (msg : string) : exc :=
  {| exc_class := "OperationalError";
     exc_bases := ["DatabaseError"; "Error"; "Exception"; "BaseException"];
     exc_str := msg |}.

(** [repr] of an exception built from one string without quotes in it. *)
Definition repr_one_arg (e : exc) : string :=
  exc_class e +:+ "('" +:+ exc_str e +:+ "')".

(** Teardown is interrupted from the keyboard. *)
Definition interrupted : environment :=
  {| verbose := 0;
     setup_databases := inr 0;
     teardown_databases := fun _ => Some KeyboardInterrupt;
     repr := repr_one_arg |}.

(** Teardown fails because the database is still in use. *)
Definition db_in_use : environment :=
  {| verbose := 2;
     setup_databases := inr 0;
     teardown_databases := fun _ => Some (OperationalError "database is being accessed by other users");
     repr := repr_one_arg |}.

End Session.

(* ===================================================================== *)
(** ** Per-test isolation ([_django_db_fixture_helper] and its fixtures) *)
(* ===================================================================== *)

Module Isolation.
Import Py.

(** [_pytest_django_databases]: the literal ["__all__"] or database aliases. *)
Inductive databases_spec :=
| AllDatabases
| Aliases (l : list string).

(** The class [PytestDjangoTestCase] built by the helper: the dotted path of
    the class it derives from and the attributes its body sets ([None]: the
    attribute is inherited). *)
Record test_case_class := TestCaseClass {
  base : string;
  reset_sequences : option bool;
  databases : option databases_spec
}.

(** Calls that leave the fixtures, in the order they happen.  The blocker
    gate is defined in [plugin.py]; here its two methods are only called. *)
Inductive event :=
| Unblock                                  (* django_db_blocker.unblock() *)
| Restore                                  (* django_db_blocker.restore() *)
| ImportString (path : string)             (* import_string(path) *)
| SetUpClass (c : test_case_class)
| TearDownClass (c : test_case_class)
| PreSetup (c : test_case_class)           (* test_case._pre_setup() *)
| PostTeardown (c : test_case_class)       (* test_case._post_teardown() *)
| LiveServerStart (addr : string)          (* live_server_helper.LiveServer(addr) *)
| LiveServerStop                           (* server.stop() *)
| SettingsEnable                           (* _live_server_modified_settings.enable() *)
| SettingsDisable
| CallTest (fails : bool).                 (* the test function itself *)

(** The callables given to [request.addfinalizer]. *)
Inductive finalizer :=
| restore
| tearDownClass (c : test_case_class)
| _post_teardown (c : test_case_class)
| settings_disable
| server_stop.

(** Everything the fixtures read but do not change: the request of the
    test, the process environment and the behaviour of Django. *)
Record environment := Environment {
  names_closure : list string;                        (* the fixture names of the test item *)
  is_django_unittest : bool;                          (* is_django_unittest(request) *)
  _pytest_django_databases : option databases_spec;   (* attribute of request.node *)
  getvalue : string -> option string;                 (* request.config.getvalue *)
  getenv : string -> option string;                   (* os.getenv *)
  import_string : string -> option exc;               (* [Some e]: the import raises [e] *)
  setUpClass_raises : test_case_class -> option exc;
  _pre_setup_raises : test_case_class -> option exc;
  no_django : option exc;                             (* what skip_if_no_django() raises *)
  LiveServer_raises : string -> option exc
}.

(** What setting fixtures up changes. *)
Record state := State {
  resolved : list string;        (* fixtures set up for this test, newest first *)
  own : list finalizer;          (* finalizers of the fixture being set up, newest first *)
  finished : list (string * list finalizer);
                                 (* fixtures whose set-up ended, newest first, with
                                    the finalizers they registered *)
  session_cache : list string;   (* session fixtures already set up *)
  session_finalizers : list finalizer;
  trace : list event             (* oldest first *)
}.

(** The state in which pytest starts setting a test up. *)
Definition initial (session : list string) : state :=
  {| resolved := []; own := []; finished := [];
     session_cache := session; session_finalizers := []; trace := [] |}.

(** Fixture code: it changes the state and returns or raises. *)
Definition M (A : Type) : Type := state -> state * (exc + A).

#[global] Instance M_ret : MRet M := fun A a st => (st, inr a).

#[global] Instance M_bind : MBind M := fun A B f m st =>
  match m st with
  | (st', inr a) => f a st'
  | (st', inl e) => (st', inl e)
  end.

Definition raise {A} (e : exc) : M A := fun st => (st, inl e).

Definition emit (ev : event) : M unit := fun st =>
  ({| resolved := resolved st; own := own st; finished := finished st;
      session_cache := session_cache st;
      session_finalizers := session_finalizers st;
      trace := trace st ++ [ev] |}, inr ()).

(** A call into Django: it is recorded, then returns or raises. *)
Definition call (ev : event) (r : option exc) : M unit :=
  emit ev;; match r with Some e => raise e | None => mret () end.

(** [if b: m] *)
Definition when (b : bool) (m : M unit) : M unit := if b then m else mret ().

(** [request.addfinalizer(f)] inside a function-scoped fixture. *)
Definition addfinalizer (f : finalizer) : M unit := fun st =>
  ({| resolved := resolved st; own := f :: own st; finished := finished st;
      session_cache := session_cache st;
      session_finalizers := session_finalizers st;
      trace := trace st |}, inr ()).

(** [request.addfinalizer(f)] inside a session-scoped fixture. *)
Definition session_addfinalizer (f : finalizer) : M unit := fun st =>
  ({| resolved := resolved st; own := own st; finished := finished st;
      session_cache := session_cache st;
      session_finalizers := f :: session_finalizers st;
      trace := trace st |}, inr ()).

(** [request.fixturenames]: the names closure of the item followed by the
    fixtures requested since, by name, that are not in it. *)
Definition fixturenames (env : environment) : M (list string) := fun st =>
  (st, inr (names_closure env
            ++ filter (fun n => n ∉ names_closure env) (resolved st))%list).

(** [name in request.fixturenames] *)
Definition requested (env : environment) (name : string) : M bool :=
  names ← fixturenames env; mret (bool_decide (name ∈ names)).

(** Setting up the function-scoped fixture [name] with body [body]: nothing
    when it is already set up for this test; otherwise the body runs with a
    finalizer list of its own, which is scheduled for teardown whether the
    body returns or raises. *)
Definition function_fixture (name : string) (body : M unit) : M unit := fun st =>
  if bool_decide (name ∈ resolved st) then (st, inr ())
  else
    let '(st1, r) :=
      body {| resolved := resolved st; own := []; finished := finished st;
              session_cache := session_cache st;
              session_finalizers := session_finalizers st;
              trace := trace st |} in
    ({| resolved := match r with inr _ => name :: resolved st1 | inl _ => resolved st1 end;
        own := own st;
        finished := (name, own st1) :: finished st1;
        session_cache := session_cache st1;
        session_finalizers := session_finalizers st1;
        trace := trace st1 |}, r).

(** The same for a session-scoped fixture: its body runs once per session. *)
Definition session_fixture (name : string) (body : M unit) : M unit := fun st =>
  if bool_decide (name ∈ resolved st) then (st, inr ())
  else if bool_decide (name ∈ session_cache st) then
    ({| resolved := name :: resolved st; own := own st; finished := finished st;
        session_cache := session_cache st;
        session_finalizers := session_finalizers st;
        trace := trace st |}, inr ())
  else
    match body st with
    | (st1, inr _) =>
        ({| resolved := name :: resolved st1; own := own st1; finished := finished st1;
            session_cache := name :: session_cache st1;
            session_finalizers := session_finalizers st1;
            trace := trace st1 |}, inr ())
    | (st1, inl e) => (st1, inl e)
    end.

(** The call [skip_if_no_django()]; the function is defined in
    [lazy_django] and returns or raises pytest's skip. *)
Definition skip_if_no_django (env : environment) : M unit :=
  match no_django env with
  | Some e => raise e
  | None => mret ()
  end.

(** The dotted path chosen by the helper. *)
Definition test_case_classname (env : environment) (transactional : bool) : string :=
  if transactional then
    or_ (getvalue env "transaction_testcase_class")
      (or_ (getenv env "DJANGO_TRANSACTION_TEST_CASE_CLASS")
         "django.test.TransactionTestCase")
  else
    or_ (getvalue env "testcase_class")
      (or_ (getenv env "DJANGO_TEST_CASE_CLASS") "django.test.TestCase").

(** The class statement of the helper. *)
Definition PytestDjangoTestCase (env : environment)
    (transactional _reset_sequences : bool) : test_case_class :=
  {| base := test_case_classname env transactional;
     reset_sequences := if transactional && _reset_sequences then Some true else None;
     databases := _pytest_django_databases env |}.

Definition _django_db_fixture_helper (env : environment)
    (transactional reset_sequences : bool) : M unit :=
  if is_django_unittest env then mret ()
  else
    live ← requested env "live_server";
    if negb transactional && live then
      (* Do nothing, we get called with transactional=True, too. *)
      mret ()
    else
      emit Unblock;;
      addfinalizer restore;;
      let name := test_case_classname env transactional in
      call (ImportString name) (import_string env name);;
      let c := PytestDjangoTestCase env transactional reset_sequences in
      call (SetUpClass c) (setUpClass_raises env c);;
      addfinalizer (tearDownClass c);;
      call (PreSetup c) (_pre_setup_raises env c);;
      addfinalizer (_post_teardown c).

(** [ImportError(msg)] *)
Definition ImportError (msg : string) : exc :=
  {| exc_class := "ImportError";
     exc_bases := ["Exception"; "BaseException"];
     exc_str := msg |}.

(** [import_from_string(val, setting_name)]: [import_string] with the
    [ImportError] it raises replaced by one that names the value and the
    setting.  Nothing in the file calls it. *)
Definition import_from_string (env : environment) (val setting_name : string)
    : option exc :=
  match import_string env val with
  | None => None
  | Some e =>
      if isinstance e "ImportError" then
        Some (ImportError ("Could not import '" +:+ val +:+ "' for API setting '"
                           +:+ setting_name +:+ "'. " +:+ exc_class e +:+ ": "
                           +:+ exc_str e +:+ "."))
      else Some e
  end.

(** *** The user visible fixtures

    Each fixture function is followed by the way pytest sets it up, which is
    what [request.getfixturevalue] of its name does.  The session fixtures
    [django_db_setup] and [django_db_blocker] they take as arguments are the
    subject of [Session]. *)

Definition django_db_reset_sequences (env : environment) : M unit :=
  _django_db_fixture_helper env true true.

Definition get_django_db_reset_sequences (env : environment) : M unit :=
  function_fixture "django_db_reset_sequences" (django_db_reset_sequences env).

Definition transactional_db (env : environment) : M unit :=
  r ← requested env "django_db_reset_sequences";
  when r (get_django_db_reset_sequences env);;
  _django_db_fixture_helper env true false.

Definition get_transactional_db (env : environment) : M unit :=
  function_fixture "transactional_db" (transactional_db env).

Definition db (env : environment) : M unit :=
  r ← requested env "django_db_reset_sequences";
  when r (get_django_db_reset_sequences env);;
  t ← requested env "transactional_db";
  l ← requested env "live_server";
  if t || l then get_transactional_db env
  else _django_db_fixture_helper env false false.

Definition get_db (env : environment) : M unit :=
  function_fixture "db" (db env).

Definition live_server (env : environment) : M unit :=
  skip_if_no_django env;;
  let addr :=
    or_ (getvalue env "liveserver")
      (or_ (getenv env "DJANGO_LIVE_TEST_SERVER_ADDRESS") "localhost") in
  call (LiveServerStart addr) (LiveServer_raises env addr);;
  session_addfinalizer server_stop.

Definition get_live_server (env : environment) : M unit :=
  session_fixture "live_server" (live_server env).

Definition _live_server_helper (env : environment) : M unit :=
  l ← requested env "live_server";
  if negb l then mret ()
  else
    get_transactional_db env;;
    get_live_server env;;
    emit SettingsEnable;;
    addfinalizer settings_disable.

Definition get__live_server_helper (env : environment) : M unit :=
  function_fixture "_live_server_helper" (_live_server_helper env).

(** The fixtures of the file that take [db] as an argument; what their own
    bodies do with the database is not part of the trace. *)
Definition get_django_user_model (env : environment) : M unit :=
  function_fixture "django_user_model" (get_db env).

Definition get_django_username_field (env : environment) : M unit :=
  function_fixture "django_username_field" (get_django_user_model env).

Definition get_admin_user (env : environment) : M unit :=
  function_fixture "admin_user"
    (get_db env;; get_django_user_model env;; get_django_username_field env).

Definition get_admin_client (env : environment) : M unit :=
  function_fixture "admin_client" (get_db env;; get_admin_user env).

(** [request.getfixturevalue(name)].  A fixture that is not one of the above
    neither requests a database fixture nor calls the helper. *)
Definition getfixturevalue (env : environment) (name : string) : M unit :=
  if decide (name = "django_db_reset_sequences") then get_django_db_reset_sequences env
  else if decide (name = "transactional_db") then get_transactional_db env
  else if decide (name = "db") then get_db env
  else if decide (name = "live_server") then get_live_server env
  else if decide (name = "_live_server_helper") then get__live_server_helper env
  else if decide (name = "django_user_model") then get_django_user_model env
  else if decide (name = "django_username_field") then get_django_username_field env
  else if decide (name = "admin_user") then get_admin_user env
  else if decide (name = "admin_client") then get_admin_client env
  else function_fixture name (mret ()).

(** pytest sets up the fixtures of the names closure, in its order. *)
Fixpoint setup_names (env : environment) (names : list string) : M unit :=
  match names with
  | [] => mret ()
  | n :: names => getfixturevalue env n;; setup_names env names
  end.

Definition setup (env : environment) : M unit := setup_names env (names_closure env).

(** Calling a finalizer. *)
Definition finalizer_event (f : finalizer) : event :=
  match f with
  | restore => Restore
  | tearDownClass c => TearDownClass c
  | _post_teardown c => PostTeardown c
  | settings_disable => SettingsDisable
  | server_stop => LiveServerStop
  end.

(** The finalizers of the test in the order pytest calls them: fixtures set
    up last are finished first, and each calls its finalizers newest first. *)
Definition teardown_order (st : state) : list finalizer :=
  concat (map snd (finished st)).

(** Teardown of the test: every finalizer is called; one that raises does
    not keep the others from being called. *)
Definition teardown (st : state) : state :=
  {| resolved := []; own := []; finished := [];
     session_cache := session_cache st;
     session_finalizers := session_finalizers st;
     trace := trace st ++ map finalizer_event (teardown_order st) |}.

(** The run of one test: set-up, the call when set-up succeeded, teardown
    in every case. *)
Definition runtest (env : environment) (body_fails : bool) (st : state) : state :=
  match setup env st with
  | (st1, inr _) =>
      teardown (fst (emit (CallTest body_fails) st1))
  | (st1, inl _) => teardown st1
  end.

(** The part of a trace that belongs to an isolation level: the test-case
    classes on which [_pre_setup] was called. *)
Definition pre_setups (t : list event) : list test_case_class :=
  omap (fun ev => match ev with PreSetup c => Some c | _ => None end) t.

(** The states of the isolation controller. *)
Inductive isolation :=
| NoDb
| Plain
| Transactional
| TransactionalResetSeq.

(** The class the helper builds for each level. *)
Definition class_of (env : environment) (i : isolation) : option test_case_class :=
  match i with
  | NoDb => None
  | Plain => Some (PytestDjangoTestCase env false false)
  | Transactional => Some (PytestDjangoTestCase env true false)
  | TransactionalResetSeq => Some (PytestDjangoTestCase env true true)
  end.

(** The calls the helper makes when it sets a level up, and the finalizers
    it leaves, newest first. *)
Definition helper_events (env : environment) (transactional reset_sequences : bool)
    : list event :=
  let c := PytestDjangoTestCase env transactional reset_sequences in
  [Unblock; ImportString (test_case_classname env transactional); SetUpClass c; PreSetup c].

Definition helper_finalizers (env : environment) (transactional reset_sequences : bool)
    : list finalizer :=
  let c := PytestDjangoTestCase env transactional reset_sequences in
  [_post_teardown c; tearDownClass c; restore].

(** Whether the helper gets past its two early returns. *)
Definition helper_acts (env : environment) (transactional : bool) (st : state) : bool :=
  negb (is_django_unittest env)
  && (transactional
      || negb (bool_decide ("live_server" ∈ names_closure env)
               || bool_decide ("live_server" ∈ resolved st))).

(** The arguments with which the helper is called for each level. *)
Definition level_events (env : environment) (i : isolation) : list event :=
  match i with
  | NoDb => []
  | Plain => helper_events env false false
  | Transactional => helper_events env true false
  | TransactionalResetSeq => helper_events env true true
  end.

Definition level_finalizers (env : environment) (i : isolation) : list finalizer :=
  match i with
  | NoDb => []
  | Plain => helper_finalizers env false false
  | Transactional => helper_finalizers env true false
  | TransactionalResetSeq => helper_finalizers env true true
  end.

(** The levels that have been set up once the fixtures [rs] are: the one of
    [django_db_reset_sequences], then the one of [transactional_db] or else
    the one [db] sets up itself. *)
Definition levels (rs : list string) : list isolation :=
  ((if bool_decide ("django_db_reset_sequences" ∈ rs) then [TransactionalResetSeq] else [])
   ++ (if bool_decide ("transactional_db" ∈ rs) then [Transactional]
       else if bool_decide ("db" ∈ rs) then [Plain] else []))%list.

(** The events and finalizers that come from the helper. *)
Definition is_helper_event (ev : event) : bool :=
  match ev with
  | Unblock | ImportString _ | SetUpClass _ | PreSetup _ => true
  | _ => false
  end.

Definition is_helper_finalizer (f : finalizer) : bool :=
  match f with
  | restore | tearDownClass _ | _post_teardown _ => true
  | _ => false
  end.

(** The fixtures of the file that take [db] as an argument, directly or
    through another fixture, and [db] with them. *)
Definition needs_db : list string :=
  ["django_user_model"; "django_username_field"; "admin_user"; "admin_client"].

Definition db_users : list string := "db" :: needs_db.

(** The names closure has [db] or a fixture that needs it. *)
Definition db_wanted (env : environment) : Prop :=
  ∃ n, n ∈ db_users ∧ n ∈ names_closure env.

(** What holds of the state between two fixtures of a test that is not a
    Django test case. *)
Record consistent (env : environment) (st : state) : Prop := Consistent {
  reset_declared :
    "django_db_reset_sequences" ∈ resolved st →
    "django_db_reset_sequences" ∈ names_closure env;
  transactional_wanted :
    "transactional_db" ∈ resolved st →
    "transactional_db" ∈ names_closure env ∨ "live_server" ∈ names_closure env;
  live_declared :
    "live_server" ∈ resolved st → "live_server" ∈ names_closure env;
  db_declared :
    ∀ n, n ∈ db_users → n ∈ resolved st → db_wanted env;
  transactional_after_reset :
    "transactional_db" ∈ resolved st →
    "django_db_reset_sequences" ∈ names_closure env →
    "django_db_reset_sequences" ∈ resolved st;
  db_after_reset :
    "db" ∈ resolved st →
    "django_db_reset_sequences" ∈ names_closure env →
    "django_db_reset_sequences" ∈ resolved st;
  db_after_transactional :
    "db" ∈ resolved st →
    "transactional_db" ∈ names_closure env ∨ "live_server" ∈ names_closure env →
    "transactional_db" ∈ resolved st;
  helper_trace :
    List.filter is_helper_event (trace st)
    = flat_map (level_events env) (levels (resolved st));
  helper_teardown :
    List.filter is_helper_finalizer (teardown_order st)
    = flat_map (level_finalizers env) (rev (levels (resolved st)));
  nothing_else :
    "live_server" ∉ names_closure env →
    List.filter is_helper_event (trace st) = trace st
    ∧ List.filter is_helper_finalizer (teardown_order st) = teardown_order st
}.

(** Django and the live server never raise. *)
Definition healthy (env : environment) : Prop :=
  (∀ p, import_string env p = None)
  ∧ (∀ c, setUpClass_raises env c = None)
  ∧ (∀ c, _pre_setup_raises env c = None)
  ∧ no_django env = None
  ∧ (∀ a, LiveServer_raises env a = None).

(** *** Reasoning about fixture code

    [wp F m Q st]: running [m] from [st] returns with [Q] or, when it raises,
    [F] holds.  With [F := True] this is "if [m] returns then [Q]", with
    [F := False] it is "[m] returns and [Q]". *)
Definition wp {A} (F : Prop) (m : M A) (Q : A -> state -> Prop) (st : state) : Prop :=
  match m st with
  | (st', inr a) => Q a st'
  | (_, inl _) => F
  end.

(** [F] holds whenever Django or the live server raises. *)
Definition excused (F : Prop) (env : environment) : Prop :=
  (∀ p e, import_string env p = Some e → F)
  ∧ (∀ c e, setUpClass_raises env c = Some e → F)
  ∧ (∀ c e, _pre_setup_raises env c = Some e → F)
  ∧ (∀ e, no_django env = Some e → F)
  ∧ (∀ a e, LiveServer_raises env a = Some e → F).

(** What setting a fixture up keeps of the state it starts from: the
    finalizers of the fixture that asked for it and the fixtures set up
    before. *)
Definition kept (st st' : state) : Prop :=
  own st' = own st ∧ ∀ n, n ∈ resolved st → n ∈ resolved st'.

(** *** Environments to try the fixtures on *)

(** A test with the given names closure, no options, no environment
    variables, and a Django that never raises. *)
Definition defaults (names : list string) : environment :=
  {| names_closure := names;
     is_django_unittest := false;
     _pytest_django_databases := None;
     getvalue := fun _ => None;
     getenv := fun _ => None;
     import_string := fun _ => None;
     setUpClass_raises := fun _ => None;
     _pre_setup_raises := fun _ => None;
     no_django := None;
     LiveServer_raises := fun _ => None |}.

(** The same with [--transaction-testcase-class=nomodule] on the command
    line, a path [import_string] cannot split into module and class. *)
Definition nomodule (names : list string) : environment :=
  {| names_closure := names;
     is_django_unittest := false;
     _pytest_django_databases := None;
     getvalue := fun o =>
       if String.eqb o "transaction_testcase_class" then Some "nomodule" else None;
     getenv := fun _ => None;
     import_string := fun p =>
       if String.eqb p "nomodule"
       then Some (ImportError "nomodule doesn't look like a module path")
       else None;
     setUpClass_raises := fun _ => None;
     _pre_setup_raises := fun _ => None;
     no_django := None;
     LiveServer_raises := fun _ => None |}.

(** [m] keeps the state consistent, and leaves the fixture [n] set up. *)
Definition preserving (F : Prop) (env : environment) (m : M unit) : Prop :=
  ∀ st, consistent env st →
        wp F m (fun _ st' => consistent env st' ∧ kept st st') st.

Definition resolving (F : Prop) (env : environment) (n : string) (m : M unit) : Prop :=
  ∀ st, consistent env st →
        wp F m (fun _ st' => consistent env st' ∧ kept st st' ∧ n ∈ resolved st') st.

End Isolation.

(* ===================================================================== *)
(** ** Names before the suffix *)
(* ===================================================================== *)

Module Naming.
Import Py Suffix.

(** The name [_set_suffix_to_test_databases] appends the suffix to: the
    configured test name or, without one, [test_<NAME>]. *)
Definition base_name (d : db_settings) : string :=
  if truthy (get_test_name d) then fmt (get_test_name d)
  else "test_" +:+ fmt (default None_ (items d !! "NAME")).

(** [not x] for what [os.getenv] and [dict.get] return. *)
Definition falsy (x : option string) : Prop := x = None ∨ x = Some "".

(** The keys of the ["TEST"] dictionary of an entry; none when the entry
    has no such dictionary. *)
Definition test_settings (d : db_settings) : gmap string val := default ∅ (TEST d).

End Naming.

(* ===================================================================== *)
(** ** The command-line flags of the database set-up *)
(* ===================================================================== *)

Module Options.
Import Py.

(** What [request.config.getvalue] returns for the three flags. *)
Record config := Config {
  nomigrations : bool;
  reuse_db : bool;
  create_db : bool
}.

Definition django_db_use_migrations (cfg : config) : bool := negb (nomigrations cfg).

Definition django_db_keepdb (cfg : config) : bool := reuse_db cfg.

Definition django_db_createdb (cfg : config) : bool := create_db cfg.

(** [django_db_setup] with its three boolean arguments set up by pytest from
    the fixtures above. *)
Definition django_db_setup (env : Session.environment) (cfg : config)
    (st : Session.state) : Session.state * option exc :=
  Session.django_db_setup env (django_db_use_migrations cfg)
    (django_db_keepdb cfg) (django_db_createdb cfg) st.

(** The session around it. *)
Definition session (env : Session.environment) (cfg : config)
    (st : Session.state) : Session.state * list exc :=
  Session.session env (django_db_use_migrations cfg)
    (django_db_keepdb cfg) (django_db_createdb cfg) st.

(** How often the gate was opened and how often it was restored. *)
Definition unblocks (t : list Session.event) : nat :=
  length (List.filter (fun ev => match ev with Session.Unblock => true | _ => false end) t).

Definition restores (t : list Session.event) : nat :=
  length (List.filter (fun ev => match ev with Session.Restore => true | _ => false end) t).

End Options.

(* ===================================================================== *)
(** ** The settings fixture ([SettingsWrapper]) *)
(* ===================================================================== *)

Module SettingsFixture.
Import Py.

(** An [override_settings] object after [enable()].  Django's [enable]
    keeps in the object the settings that were in force and puts the
    options on top of them; [disable] puts back what the object keeps. *)
Record override := Override {
  options : gmap string val;     (* the keyword arguments of override_settings *)
  wrapped : gmap string val      (* the settings in force when it was enabled *)
}.

Record state := State {
  conf : gmap string val;        (* the settings [django.conf.settings] shows,
                                    by their upper-case names *)
  _to_restore : list override    (* the class attribute of SettingsWrapper, which
                                    every wrapper appends to; oldest first *)
}.

(** [override_settings] called with the options as keyword arguments, then
    [override.enable()]. *)
Definition enable (opts : gmap string val) (st : state) : override * state :=
  ({| options := opts; wrapped := conf st |},
   {| conf := opts ∪ conf st; _to_restore := _to_restore st |}).

(** [override.disable()] *)
Definition disable (o : override) (st : state) : state :=
  {| conf := wrapped o; _to_restore := _to_restore st |}.

(** [self._to_restore.append(override)] *)
Definition append (o : override) (st : state) : state :=
  {| conf := conf st; _to_restore := _to_restore st ++ [o] |}.

(** [del wrapper.attr].  Deleting from Django's settings a name they do not
    have raises nothing. *)
Definition __delattr__ (attr : string) (st : state) : state :=
  let '(o, st) := enable ∅ st in
  let st := {| conf := delete attr (conf st); _to_restore := _to_restore st |} in
  append o st.

(** [wrapper.attr = value] *)
Definition __setattr__ (attr : string) (value : val) (st : state) : state :=
  let '(o, st) := enable {[ attr := value ]} st in
  append o st.

Definition AttributeError (attr : string) : exc :=
  {| exc_class := "AttributeError";
     exc_bases := ["Exception"; "BaseException"];
     exc_str := attr |}.

(** [wrapper.attr] *)
Definition __getattr__ (attr : string) (st : state) : exc + val :=
  match conf st !! attr with
  | Some v => inr v
  | None => inl (AttributeError attr)
  end.

(** [wrapper.finalize()] *)
Definition finalize (st : state) : state :=
  let st := foldl (fun st o => disable o st) st (rev (_to_restore st)) in
  {| conf := conf st; _to_restore := [] |}.

(** What a test does with the wrapper it is given. *)
Inductive change :=
| Set_ (attr : string) (value : val)
| Del (attr : string).

Definition apply (c : change) (st : state) : state :=
  match c with
  | Set_ attr value => __setattr__ attr value st
  | Del attr => __delattr__ attr st
  end.

Definition apply_all (cs : list change) (st : state) : state :=
  foldl (fun st c => apply c st) st cs.

(** The fixture [settings] around a test that makes the changes [cs]; the
    part after [yield] runs whether the test passes or fails.  [no_django]
    is what [skip_if_no_django()] raises, if it does. *)
Definition settings (no_django : option exc) (cs : list change) (st : state)
    : state * option exc :=
  match no_django with
  | Some e => (st, Some e)
  | None => (finalize (apply_all cs st), None)
  end.

End SettingsFixture.

(* ===================================================================== *)
(** ** Counting what the isolation fixtures do to the gate *)
(* ===================================================================== *)

Module Gate.
Import Py Isolation.

(** How often the gate was opened and restored in a trace. *)
Definition opened (t : list event) : nat :=
  length (List.filter (fun ev => match ev with Unblock => true | _ => false end) t).

Definition restored (t : list event) : nat :=
  length (List.filter (fun ev => match ev with Restore => true | _ => false end) t).

(** The calls that come from [_django_db_fixture_helper] or from the
    finalizers it registers. *)
Definition is_isolation_event (ev : event) : bool :=
  match ev with
  | Unblock | Restore | ImportString _ | SetUpClass _ | TearDownClass _
  | PreSetup _ | PostTeardown _ => true
  | _ => false
  end.

(** The [django_db_blocker.restore] among some finalizers, and the
    finalizers of the helper among them. *)
Definition restores (fs : list finalizer) : nat :=
  length (List.filter (fun f => match f with restore => true | _ => false end) fs).

Definition helpers (fs : list finalizer) : nat :=
  length (List.filter is_helper_finalizer fs).

(** From [st] to [st']: every opening of the gate came with a [restore]
    finalizer, in the fixture being set up or in one that is finished; the
    gate was not restored yet; and in a Django test case nothing of the
    helper happened. *)
Definition gate_kept (env : environment) (st st' : state) : Prop :=
  opened (trace st') + (restores (own st) + restores (teardown_order st))
  = opened (trace st) + (restores (own st') + restores (teardown_order st'))
  ∧ restored (trace st') = restored (trace st)
  ∧ (is_django_unittest env = true →
     length (List.filter is_isolation_event (trace st'))
     = length (List.filter is_isolation_event (trace st))
     ∧ helpers (own st') + helpers (teardown_order st')
       = helpers (own st) + helpers (teardown_order st)).

(** Fixture code that keeps the gate this way whether it returns or raises,
    and sets up no fixture outside [names]. *)
Definition respects (env : environment) (names : list string) (m : M unit) : Prop :=
  ∀ st, gate_kept env st (m st).1
        ∧ ∀ n, n ∈ resolved (m st).1 → n ∈ resolved st ∨ n ∈ names.

(** The fixtures that other fixtures ask for: no fixture of the file asks
    for [_live_server_helper] or [admin_client]. *)
Definition below : list string :=
  ["django_db_reset_sequences"; "transactional_db"; "db"; "live_server";
   "django_user_model"; "django_username_field"; "admin_user"].

(** A Django test case that uses the three database fixtures and
    [live_server]. *)
Definition marked_test_case : environment :=
  {| names_closure := ["live_server"; "_live_server_helper"; "db";
                       "transactional_db"; "django_db_reset_sequences"];
     is_django_unittest := true;
     _pytest_django_databases := None;
     getvalue := fun _ => None;
     getenv := fun _ => None;
     import_string := fun _ => None;
     setUpClass_raises := fun _ => None;
     _pre_setup_raises := fun _ => None;
     no_django := None;
     LiveServer_raises := fun _ => None |}.

(** A test whose database cannot be flushed: [_pre_setup] raises. *)
Definition flush_fails (names : list string) : environment :=
  {| names_closure := names;
     is_django_unittest := false;
     _pytest_django_databases := None;
     getvalue := fun _ => None;
     getenv := fun _ => None;
     import_string := fun _ => None;
     setUpClass_raises := fun _ => None;
     _pre_setup_raises := fun _ =>
       Some {| exc_class := "OperationalError";
               exc_bases := ["DatabaseError"; "Error"; "Exception"; "BaseException"];
               exc_str := "database is locked" |};
     no_django := None;
     LiveServer_raises := fun _ => None |}.

(** A test on two databases, with the plain test-case class taken from the
    environment variable. *)
Definition two_databases (names : list string) : environment :=
  {| names_closure := names;
     is_django_unittest := false;
     _pytest_django_databases := Some (Aliases ["default"; "replica"]);
     getvalue := fun _ => None;
     getenv := fun v =>
       if String.eqb v "DJANGO_TEST_CASE_CLASS" then Some "myproject.tests.Base" else None;
     import_string := fun _ => None;
     setUpClass_raises := fun _ => None;
     _pre_setup_raises := fun _ => None;
     no_django := None;
     LiveServer_raises := fun _ => None |}.

End Gate.

(* ===================================================================== *)
(** ** Capturing on-commit callbacks ([_capture_on_commit_callbacks]) *)
(* ===================================================================== *)

Module OnCommit.
Import Py.

(** An element of [connection.run_on_commit]: the savepoint ids and the
    callback, which is known by a number. *)
Record entry := Entry { sids : list string; func : nat }.

(** [connections]: the list [run_on_commit] of each connection. *)
Record world := World {
  connections : gmap string (list entry)
}.

(** What the block under the context manager did: the connections as it
    leaves them, and the exception it raised, if any. *)
Record block := Block {
  after : world;
  raised : option exc
}.

Record environment := Environment {
  django_version : nat * nat;                  (* the start of get_django_version() *)
  DEFAULT_DB_ALIAS : string;
  ConnectionDoesNotExist : string -> exc;      (* raised by connections[alias] *)
  call : nat -> option exc;                    (* calling a callback; [Some e]: it raises *)
  captureOnCommitCallbacks :                   (* Django's own context manager *)
    string -> bool -> world -> block -> list nat * list nat * option exc
}.

(** [version < (3, 2)] on tuples that start with [version]. *)
Definition before_3_2 (version : nat * nat) : bool :=
  Nat.ltb version.1 3 || (Nat.eqb version.1 3 && Nat.ltb version.2 2).

(** [for callback in callbacks: callback()]: the callbacks that were called
    and the exception that ended the loop, if any. *)
Fixpoint run (env : environment) (callbacks : list nat) : list nat * option exc :=
  match callbacks with
  | [] => ([], None)
  | c :: callbacks =>
      match call env c with
      | Some e => ([c], Some e)
      | None => let '(called, r) := run env callbacks in (c :: called, r)
      end
  end.

(** The context manager entered in [before] around block [b]: the list
    [callbacks] as it is after the [with] statement, the callbacks that were
    called, and the exception the statement raises, if any.  The argument
    [using] is written [using_]. *)
Definition _capture_on_commit_callbacks (env : environment)
    (using_ : option string) (execute : bool) (before : world) (b : block)
    : list nat * list nat * option exc :=
  let using_ := default (DEFAULT_DB_ALIAS env) using_ in
  if before_3_2 (django_version env) then
    match connections before !! using_ with
    | None => ([], [], Some (ConnectionDoesNotExist env using_))
    | Some queue =>
        let start_count := length queue in
        (* the block runs; what follows is the [finally] clause *)
        match connections (after b) !! using_ with
        | None => ([], [], Some (ConnectionDoesNotExist env using_))
        | Some queue' =>
            let run_on_commit := drop start_count queue' in
            let callbacks := map func run_on_commit in
            if execute then
              let '(called, r) := run env callbacks in
              (callbacks, called, match r with Some e => Some e | None => raised b end)
            else (callbacks, [], raised b)
        end
    end
  else captureOnCommitCallbacks env using_ execute before b.

(** *** A Django 3.1 to try the context manager on *)

Definition ValueError (msg : string) : exc :=
  {| exc_class := "ValueError"; exc_bases := ["Exception"; "BaseException"];
     exc_str := msg |}.

(** Callback 2 raises, the others return. *)
Definition django_3_1 : environment :=
  {| django_version := (3, 1);
     DEFAULT_DB_ALIAS := "default";
     ConnectionDoesNotExist := fun a =>
       {| exc_class := "ConnectionDoesNotExist";
          exc_bases := ["Exception"; "BaseException"];
          exc_str := "The connection " +:+ a +:+ " doesn't exist" |};
     call := fun c => if Nat.eqb c 2 then Some (ValueError "callback 2") else None;
     captureOnCommitCallbacks := fun _ _ _ _ => ([], [], None) |}.

(** One callback is pending on the default connection, none on the other. *)
Definition one_pending : world :=
  {| connections := {[ "default" := [ {| sids := ["s1"]; func := 0 |} ];
                       "replica" := [] ]} |}.

(** A block that registers the callbacks 1, 2 and 3 on the default
    connection and 9 on the other, and then raises. *)
Definition registers_three : block :=
  {| after :=
       {| connections :=
            {[ "default" := [ {| sids := ["s1"]; func := 0 |};
                              {| sids := ["s1"]; func := 1 |};
                              {| sids := ["s1"; "s2"]; func := 2 |};
                              {| sids := ["s1"]; func := 3 |} ];
               "replica" := [ {| sids := []; func := 9 |} ] ]} |};
     raised := Some (ValueError "the block") |}.

End OnCommit.

(* ===================================================================== *)
(** ** The admin user ([admin_user]) *)
(* ===================================================================== *)

Module AdminUser.
Import Py.

(** The two attributes of the user model the fixtures read. *)
Record user_model := UserModel {
  USERNAME_FIELD : string;
  REQUIRED_FIELDS : list string
}.

(** What [get_by_natural_key] does: it returns a user, raises
    [UserModel.DoesNotExist], or raises something else. *)
Inductive lookup :=
| Found (user : nat)
| DoesNotExist
| Fails (e : exc).

Record environment := Environment {
  django_user_model : user_model;
  get_by_natural_key : string -> lookup;
  create_superuser : gmap string string -> exc + nat   (* called with keyword arguments *)
}.

(** The calls on [UserModel._default_manager]. *)
Inductive event :=
| GetByNaturalKey (username : string)
| CreateSuperuser (user_data : gmap string string).

Definition django_username_field (env : environment) : string :=
  USERNAME_FIELD (django_user_model env).

(** The dictionary [user_data] built when the user does not exist. *)
Definition user_data (model : user_model) (username_field username : string)
    : gmap string string :=
  let user_data := ∅ in
  let user_data :=
    if bool_decide ("email" ∈ REQUIRED_FIELDS model)
    then <["email" := "admin@example.com"]> user_data else user_data in
  let user_data := <["password" := "password"]> user_data in
  <[username_field := username]> user_data.

Definition admin_user (env : environment) : list event * (exc + nat) :=
  let UserModel := django_user_model env in
  let username_field := django_username_field env in
  let username :=
    if String.eqb username_field "email" then "admin@example.com" else "admin" in
  match get_by_natural_key env username with
  | Found user => ([GetByNaturalKey username], inr user)
  | Fails e => ([GetByNaturalKey username], inl e)
  | DoesNotExist =>
      let data := user_data UserModel username_field username in
      ([GetByNaturalKey username; CreateSuperuser data], create_superuser env data)
  end.

(** A model that logs in by e-mail address and has no user yet. *)
Definition email_login : environment :=
  {| django_user_model := {| USERNAME_FIELD := "email"; REQUIRED_FIELDS := ["name"] |};
     get_by_natural_key := fun _ => DoesNotExist;
     create_superuser := fun _ => inr 1 |}.

End AdminUser.

(* ===================================================================== *)
(** * Properties *)
(* ===================================================================== *)

(** ** Strings *)

Module PyFacts.
Import Py.

Lemma append_cons (c : Ascii.ascii) (s t : string) :
  String c s +:+ t = String c (s +:+ t).
Proof. reflexivity. Qed.

Lemma append_empty_l (s : string) : "" +:+ s = s.
Proof. reflexivity. Qed.

Lemma append_empty_r (s : string) : s +:+ "" = s.
Proof. induction s as [|c s IH]; [reflexivity|]. rewrite append_cons. by rewrite IH. Qed.

Lemma append_assoc (a b c : string) : (a +:+ b) +:+ c = a +:+ (b +:+ c).
Proof.
  induction a as [|ch a IH]; [reflexivity|].
  rewrite !append_cons. by rewrite IH.
Qed.

Lemma contains_prefix (sub rest : string) : contains sub (sub +:+ rest).
Proof. exists "", rest. reflexivity. Qed.

Lemma or_truthy (s : string) (y : string) : s ≠ "" → or_ (Some s) y = s.
Proof.
  intros Hs. unfold or_. destruct (String.eqb_spec s "") as [->|_]; [done | reflexivity].
Qed.

Lemma or_none (y : string) : or_ None y = y.
Proof. reflexivity. Qed.

End PyFacts.

Create Rewrite HintDb pystr.
#[export] Hint Rewrite PyFacts.append_cons PyFacts.append_empty_l
  PyFacts.append_empty_r PyFacts.append_assoc : pystr.

(** ** Query-count assertions *)

Module QueriesFacts.
Import Py Queries.

(** The message of [failure_message] in exact mode, cut into its three
    parts. *)
Lemma failure_message_exact (verbose : bool) (num : Z) (info : option string)
    (performed : Z) (qs : list query) :
  failure_message verbose num true info performed qs
  = exact_headline num performed +:+ info_part info +:+ tail_part verbose qs.
Proof.
  unfold failure_message, exact_headline, info_part, tail_part.
  destruct info as [i|]; [destruct (String.eqb i "")|];
    destruct verbose; autorewrite with pystr; reflexivity.
Qed.

(** A block that raises is not judged: its exception leaves the [with]. *)
Lemma assert_num_queries_block_raises (cfg : config) (num : Z) (exact : bool)
    (info : option string) (qs : list query) (e : exc) :
  _assert_num_queries cfg num exact info {| captured_queries := qs; raised := Some e |}
  = Propagated e.
Proof. reflexivity. Qed.

(** C9: in exact mode a block that runs to its end passes exactly when it
    performed [num] queries; otherwise the assertion fails with the headline
    naming both counts, the info, and then the executed statements (verbose)
    or the hint to add -v; for two expected and three performed the message
    starts with "Expected to perform 2 queries but 3 were". *)
Theorem django_assert_num_queries_exact (cfg : config) (num : Z)
    (info : option string) (qs : list query) :
  let performed := Z.of_nat (length qs) in
  let verbose := (0 <? verbose_option cfg)%Z in
  let r := django_assert_num_queries cfg num info
             {| captured_queries := qs; raised := None |} in
  (r = Passed ↔ num = performed)
  ∧ (if decide (num = performed) then r = Passed
     else r = Failed (exact_headline num performed +:+ info_part info
                      +:+ (if verbose
                           then nl +:+ nl +:+ "Queries:" +:+ nl +:+ "========" +:+ nl +:+ nl
                                +:+ join (nl +:+ nl) (map sql qs)
                           else " (add -v option to show queries)"))
            ∧ contains (pretty num) (exact_headline num performed)
            ∧ contains (pretty performed) (exact_headline num performed))
  ∧ (∀ q1 q2 q3 : query, ∃ rest,
        django_assert_num_queries cfg 2 info
          {| captured_queries := [q1; q2; q3]; raised := None |}
        = Failed ("Expected to perform 2 queries but 3 were" +:+ rest)).
Proof.
  intros performed verbose r.
  assert (Hr : r = if decide (num = performed) then Passed
                   else Failed (failure_message verbose num true info performed qs)).
  { subst r. unfold django_assert_num_queries, _assert_num_queries; simpl.
    fold performed. unfold num_performed_of; simpl. fold performed. fold verbose.
    destruct (Z.eqb_spec num performed) as [Heq|Hne]; simpl;
      destruct (decide (num = performed)); congruence. }
  split; [|split].
  - rewrite Hr. destruct (decide (num = performed)); split; congruence.
  - rewrite Hr. destruct (decide (num = performed)) as [|Hne]; [reflexivity|].
    split; [|split].
    + rewrite failure_message_exact. unfold tail_part.
      destruct verbose; autorewrite with pystr; reflexivity.
    + unfold exact_headline, fmt.
      exists "Expected to perform ". eexists. reflexivity.
    + unfold exact_headline, fmt.
      destruct (Z.eqb_spec performed 1) as [->|_].
      * exists ("Expected to perform " +:+ pretty num +:+ " queries but "), " was done".
        autorewrite with pystr. reflexivity.
      * exists ("Expected to perform " +:+ pretty num +:+ " queries but "), " were done".
        autorewrite with pystr. reflexivity.
  - intros q1 q2 q3. eexists.
    unfold django_assert_num_queries, _assert_num_queries; simpl.
    rewrite failure_message_exact. unfold exact_headline; simpl.
    change (fmt 2) with "2". change (fmt 3) with "3".
    autorewrite with pystr. reflexivity.
Qed.

(** C10: in upper-bound mode a block that runs to its end fails exactly
    when it performed more than [num] queries; with exactly [num] it passes. *)
Theorem django_assert_max_num_queries_bound (cfg : config) (num : Z)
    (info : option string) (qs : list query) :
  let performed := Z.of_nat (length qs) in
  let r := django_assert_max_num_queries cfg num info
             {| captured_queries := qs; raised := None |} in
  ((∃ msg, r = Failed msg) ↔ (num < performed)%Z)
  ∧ (r = Passed ↔ (performed <= num)%Z)
  ∧ (num = performed → r = Passed).
Proof.
  intros performed r. subst r.
  unfold django_assert_max_num_queries, _assert_num_queries, num_performed_of; simpl.
  fold performed.
  destruct (Z.ltb_spec num performed) as [Hlt|Hge].
  - split; [|split].
    + split; [intros _; exact Hlt | intros _; eexists; reflexivity].
    + split; [discriminate | lia].
    + lia.
  - split; [|split].
    + split; [intros [msg Hmsg]; discriminate | lia].
    + split; [intros _; exact Hge | reflexivity].
    + reflexivity.
Qed.

End QueriesFacts.

(** ** Parallel suffixes *)

Module SuffixFacts.
Import Py Suffix.

(** One iteration of the loop follows the rule of the specification. *)
Lemma suffix_one_suffixed (suffix : string) (d : db_settings) :
  configured d → suffix_one suffix d = inr (suffixed suffix d).
Proof.
  intros [[engine Hengine] [name Hname]].
  unfold suffix_one, loop_body, suffixed, in_memory, subscript.
  rewrite Hengine, Hname.
  destruct (get_test_name d) as [|t] eqn:Ht; simpl;
    [| destruct (String.eqb_spec t "") as [->|Hnonempty]; simpl];
    repeat (case_decide || case_bool_decide); simplify_eq/=;
    autorewrite with pystr; try done.
Qed.

(** The loop applies the rule to every entry and raises nothing. *)
Lemma set_suffix_map (suffix : string) (dbs : databases) :
  Forall (fun ad => configured ad.2) dbs →
  _set_suffix_to_test_databases suffix dbs
  = (map (fun ad => (ad.1, suffixed suffix ad.2)) dbs, None).
Proof.
  induction 1 as [|[alias d] dbs Hd _ IH]; simpl; [reflexivity|].
  rewrite (suffix_one_suffixed suffix d Hd), IH. reflexivity.
Qed.

(** A missing ["ENGINE"] is a [KeyError] when the entry has no test name. *)
Lemma suffix_one_no_engine (suffix : string) (d : db_settings) :
  truthy (get_test_name d) = false → items d !! "ENGINE" = None →
  suffix_one suffix d = inl (KeyError "ENGINE").
Proof.
  intros Ht He. unfold suffix_one, loop_body, subscript. by rewrite Ht, He.
Qed.

(** [suffixed] keeps the keys [configured] asks for. *)
Lemma suffixed_configured (suffix : string) (d : db_settings) :
  configured d → configured (suffixed suffix d).
Proof.
  unfold configured, suffixed.
  destruct (in_memory d); [done|].
  destruct (get_test_name d) as [|t]; [done|]. by destruct (String.eqb t "").
Qed.

Lemma get_test_name_set (d : db_settings) (name : string) :
  get_test_name (set_test_name d name) = Str name.
Proof. unfold get_test_name, set_test_name; simpl. by rewrite lookup_insert_eq. Qed.

(** What the rule does to one entry, case by case. *)
Lemma suffixed_cases (suffix : string) (d : db_settings) :
  items (suffixed suffix d) = items d
  ∧ (∀ t, get_test_name d = Str t → t ≠ "" → t ≠ ":memory:" →
       get_test_name (suffixed suffix d) = Str (t +:+ "_" +:+ suffix))
  ∧ (∀ n, truthy (get_test_name d) = false →
       items d !! "ENGINE" ≠ Some (Str "django.db.backends.sqlite3") →
       items d !! "NAME" = Some (Str n) →
       get_test_name (suffixed suffix d) = Str ("test_" +:+ n +:+ "_" +:+ suffix))
  ∧ (in_memory d = true → suffixed suffix d = d).
Proof.
  unfold suffixed. repeat split.
  - destruct (in_memory d); [done|].
    destruct (get_test_name d) as [|t]; [done|]. by destruct (String.eqb t "").
  - intros t Ht Hne Hmem. unfold in_memory. rewrite Ht; simpl.
    destruct (String.eqb_spec t "") as [->|_]; [done|]; simpl.
    rewrite bool_decide_eq_false_2 by congruence.
    apply get_test_name_set.
  - intros n Ht Hengine Hname. unfold in_memory. rewrite Ht, Hname; simpl.
    rewrite bool_decide_eq_false_2 by done.
    destruct (get_test_name d) as [|t] eqn:Hd.
    + rewrite bool_decide_eq_false_2 by done. simpl. apply get_test_name_set.
    + simpl in Ht. apply negb_false_iff in Ht. rewrite Ht.
      apply String.eqb_eq in Ht as ->.
      rewrite bool_decide_eq_false_2 by done. simpl. apply get_test_name_set.
  - by intros ->.
Qed.



End SuffixFacts.

(** ** Session database setup *)

Module SessionFacts.
Import Py Session.

(** [_disable_native_migrations] and the helpers only touch their own
    fields. *)
Lemma run_finalizer_keeps_registry (env : environment) (f : finalizer) (st : state) :
  MIGRATION_MODULES (run_finalizer env f st).1 = MIGRATION_MODULES st
  ∧ migrate_Command (run_finalizer env f st).1 = migrate_Command st.
Proof.
  destruct f as [cfg]; simpl.
  destruct (teardown_databases env cfg) as [e|]; [|done].
  by destruct (isinstance e "Exception").
Qed.

Lemma run_finalizers_keep_registry (env : environment) (fs : list finalizer) (st : state) :
  MIGRATION_MODULES (run_finalizers env fs st).1 = MIGRATION_MODULES st
  ∧ migrate_Command (run_finalizers env fs st).1 = migrate_Command st.
Proof.
  revert st. induction fs as [|f fs IH]; intros st; simpl; [done|].
  pose proof (run_finalizer_keeps_registry env f st) as [H1 H2].
  destruct (run_finalizer env f st) as [st1 r]; simpl in *.
  specialize (IH st1) as [H3 H4].
  destruct (run_finalizers env fs st1) as [st2 errs]; simpl in *.
  split; congruence.
Qed.

Lemma django_db_setup_registry (env : environment)
    (use_migrations keepdb createdb : bool) (st : state) :
  let st1 := (django_db_setup env use_migrations keepdb createdb st).1 in
  MIGRATION_MODULES st1
  = (if use_migrations then MIGRATION_MODULES st else DisableMigrations)
  ∧ migrate_Command st1
    = (if use_migrations then migrate_Command st
       else MigrateSilentCommand (migrate_Command st)).
Proof.
  unfold django_db_setup.
  destruct use_migrations, keepdb, (setup_databases env); simpl; done.
Qed.

(** Once [verbosity] is 0 it stays 0 through any chain of silent commands. *)
Lemma handle_keeps_silence (c : command_class) (kwargs : gmap string kwarg) :
  kwargs !! "verbosity" = Some (KInt 0) →
  handle c kwargs !! "verbosity" = Some (KInt 0).
Proof.
  revert kwargs. induction c as [|base IH]; intros kwargs Hk; simpl; [exact Hk|].
  apply IH. apply lookup_insert_eq.
Qed.

(** Keyword arguments other than [verbosity] reach Django as they are. *)
Lemma handle_other_kwargs (c : command_class) (kwargs : gmap string kwarg) (k : string) :
  k ≠ "verbosity" → handle c kwargs !! k = kwargs !! k.
Proof.
  intros Hk. revert kwargs. induction c as [|base IH]; intros kwargs; simpl; [done|].
  rewrite IH. by apply lookup_insert_ne.
Qed.

(** C8: after [django_db_setup] with [use_migrations] false, every app name
    is in [settings.MIGRATION_MODULES] and maps to [None], and [handle] of
    [migrate.Command] enters Django's [handle] with verbosity 0 whatever the
    caller passed and whatever the command line asked for. *)
Theorem disable_native_migrations_sentinel (env : environment)
    (keepdb createdb : bool) (st : state) :
  let st1 := (django_db_setup env false keepdb createdb st).1 in
  MIGRATION_MODULES st1 = DisableMigrations
  ∧ (∀ app : string,
        contains_ (MIGRATION_MODULES st1) app = true
        ∧ getitem (MIGRATION_MODULES st1) app = inr None_)
  ∧ migrate_Command st1 = MigrateSilentCommand (migrate_Command st)
  ∧ (∀ kwargs : gmap string kwarg,
        handle (migrate_Command st1) kwargs !! "verbosity" = Some (KInt 0)
        ∧ ∀ k, k ≠ "verbosity" → handle (migrate_Command st1) kwargs !! k = kwargs !! k).
Proof.
  intros st1.
  destruct (django_db_setup_registry env false keepdb createdb st) as [Hm Hc].
  fold st1 in Hm, Hc. simpl in Hm, Hc. rewrite Hm, Hc.
  split; [reflexivity|]. split; [by intros app|]. split; [reflexivity|].
  intros kwargs; split.
  - simpl. apply handle_keeps_silence, lookup_insert_eq.
  - intros k Hk. by apply handle_other_kwargs.
Qed.

(** With migrations in use the registry and the command stay as they are. *)
Lemma django_db_setup_keeps_registry (env : environment)
    (keepdb createdb : bool) (st : state) :
  let st1 := (django_db_setup env true keepdb createdb st).1 in
  MIGRATION_MODULES st1 = MIGRATION_MODULES st
  ∧ migrate_Command st1 = migrate_Command st.
Proof. apply (django_db_setup_registry env true). Qed.

(** C7, as the code has it: the sentinel put in place by a session without
    migrations is still in place after the session's finalizers have run;
    a session with migrations leaves the registry as it found it.  No
    finalizer changes the registry. *)
Theorem migration_registry_after_session (env : environment)
    (use_migrations keepdb createdb : bool) (st : state) :
  let st' := (session env use_migrations keepdb createdb st).1 in
  MIGRATION_MODULES st'
  = (if use_migrations then MIGRATION_MODULES st else DisableMigrations)
  ∧ migrate_Command st'
    = (if use_migrations then migrate_Command st
       else MigrateSilentCommand (migrate_Command st))
  ∧ (∀ (f : finalizer) (s : state),
        MIGRATION_MODULES (run_finalizer env f s).1 = MIGRATION_MODULES s).
Proof.
  intros st'. subst st'. unfold session.
  pose proof (django_db_setup_registry env use_migrations keepdb createdb st) as [Hm Hc].
  destruct (django_db_setup env use_migrations keepdb createdb st) as [st1 r].
  simpl in Hm, Hc. unfold session_finish.
  match goal with
  | |- context [run_finalizers env ?fs ?s] =>
      pose proof (run_finalizers_keep_registry env fs s) as [Hm' Hc']
  end.
  simpl in Hm', Hc'.
  split; [congruence|]. split; [congruence|].
  intros f s. apply run_finalizer_keeps_registry.
Qed.

(** The sentinel is not taken back: after a whole session without
    migrations the registry differs from the one the process started with. *)
Lemma migration_registry_not_restored :
  MIGRATION_MODULES (session db_in_use false false false fresh).1 = DisableMigrations
  ∧ MIGRATION_MODULES (session db_in_use false false false fresh).1
    ≠ MIGRATION_MODULES fresh.
Proof. split; [reflexivity | discriminate]. Qed.

(** When [setup_databases] raises, the fixture raises and registers nothing. *)
Lemma django_db_setup_raises (env : environment)
    (use_migrations keepdb createdb : bool) (st : state) (e : exc) :
  setup_databases env = inl e →
  let '(st1, r) := django_db_setup env use_migrations keepdb createdb st in
  r = Some e ∧ finalizers st1 = finalizers st.
Proof.
  intros He. unfold django_db_setup. rewrite He.
  by destruct use_migrations.
Qed.

(** An exception that is an [Exception] ends as a warning. *)
Lemma teardown_database_warns (env : environment) (cfg : db_cfg) (st : state) (e : exc) :
  teardown_databases env cfg = Some e → isinstance e "Exception" = true →
  let '(st1, r) := run_finalizer env (teardown_database cfg) st in
  r = None
  ∧ warnings st1 = (warnings st ++ [teardown_warning env e])%list
  ∧ trace st1 = (trace st ++ [Unblock; TeardownDatabases cfg (verbose env); Restore])%list.
Proof.
  intros He Hi. unfold run_finalizer. rewrite He, Hi. simpl.
  split; [done|]. split; [done|]. by rewrite <- !app_assoc.
Qed.

(** Any other exception leaves the finalizer, after the gate is restored. *)
Lemma teardown_database_propagates (env : environment) (cfg : db_cfg) (st : state) (e : exc) :
  teardown_databases env cfg = Some e → isinstance e "Exception" = false →
  let '(st1, r) := run_finalizer env (teardown_database cfg) st in
  r = Some e
  ∧ warnings st1 = warnings st
  ∧ trace st1 = (trace st ++ [Unblock; TeardownDatabases cfg (verbose env); Restore])%list.
Proof.
  intros He Hi. unfold run_finalizer. rewrite He, Hi. simpl.
  split; [done|]. split; [done|]. by rewrite <- !app_assoc.
Qed.

Lemma run_finalizers_no_error (env : environment) (fs : list finalizer) (st : state) :
  (∀ cfg e, teardown_databases env cfg = Some e → isinstance e "Exception" = true) →
  (run_finalizers env fs st).2 = [].
Proof.
  intros Hexc. revert st. induction fs as [|[cfg] fs IH]; intros st; [done|].
  simpl. specialize (Hexc cfg).
  destruct (teardown_databases env cfg) as [e|].
  - rewrite (Hexc e eq_refl).
    match goal with |- context [run_finalizers env fs ?s] => specialize (IH s) end.
    by destruct (run_finalizers env fs _).
  - match goal with |- context [run_finalizers env fs ?s] => specialize (IH s) end.
    by destruct (run_finalizers env fs _).
Qed.

(** C5, as the code has it: when [django_db_setup] returns it has registered
    the teardown finalizer exactly when [keepdb] is false; a teardown that
    raises an instance of [Exception] makes the finalizer return with one
    more warning, and a session in which teardown raises nothing else ends
    without a raised exception. *)
Theorem django_db_setup_teardown (env : environment)
    (use_migrations keepdb createdb : bool) (st : state) (cfg : db_cfg) :
  setup_databases env = inr cfg →
  (∀ c e, teardown_databases env c = Some e → isinstance e "Exception" = true) →
  let st1 := (django_db_setup env use_migrations keepdb createdb st).1 in
  (django_db_setup env use_migrations keepdb createdb st).2 = None
  ∧ finalizers st1
    = (if keepdb then finalizers st else teardown_database cfg :: finalizers st)
  ∧ (∀ (s : state) (e : exc),
        teardown_databases env cfg = Some e →
        (run_finalizer env (teardown_database cfg) s).2 = None
        ∧ warnings (run_finalizer env (teardown_database cfg) s).1
          = (warnings s ++ ["Error when trying to teardown test databases: " +:+ repr env e])%list)
  ∧ (session env use_migrations keepdb createdb st).2 = [].
Proof.
  intros Hsetup Hexc st1. subst st1.
  split; [|split; [|split]].
  - unfold django_db_setup. rewrite Hsetup. by destruct keepdb.
  - unfold django_db_setup. rewrite Hsetup. by destruct use_migrations, keepdb.
  - intros s e He.
    pose proof (teardown_database_warns env cfg s e He (Hexc cfg e He)) as Hw.
    destruct (run_finalizer env (teardown_database cfg) s) as [s1 r].
    simpl. destruct Hw as (Hr & Hwarn & _). split; [exact Hr | exact Hwarn].
  - unfold session.
    destruct (django_db_setup env use_migrations keepdb createdb st) as [st2 r].
    unfold session_finish. by apply run_finalizers_no_error.
Qed.

(** A session whose teardown fails with a database error: the finalizer is
    registered, the error becomes the warning, nothing is raised. *)
Lemma django_db_setup_teardown_witness :
  setup_databases db_in_use = inr 0
  ∧ finalizers (django_db_setup db_in_use true false false fresh).1 = [teardown_database 0]
  ∧ finalizers (django_db_setup db_in_use true true false fresh).1 = []
  ∧ (session db_in_use true false false fresh).2 = []
  ∧ warnings (session db_in_use true false false fresh).1
    = ["Error when trying to teardown test databases: OperationalError('database is being accessed by other users')"].
Proof.
  assert (Hexc : ∀ c e, teardown_databases db_in_use c = Some e →
                        isinstance e "Exception" = true).
  { intros c e [= <-]. reflexivity. }
  destruct (django_db_setup_teardown db_in_use true false false fresh 0 eq_refl Hexc)
    as (_ & Hreg & _ & Hsession).
  destruct (django_db_setup_teardown db_in_use true true false fresh 0 eq_refl Hexc)
    as (_ & Hkeep & _ & _).
  split; [reflexivity|]. split; [exact Hreg|]. split; [exact Hkeep|].
  split; [exact Hsession|]. reflexivity.
Defined.

(** An interrupt from the keyboard during teardown is not an [Exception]:
    it is not caught, no warning is issued, and the session ends with it. *)
Lemma teardown_interrupt_escapes :
  teardown_databases interrupted 0 = Some KeyboardInterrupt
  ∧ (session interrupted true false false fresh).2 = [KeyboardInterrupt]
  ∧ warnings (session interrupted true false false fresh).1 = [].
Proof. repeat split. Qed.

End SessionFacts.

(** ** Per-test isolation *)

Module IsolationFacts.
Import Py Isolation.

(** *** Rules for [wp] *)

Section Rules.
Context (F : Prop).

Lemma wp_ret {A} (a : A) (Q : A → state → Prop) (st : state) :
  Q a st → wp F (mret a) Q st.
Proof. done. Qed.

Lemma wp_bind {A B} (m : M A) (f : A → M B) (Q : B → state → Prop) (st : state) :
  wp F m (fun a st' => wp F (f a) Q st') st → wp F (m ≫= f) Q st.
Proof.
  unfold wp, mbind, M_bind. destruct (m st) as [st' [e|a]]; done.
Qed.

Lemma wp_mono {A} (m : M A) (Q Q' : A → state → Prop) (st : state) :
  (∀ a st', Q a st' → Q' a st') → wp F m Q st → wp F m Q' st.
Proof.
  unfold wp. intros HQ. destruct (m st) as [st' [e|a]]; [done | apply HQ].
Qed.

Lemma wp_emit (ev : event) (Q : unit → state → Prop) (st : state) :
  Q () {| resolved := resolved st; own := own st; finished := finished st;
          session_cache := session_cache st;
          session_finalizers := session_finalizers st;
          trace := trace st ++ [ev] |} →
  wp F (emit ev) Q st.
Proof. done. Qed.

Lemma wp_call (ev : event) (r : option exc) (Q : unit → state → Prop) (st : state) :
  (∀ e, r = Some e → F) →
  Q () {| resolved := resolved st; own := own st; finished := finished st;
          session_cache := session_cache st;
          session_finalizers := session_finalizers st;
          trace := trace st ++ [ev] |} →
  wp F (call ev r) Q st.
Proof.
  intros HF HQ. unfold call. apply wp_bind, wp_emit.
  destruct r as [e|]; [exact (HF e eq_refl) | exact HQ].
Qed.

Lemma wp_addfinalizer (f : finalizer) (Q : unit → state → Prop) (st : state) :
  Q () {| resolved := resolved st; own := f :: own st; finished := finished st;
          session_cache := session_cache st;
          session_finalizers := session_finalizers st;
          trace := trace st |} →
  wp F (addfinalizer f) Q st.
Proof. done. Qed.

Lemma wp_session_addfinalizer (f : finalizer) (Q : unit → state → Prop) (st : state) :
  Q () {| resolved := resolved st; own := own st; finished := finished st;
          session_cache := session_cache st;
          session_finalizers := f :: session_finalizers st;
          trace := trace st |} →
  wp F (session_addfinalizer f) Q st.
Proof. done. Qed.

Lemma requested_eq (env : environment) (name : string) (st : state) :
  requested env name st
  = (st, inr (bool_decide (name ∈ names_closure env)
              || bool_decide (name ∈ resolved st))).
Proof.
  unfold requested, fixturenames, mbind, M_bind, mret, M_ret. do 2 f_equal.
  destruct (decide (name ∈ names_closure env)) as [Hin|Hout].
  - rewrite (bool_decide_eq_true_2 (name ∈ names_closure env) Hin). simpl.
    apply bool_decide_eq_true_2, elem_of_app. by left.
  - rewrite (bool_decide_eq_false_2 (name ∈ names_closure env) Hout). simpl.
    apply bool_decide_ext. rewrite elem_of_app, list_elem_of_filter. tauto.
Qed.

Lemma wp_requested (env : environment) (name : string)
    (Q : bool → state → Prop) (st : state) :
  Q (bool_decide (name ∈ names_closure env) || bool_decide (name ∈ resolved st)) st →
  wp F (requested env name) Q st.
Proof. unfold wp. by rewrite requested_eq. Qed.

Lemma wp_when (b : bool) (m : M unit) (Q : unit → state → Prop) (st : state) :
  (b = true → wp F m Q st) → (b = false → Q () st) → wp F (when b m) Q st.
Proof. destruct b; intros H1 H2; [by apply H1 | by apply wp_ret, H2]. Qed.

Lemma wp_function_fixture (name : string) (body : M unit)
    (Q : unit → state → Prop) (st : state) :
  (name ∈ resolved st → Q () st) →
  (name ∉ resolved st →
   wp F body (fun _ st1 =>
       Q () {| resolved := name :: resolved st1; own := own st;
               finished := (name, own st1) :: finished st1;
               session_cache := session_cache st1;
               session_finalizers := session_finalizers st1;
               trace := trace st1 |})
     {| resolved := resolved st; own := []; finished := finished st;
        session_cache := session_cache st;
        session_finalizers := session_finalizers st;
        trace := trace st |}) →
  wp F (function_fixture name body) Q st.
Proof.
  intros Hin Hout. unfold wp, function_fixture.
  destruct (decide (name ∈ resolved st)) as [H|H].
  - rewrite (bool_decide_eq_true_2 _ H). by apply Hin.
  - rewrite (bool_decide_eq_false_2 _ H). specialize (Hout H). unfold wp in Hout.
    destruct (body _) as [st1 [e|[]]]; done.
Qed.

Lemma wp_session_fixture (name : string) (body : M unit)
    (Q : unit → state → Prop) (st : state) :
  (name ∈ resolved st → Q () st) →
  (name ∉ resolved st → name ∈ session_cache st →
   Q () {| resolved := name :: resolved st; own := own st; finished := finished st;
           session_cache := session_cache st;
           session_finalizers := session_finalizers st;
           trace := trace st |}) →
  (name ∉ resolved st → name ∉ session_cache st →
   wp F body (fun _ st1 =>
       Q () {| resolved := name :: resolved st1; own := own st1;
               finished := finished st1;
               session_cache := name :: session_cache st1;
               session_finalizers := session_finalizers st1;
               trace := trace st1 |}) st) →
  wp F (session_fixture name body) Q st.
Proof.
  intros Hin Hcached Hrun. unfold wp, session_fixture.
  destruct (decide (name ∈ resolved st)) as [H|H].
  { rewrite (bool_decide_eq_true_2 _ H). by apply Hin. }
  rewrite (bool_decide_eq_false_2 _ H).
  destruct (decide (name ∈ session_cache st)) as [H'|H'].
  { rewrite (bool_decide_eq_true_2 _ H'). by apply Hcached. }
  rewrite (bool_decide_eq_false_2 _ H'). specialize (Hrun H H'). unfold wp in Hrun.
  destruct (body st) as [st1 [e|[]]]; done.
Qed.

End Rules.

(** *** The helper *)

Section Helper.
Context (F : Prop) (env : environment) (Hexc : excused F env).

Lemma wp_helper (transactional reset_sequences : bool)
    (Q : unit → state → Prop) (st : state) :
  (helper_acts env transactional st = false → Q () st) →
  (helper_acts env transactional st = true →
   Q () {| resolved := resolved st;
           own := helper_finalizers env transactional reset_sequences ++ own st;
           finished := finished st;
           session_cache := session_cache st;
           session_finalizers := session_finalizers st;
           trace := trace st ++ helper_events env transactional reset_sequences |}) →
  wp F (_django_db_fixture_helper env transactional reset_sequences) Q st.
Proof.
  destruct Hexc as (Himport & Hclass & Hpre & _ & _).
  unfold helper_acts, _django_db_fixture_helper. intros Hskip Hact.
  destruct (is_django_unittest env); [by apply wp_ret, Hskip|].
  apply wp_bind, wp_requested. simpl in Hskip, Hact.
  destruct (negb transactional && _) eqn:Hguard.
  { apply wp_ret, Hskip.
    apply andb_true_iff in Hguard as [Ht Hl].
    apply negb_true_iff in Ht. by rewrite Ht, Hl. }
  assert (Hgo : transactional
                || negb (bool_decide ("live_server" ∈ names_closure env)
                         || bool_decide ("live_server" ∈ resolved st)) = true).
  { destruct transactional; [done|]. simpl in *. by rewrite Hguard. }
  specialize (Hact Hgo).
  apply wp_bind, wp_emit. apply wp_bind, wp_addfinalizer.
  apply wp_bind, wp_call; [apply Himport|].
  apply wp_bind, wp_call; [apply Hclass|].
  apply wp_bind, wp_addfinalizer.
  apply wp_bind, wp_call; [apply Hpre|].
  apply wp_addfinalizer. simpl.
  rewrite <- !app_assoc. exact Hact.
Qed.

End Helper.

(** *** Keeping the state consistent *)

Lemma bool_decide_elem_cons (x n : string) (rs : list string) :
  bool_decide (x ∈ n :: rs) = bool_decide (x = n) || bool_decide (x ∈ rs).
Proof.
  destruct (decide (x = n)) as [->|Hne].
  - rewrite bool_decide_eq_true_2 by apply list_elem_of_here.
    by rewrite (bool_decide_eq_true_2 (n = n)).
  - rewrite (bool_decide_eq_false_2 (x = n)) by done. simpl.
    apply bool_decide_ext. rewrite elem_of_cons. tauto.
Qed.

Lemma levels_cons_other (n : string) (rs : list string) :
  n ≠ "django_db_reset_sequences" → n ≠ "transactional_db" → n ≠ "db" →
  levels (n :: rs) = levels rs.
Proof.
  intros H1 H2 H3. unfold levels. rewrite !bool_decide_elem_cons.
  rewrite (bool_decide_eq_false_2 (_ = n)) by done.
  rewrite (bool_decide_eq_false_2 (_ = n)) by done.
  by rewrite (bool_decide_eq_false_2 (_ = n)) by done.
Qed.

Lemma levels_cons_reset (rs : list string) :
  "django_db_reset_sequences" ∉ rs → "transactional_db" ∉ rs → "db" ∉ rs →
  levels ("django_db_reset_sequences" :: rs) = (levels rs ++ [TransactionalResetSeq])%list.
Proof.
  intros H1 H2 H3. unfold levels. rewrite !bool_decide_elem_cons. simpl.
  by rewrite !bool_decide_eq_false_2 by done.
Qed.

Lemma levels_cons_transactional (rs : list string) :
  "transactional_db" ∉ rs → "db" ∉ rs →
  levels ("transactional_db" :: rs) = (levels rs ++ [Transactional])%list.
Proof.
  intros H2 H3. unfold levels. rewrite !bool_decide_elem_cons. simpl.
  rewrite (bool_decide_eq_false_2 ("transactional_db" ∈ rs)) by done.
  rewrite (bool_decide_eq_false_2 ("db" ∈ rs)) by done.
  by rewrite app_nil_r.
Qed.

Lemma levels_cons_db_plain (rs : list string) :
  "transactional_db" ∉ rs → "db" ∉ rs →
  levels ("db" :: rs) = (levels rs ++ [Plain])%list.
Proof.
  intros H2 H3. unfold levels. rewrite !bool_decide_elem_cons. simpl.
  rewrite (bool_decide_eq_false_2 ("transactional_db" ∈ rs)) by done.
  rewrite (bool_decide_eq_false_2 ("db" ∈ rs)) by done.
  by rewrite app_nil_r.
Qed.

Lemma levels_cons_db_deferred (rs : list string) :
  "transactional_db" ∈ rs → levels ("db" :: rs) = levels rs.
Proof.
  intros H2. unfold levels. rewrite !bool_decide_elem_cons. simpl.
  by rewrite (bool_decide_eq_true_2 ("transactional_db" ∈ rs)) by done.
Qed.

(** The state [st'] a fixture leaves is consistent when the fixture has
    added its name, the events [evs] and the finalizers [fins] to a
    consistent state, and these are the ones of the levels [ls] its name
    adds. *)
Lemma consistent_extend (env : environment) (st st' : state) (name : string)
    (ls : list isolation) (evs : list event) (fins : list finalizer) :
  consistent env st →
  resolved st' = name :: resolved st →
  trace st' = (trace st ++ evs)%list →
  teardown_order st' = (fins ++ teardown_order st)%list →
  levels (name :: resolved st) = (levels (resolved st) ++ ls)%list →
  List.filter is_helper_event evs = flat_map (level_events env) ls →
  List.filter is_helper_finalizer fins = flat_map (level_finalizers env) (rev ls) →
  ("live_server" ∉ names_closure env →
   List.filter is_helper_event evs = evs
   ∧ List.filter is_helper_finalizer fins = fins) →
  (name = "django_db_reset_sequences" → "django_db_reset_sequences" ∈ names_closure env) →
  (name = "transactional_db" →
   ("transactional_db" ∈ names_closure env ∨ "live_server" ∈ names_closure env)
   ∧ ("django_db_reset_sequences" ∈ names_closure env →
      "django_db_reset_sequences" ∈ resolved st)) →
  (name = "live_server" → "live_server" ∈ names_closure env) →
  (name = "db" →
   ("django_db_reset_sequences" ∈ names_closure env →
    "django_db_reset_sequences" ∈ resolved st)
   ∧ ("transactional_db" ∈ names_closure env ∨ "live_server" ∈ names_closure env →
      "transactional_db" ∈ resolved st)) →
  (name ∈ db_users → db_wanted env) →
  consistent env st'.
Proof.
  intros [J1 J2 J3 J10 J4 J5 J6 J7 J8 J9] Hres Htrace Horder Hlevels Hevs Hfins Hnothing
    HR HT HL HD HU.
  split; rewrite ?Hres, ?Htrace, ?Horder, ?Hlevels.
  - rewrite elem_of_cons. intros [Heq|Hin]; [by apply HR | by apply J1].
  - rewrite elem_of_cons. intros [Heq|Hin]; [by apply HT | by apply J2].
  - rewrite elem_of_cons. intros [Heq|Hin]; [by apply HL | by apply J3].
  - intros n Hn. rewrite elem_of_cons. intros [->|Hin]; [by apply HU | by apply (J10 n)].
  - rewrite !elem_of_cons. intros [Heq|Hin] Hcl; right.
    + by apply HT.
    + by apply J4.
  - rewrite !elem_of_cons. intros [Heq|Hin] Hcl; right.
    + by apply HD.
    + by apply J5.
  - rewrite !elem_of_cons. intros [Heq|Hin] Hcl; right.
    + by apply HD.
    + by apply J6.
  - rewrite List.filter_app, J7, Hevs, flat_map_app. reflexivity.
  - rewrite List.filter_app, J8, Hfins, rev_app_distr, flat_map_app. reflexivity.
  - intros Hno. destruct (J9 Hno) as [Ht Hf]. destruct (Hnothing Hno) as [Ht' Hf'].
    rewrite !List.filter_app, Ht, Hf, Ht', Hf'. done.
Qed.

(** Membership in a list that is written out. *)
Ltac elem_now :=
  by repeat first [apply list_elem_of_here | apply list_elem_of_further].

(** A name that is not in a list that is written out. *)
Ltac not_elem_now :=
  let H := fresh in
  intros H; exfalso;
  repeat (apply elem_of_cons in H as [H|H]; [discriminate H|]);
  by apply elem_of_nil in H.

(** A name that is not one of [db_users]. *)
Ltac not_db_user :=
  let H := fresh in
  intros H; exfalso;
  repeat (apply elem_of_cons in H as [H|H]; [done|]);
  by apply elem_of_nil in H.

Lemma kept_refl (st : state) : kept st st.
Proof. by split. Qed.

(** *** The fixtures, one by one *)

Section Fixtures.
Context (F : Prop) (env : environment).
Context (Hexc : excused F env) (Hunit : is_django_unittest env = false).

Lemma helper_acts_transactional (st : state) : helper_acts env true st = true.
Proof. unfold helper_acts. by rewrite Hunit. Qed.

(** Consistency does not look at the finalizers of the fixture being set
    up, nor at the session. *)
Lemma consistent_view (st st' : state) :
  resolved st' = resolved st → finished st' = finished st → trace st' = trace st →
  consistent env st → consistent env st'.
Proof.
  intros Hr Hf Ht [J1 J2 J3 J10 J4 J5 J6 J7 J8 J9].
  split; unfold teardown_order in *; rewrite ?Hr, ?Hf, ?Ht; done.
Qed.

Lemma wp_get_django_db_reset_sequences (st : state) :
  consistent env st →
  "django_db_reset_sequences" ∈ names_closure env →
  wp F (get_django_db_reset_sequences env)
    (fun _ st' => consistent env st' ∧ kept st st'
                  ∧ "django_db_reset_sequences" ∈ resolved st'
                  ∧ ∀ n, n ∈ resolved st' →
                         n = "django_db_reset_sequences" ∨ n ∈ resolved st) st.
Proof.
  intros J Hcl. apply wp_function_fixture.
  { intros Hin. split; [done|]. split; [apply kept_refl|]. split; [done|]. by right. }
  intros Hout. unfold django_db_reset_sequences.
  apply (wp_helper F env Hexc).
  { by rewrite helper_acts_transactional. }
  intros _. simpl. split; [|split; [|split]].
  - eapply (consistent_extend env st _ "django_db_reset_sequences"
              [TransactionalResetSeq] (helper_events env true true)
              (helper_finalizers env true true ++ [])); try done; try not_db_user.
    + apply levels_cons_reset; [done| |].
      * intros Hin. by apply Hout, (transactional_after_reset env st J).
      * intros Hin. by apply Hout, (db_after_reset env st J).
  - split; [done|]. intros n Hn. simpl. by apply list_elem_of_further.
  - apply list_elem_of_here.
  - intros n. rewrite elem_of_cons. tauto.
Qed.

(** The first statement of [db] and [transactional_db]: after it the reset
    fixture is set up if the test has it, and nothing else has changed. *)
Lemma wp_when_reset (st : state) :
  consistent env st →
  wp F (when (bool_decide ("django_db_reset_sequences" ∈ names_closure env)
              || bool_decide ("django_db_reset_sequences" ∈ resolved st))
          (get_django_db_reset_sequences env))
    (fun _ st' => consistent env st' ∧ kept st st'
                  ∧ ("django_db_reset_sequences" ∈ names_closure env →
                     "django_db_reset_sequences" ∈ resolved st')
                  ∧ ∀ n, n ∈ resolved st' →
                         n = "django_db_reset_sequences" ∨ n ∈ resolved st) st.
Proof.
  intros J. apply wp_when.
  - intros Hr. apply orb_true_iff in Hr.
    assert (Hcl : "django_db_reset_sequences" ∈ names_closure env).
    { destruct Hr as [Hr|Hr]; apply bool_decide_eq_true_1 in Hr; [done|].
      by apply (reset_declared env st J). }
    eapply wp_mono; [|by apply wp_get_django_db_reset_sequences].
    intros [] st' (J' & Hkept & Hin & Hframe). done.
  - intros Hr. apply orb_false_iff in Hr as [Hcl _].
    apply bool_decide_eq_false_1 in Hcl.
    split; [done|]. split; [apply kept_refl|]. split; [done|]. by right.
Qed.

Lemma wp_get_transactional_db (st : state) :
  consistent env st →
  "transactional_db" ∈ names_closure env ∨ "live_server" ∈ names_closure env →
  wp F (get_transactional_db env)
    (fun _ st' => consistent env st' ∧ kept st st'
                  ∧ "transactional_db" ∈ resolved st') st.
Proof.
  intros J Hcl. apply wp_function_fixture.
  { intros Hin. split; [done|]. split; [apply kept_refl | done]. }
  intros Hout. unfold transactional_db.
  apply wp_bind, wp_requested. simpl resolved.
  apply wp_bind.
  eapply wp_mono;
    [| change (resolved st) with
         (resolved {| resolved := resolved st; own := []; finished := finished st;
                      session_cache := session_cache st;
                      session_finalizers := session_finalizers st;
                      trace := trace st |});
       apply wp_when_reset; by apply (consistent_view st) ].
  intros [] st1 (J1 & [Hown Hmono] & Hreset & Hframe). simpl in Hown, Hmono, Hframe.
  assert (Hout1 : "transactional_db" ∉ resolved st1).
  { intros Hin. destruct (Hframe _ Hin) as [Heq|Hin']; [discriminate Heq | done]. }
  apply (wp_helper F env Hexc).
  { by rewrite helper_acts_transactional. }
  intros _. simpl. split; [|split].
  - eapply (consistent_extend env st1 _ "transactional_db"
              [Transactional] (helper_events env true false)
              (helper_finalizers env true false ++ own st1)); try done; try not_db_user.
    + apply levels_cons_transactional; [done|].
      intros Hin. by apply Hout1, (db_after_transactional env st1 J1).
    + by rewrite Hown.
    + intros _. by rewrite Hown.
  - split; [done|]. intros n Hn. simpl. by apply list_elem_of_further, Hmono.
  - apply list_elem_of_here.
Qed.

Lemma wp_get_db (st : state) :
  consistent env st →
  db_wanted env →
  wp F (get_db env)
    (fun _ st' => consistent env st' ∧ kept st st' ∧ "db" ∈ resolved st') st.
Proof.
  intros J Hwanted_db. apply wp_function_fixture.
  { intros Hin. split; [done|]. split; [apply kept_refl | done]. }
  intros Hout. unfold db.
  apply wp_bind, wp_requested. simpl resolved.
  apply wp_bind.
  eapply wp_mono;
    [| change (resolved st) with
         (resolved {| resolved := resolved st; own := []; finished := finished st;
                      session_cache := session_cache st;
                      session_finalizers := session_finalizers st;
                      trace := trace st |});
       apply wp_when_reset; by apply (consistent_view st) ].
  intros [] st1 (J1 & [Hown Hmono] & Hreset & Hframe). simpl in Hown, Hmono, Hframe.
  assert (Hout1 : "db" ∉ resolved st1).
  { intros Hin. destruct (Hframe _ Hin) as [Heq|Hin']; [discriminate Heq | done]. }
  apply wp_bind, wp_requested. apply wp_bind, wp_requested.
  destruct (_ || _) eqn:Hwanted.
  - (* the transactional fixture takes over *)
    assert (Hcl : "transactional_db" ∈ names_closure env
                  ∨ "live_server" ∈ names_closure env).
    { apply orb_true_iff in Hwanted as [Ht|Hl].
      - apply orb_true_iff in Ht as [Ht|Ht]; apply bool_decide_eq_true_1 in Ht;
          [by left | by apply (transactional_wanted env st1 J1)].
      - apply orb_true_iff in Hl as [Hl|Hl]; apply bool_decide_eq_true_1 in Hl;
          [by right | right; by apply (live_declared env st1 J1)]. }
    eapply wp_mono; [|by apply wp_get_transactional_db].
    intros [] st2 (J2 & [Hown2 Hmono2] & Hin2). simpl.
    split; [|split].
    + eapply (consistent_extend env st2 _ "db" [] [] []); try done.
      * simpl. by rewrite app_nil_r.
      * simpl. by rewrite Hown2, Hown.
      * rewrite app_nil_r. by apply levels_cons_db_deferred.
      * intros _. split; [intros HR; by apply Hmono2, Hreset | done].
    + split; [done|]. intros n Hn. simpl. by apply list_elem_of_further, Hmono2, Hmono.
    + apply list_elem_of_here.
  - (* [db] sets the plain level up itself *)
    apply orb_false_iff in Hwanted as [Ht Hl].
    apply orb_false_iff in Ht as [Htcl Htres].
    apply bool_decide_eq_false_1 in Htcl. apply bool_decide_eq_false_1 in Htres.
    apply (wp_helper F env Hexc).
    { unfold helper_acts. by rewrite Hunit, Hl. }
    intros _. simpl. split; [|split].
    + eapply (consistent_extend env st1 _ "db" [Plain] (helper_events env false false)
                (helper_finalizers env false false ++ own st1)); try done.
      * by apply levels_cons_db_plain.
      * by rewrite Hown.
      * intros _. by rewrite Hown.
      * intros _. split; [done|]. intros [Hcl|Hcl]; [done|].
        apply orb_false_iff in Hl as [Hl _]. by apply bool_decide_eq_false_1 in Hl.
    + split; [done|]. intros n Hn. simpl. by apply list_elem_of_further, Hmono.
    + apply list_elem_of_here.
Qed.

Lemma wp_get_live_server (st : state) :
  consistent env st →
  "live_server" ∈ names_closure env →
  wp F (get_live_server env)
    (fun _ st' => consistent env st' ∧ kept st st' ∧ "live_server" ∈ resolved st') st.
Proof.
  intros J Hcl. apply wp_session_fixture.
  { intros Hin. split; [done|]. split; [apply kept_refl | done]. }
  { intros Hout Hcached. split; [|split].
    - eapply (consistent_extend env st _ "live_server" [] [] []);
        try done; try not_db_user.
      + simpl. by rewrite app_nil_r.
      + rewrite app_nil_r. by apply levels_cons_other.
    - split; [done|]. intros n Hn. simpl. by apply list_elem_of_further.
    - apply list_elem_of_here. }
  intros Hout Hfresh. unfold live_server, skip_if_no_django.
  destruct Hexc as (_ & _ & _ & Hdjango & Hserver).
  apply wp_bind.
  destruct (no_django env) as [e|]; [by apply (Hdjango e)|].
  apply wp_ret. apply wp_bind, wp_call; [apply Hserver|].
  apply wp_session_addfinalizer. simpl. split; [|split].
  - eapply (consistent_extend env st _ "live_server" [] [LiveServerStart _] []);
      try done; try not_db_user.
    rewrite app_nil_r. by apply levels_cons_other.
  - split; [done|]. intros n Hn. simpl. by apply list_elem_of_further.
  - apply list_elem_of_here.
Qed.

Lemma wp_get__live_server_helper (st : state) :
  consistent env st →
  wp F (get__live_server_helper env)
    (fun _ st' => consistent env st' ∧ kept st st'
                  ∧ "_live_server_helper" ∈ resolved st') st.
Proof.
  intros J. apply wp_function_fixture.
  { intros Hin. split; [done|]. split; [apply kept_refl | done]. }
  intros Hout. unfold _live_server_helper.
  apply wp_bind, wp_requested. simpl resolved.
  destruct (_ || _) eqn:Hlive; simpl negb; cbv iota.
  - assert (Hcl : "live_server" ∈ names_closure env).
    { apply orb_true_iff in Hlive as [Hl|Hl]; apply bool_decide_eq_true_1 in Hl;
        [done | by apply (live_declared env st J)]. }
    apply wp_bind.
    eapply wp_mono;
      [| apply wp_get_transactional_db; [by apply (consistent_view st) | by right] ].
    intros [] st1 (J1 & [Hown1 Hmono1] & _). simpl in Hown1, Hmono1.
    apply wp_bind.
    eapply wp_mono; [| by apply wp_get_live_server ].
    intros [] st2 (J2 & [Hown2 Hmono2] & _).
    apply wp_bind, wp_emit. apply wp_addfinalizer. simpl.
    split; [|split].
    + eapply (consistent_extend env st2 _ "_live_server_helper" []
                [SettingsEnable] [settings_disable]); try done; try not_db_user.
      * simpl. by rewrite Hown2, Hown1.
      * rewrite app_nil_r. by apply levels_cons_other.
    + split; [done|]. intros n Hn. simpl.
      by apply list_elem_of_further, Hmono2, Hmono1.
    + apply list_elem_of_here.
  - apply wp_ret. simpl. split; [|split].
    + eapply (consistent_extend env st _ "_live_server_helper" [] [] []);
        try done; try not_db_user.
      * simpl. by rewrite app_nil_r.
      * rewrite app_nil_r. by apply levels_cons_other.
    + split; [done|]. intros n Hn. simpl. by apply list_elem_of_further.
    + apply list_elem_of_here.
Qed.

(** A fixture that is none of the four and whose body keeps the state
    consistent. *)
Lemma resolving_fixture (name : string) (body : M unit) :
  name ≠ "django_db_reset_sequences" → name ≠ "transactional_db" →
  name ≠ "db" → name ≠ "live_server" →
  (name ∈ db_users → db_wanted env) →
  preserving F env body →
  resolving F env name (function_fixture name body).
Proof.
  intros H1 H2 H3 H4 H5 Hbody st J. apply wp_function_fixture.
  { intros Hin. split; [done|]. split; [apply kept_refl | done]. }
  intros Hout.
  eapply wp_mono; [| apply Hbody; by apply (consistent_view st) ].
  intros [] st1 (J1 & [Hown1 Hmono1]). simpl in Hown1, Hmono1. simpl.
  split; [|split].
  - eapply (consistent_extend env st1 _ name [] [] []); try done.
    + simpl. by rewrite app_nil_r.
    + simpl. by rewrite Hown1.
    + rewrite app_nil_r. by apply levels_cons_other.
  - split; [done|]. intros n Hn. simpl. by apply list_elem_of_further, Hmono1.
  - apply list_elem_of_here.
Qed.

Lemma resolving_preserving (name : string) (m : M unit) :
  resolving F env name m → preserving F env m.
Proof.
  intros Hm st J. eapply wp_mono; [|by apply Hm].
  intros [] st' (J' & Hkept & _). done.
Qed.

Lemma preserving_ret : preserving F env (mret ()).
Proof. intros st J. apply wp_ret. split; [done | apply kept_refl]. Qed.

Lemma preserving_seq (m1 m2 : M unit) :
  preserving F env m1 → preserving F env m2 → preserving F env (m1;; m2).
Proof.
  intros H1 H2 st J. apply wp_bind.
  eapply wp_mono; [|by apply H1].
  intros [] st1 (J1 & [Hown1 Hmono1]).
  eapply wp_mono; [|by apply H2].
  intros [] st2 (J2 & [Hown2 Hmono2]).
  split; [done|]. split; [congruence|]. intros n Hn. by apply Hmono2, Hmono1.
Qed.

Section DbWanted.
Context (Hwanted : db_wanted env).

Lemma resolving_get_db : resolving F env "db" (get_db env).
Proof. intros st J. by apply wp_get_db. Qed.

Lemma resolving_get_django_user_model :
  resolving F env "django_user_model" (get_django_user_model env).
Proof.
  apply resolving_fixture; try done.
  apply (resolving_preserving "db"), resolving_get_db.
Qed.

Lemma resolving_get_django_username_field :
  resolving F env "django_username_field" (get_django_username_field env).
Proof.
  apply resolving_fixture; try done.
  apply (resolving_preserving "django_user_model"), resolving_get_django_user_model.
Qed.

Lemma resolving_get_admin_user :
  resolving F env "admin_user" (get_admin_user env).
Proof.
  apply resolving_fixture; try done.
  apply preserving_seq; [|apply preserving_seq].
  - apply (resolving_preserving "db"), resolving_get_db.
  - apply (resolving_preserving "django_user_model"), resolving_get_django_user_model.
  - apply (resolving_preserving "django_username_field"),
      resolving_get_django_username_field.
Qed.

Lemma resolving_get_admin_client :
  resolving F env "admin_client" (get_admin_client env).
Proof.
  apply resolving_fixture; try done.
  apply preserving_seq.
  - apply (resolving_preserving "db"), resolving_get_db.
  - apply (resolving_preserving "admin_user"), resolving_get_admin_user.
Qed.

End DbWanted.

(** Every fixture of the names closure keeps the state consistent. *)
Lemma resolving_getfixturevalue (name : string) :
  name ∈ names_closure env → resolving F env name (getfixturevalue env name).
Proof.
  intros Hcl. unfold getfixturevalue.
  assert (Hwanted : name ∈ db_users → db_wanted env) by (intros Hu; by exists name).
  repeat case_decide; subst.
  - intros st J. eapply wp_mono; [|by apply wp_get_django_db_reset_sequences].
    intros [] st' (J' & Hkept & Hin & _). done.
  - intros st J. apply wp_get_transactional_db; [done | by left].
  - apply resolving_get_db, Hwanted; elem_now.
  - intros st J. by apply wp_get_live_server.
  - intros st J. by apply wp_get__live_server_helper.
  - apply resolving_get_django_user_model, Hwanted; elem_now.
  - apply resolving_get_django_username_field, Hwanted; elem_now.
  - apply resolving_get_admin_user, Hwanted; elem_now.
  - apply resolving_get_admin_client, Hwanted; elem_now.
  - apply resolving_fixture; try done; apply preserving_ret.
Qed.

Lemma wp_setup_names (names : list string) (st : state) :
  (∀ n, n ∈ names → n ∈ names_closure env) →
  consistent env st →
  wp F (setup_names env names)
    (fun _ st' => consistent env st' ∧ kept st st'
                  ∧ ∀ n, n ∈ names → n ∈ resolved st') st.
Proof.
  revert st. induction names as [|n names IH]; intros st Hcl J; simpl.
  { apply wp_ret. split; [done|]. split; [apply kept_refl|]. by intros n Hn%elem_of_nil. }
  apply wp_bind.
  eapply wp_mono; [| apply (resolving_getfixturevalue n); [apply Hcl; left | done] ].
  intros [] st1 (J1 & [Hown1 Hmono1] & Hin1).
  eapply wp_mono; [| apply IH; [intros m Hm; apply Hcl; by right | done] ].
  intros [] st2 (J2 & [Hown2 Hmono2] & Hin2).
  split; [done|]. split.
  - split; [congruence|]. intros m Hm. by apply Hmono2, Hmono1.
  - intros m [->|Hm]%elem_of_cons; [by apply Hmono2 | by apply Hin2].
Qed.

Lemma consistent_initial (session : list string) : consistent env (initial session).
Proof.
  split; simpl; try (by intros ?%elem_of_nil); try done.
  by intros n _ ?%elem_of_nil.
Qed.

(** Set-up of a test leaves a consistent state in which every fixture of
    the names closure is set up. *)
Lemma wp_setup (session : list string) :
  wp F (setup env)
    (fun _ st' => consistent env st' ∧ own st' = []
                  ∧ ∀ n, n ∈ names_closure env → n ∈ resolved st')
    (initial session).
Proof.
  eapply wp_mono; [| apply wp_setup_names; [done | apply consistent_initial] ].
  intros [] st' (J & [Hown _] & Hin). done.
Qed.

End Fixtures.

(** *** What set-up leaves behind *)

Lemma excused_True (env : environment) : excused True env.
Proof. repeat split. Qed.

Lemma excused_healthy (env : environment) : healthy env → excused False env.
Proof.
  intros (Himport & Hclass & Hpre & Hdjango & Hserver). repeat split.
  - intros p e. by rewrite Himport.
  - intros c e. by rewrite Hclass.
  - intros c e. by rewrite Hpre.
  - by rewrite Hdjango.
  - intros a e. by rewrite Hserver.
Qed.

Lemma healthy_defaults (names : list string) : healthy (defaults names).
Proof. repeat split. Qed.

(** If set-up returns, the state is consistent and every fixture of the
    names closure is set up. *)
Lemma setup_returned (env : environment) (session : list string) (st' : state) :
  is_django_unittest env = false →
  setup env (initial session) = (st', inr ()) →
  consistent env st' ∧ own st' = []
  ∧ ∀ n, n ∈ names_closure env → n ∈ resolved st'.
Proof.
  intros Hunit Hrun.
  pose proof (wp_setup True env (excused_True env) Hunit session) as Hwp.
  unfold wp in Hwp. by rewrite Hrun in Hwp.
Qed.

(** With a Django that never raises, set-up returns. *)
Lemma setup_returns (env : environment) (session : list string) :
  is_django_unittest env = false → healthy env →
  ∃ st', setup env (initial session) = (st', inr ()).
Proof.
  intros Hunit Hhealthy.
  pose proof (wp_setup False env (excused_healthy env Hhealthy) Hunit session) as Hwp.
  unfold wp in Hwp.
  destruct (setup env (initial session)) as [st' [e|[]]]; [done | by exists st'].
Qed.

Lemma pre_setups_app (t t' : list event) :
  pre_setups (t ++ t') = (pre_setups t ++ pre_setups t')%list.
Proof. apply omap_app. Qed.

Lemma pre_setups_filter (t : list event) :
  pre_setups (List.filter is_helper_event t) = pre_setups t.
Proof.
  induction t as [|ev t IH]; [done|].
  destruct ev; simpl; try done; unfold pre_setups in *; simpl; by rewrite ?IH.
Qed.

(** The classes on which [_pre_setup] was called are those of the levels
    that were set up. *)
Lemma pre_setups_levels (env : environment) (st : state) :
  consistent env st →
  pre_setups (trace st)
  = omap (class_of env) (levels (resolved st)).
Proof.
  intros J. rewrite <- pre_setups_filter, (helper_trace env st J).
  induction (levels (resolved st)) as [|i ls IH]; [done|].
  simpl flat_map. rewrite pre_setups_app, IH. by destruct i.
Qed.

(** A Django test case is left to Django: the helper returns at once. *)
Lemma helper_defers_to_django (env : environment)
    (transactional reset_sequences : bool) (st : state) :
  is_django_unittest env = true →
  _django_db_fixture_helper env transactional reset_sequences st = (st, inr ()).
Proof. intros Hunit. unfold _django_db_fixture_helper. by rewrite Hunit. Qed.

(** Called for the plain level in a test that has [live_server], the helper
    returns at once. *)
Lemma helper_plain_defers_to_live_server (env : environment)
    (reset_sequences : bool) (st : state) :
  "live_server" ∈ names_closure env →
  _django_db_fixture_helper env false reset_sequences st = (st, inr ()).
Proof.
  intros Hlive. unfold _django_db_fixture_helper.
  destruct (is_django_unittest env); [done|].
  unfold mbind, M_bind. rewrite requested_eq.
  by rewrite (bool_decide_eq_true_2 _ Hlive).
Qed.

(** *** The levels a test ends up with *)

Section Levels.
Context (env : environment) (session : list string) (st' : state).
Context (Hunit : is_django_unittest env = false).
Context (Hrun : setup env (initial session) = (st', inr ())).

Lemma reset_resolved_iff :
  "django_db_reset_sequences" ∈ resolved st'
  ↔ "django_db_reset_sequences" ∈ names_closure env.
Proof.
  destruct (setup_returned env session st' Hunit Hrun) as (J & _ & Hall).
  split; [apply (reset_declared env st' J) | apply Hall].
Qed.

(** [transactional_db] with or without [db], or [db] with [live_server],
    and no [django_db_reset_sequences]: the transactional level, once. *)
Lemma transactional_only :
  "django_db_reset_sequences" ∉ names_closure env →
  "transactional_db" ∈ names_closure env
  ∨ ("db" ∈ names_closure env ∧ "live_server" ∈ names_closure env) →
  levels (resolved st') = [Transactional].
Proof.
  intros HnoR Hwhy.
  destruct (setup_returned env session st' Hunit Hrun) as (J & _ & Hall).
  assert (HT : "transactional_db" ∈ resolved st').
  { destruct Hwhy as [HT|[Hdb Hlive]]; [by apply Hall|].
    apply (db_after_transactional env st' J); [by apply Hall | by right]. }
  unfold levels.
  rewrite (bool_decide_eq_false_2 ("django_db_reset_sequences" ∈ resolved st'))
    by by rewrite reset_resolved_iff.
  by rewrite (bool_decide_eq_true_2 _ HT).
Qed.

(** [db] alone: the plain level, once. *)
Lemma plain_only :
  "db" ∈ names_closure env →
  "transactional_db" ∉ names_closure env →
  "live_server" ∉ names_closure env →
  "django_db_reset_sequences" ∉ names_closure env →
  levels (resolved st') = [Plain].
Proof.
  intros Hdb HnoT HnoL HnoR.
  destruct (setup_returned env session st' Hunit Hrun) as (J & _ & Hall).
  unfold levels.
  rewrite (bool_decide_eq_false_2 ("django_db_reset_sequences" ∈ resolved st'))
    by by rewrite reset_resolved_iff.
  rewrite (bool_decide_eq_false_2 ("transactional_db" ∈ resolved st')).
  - by rewrite (bool_decide_eq_true_2 _ (Hall _ Hdb)).
  - intros HT. destruct (transactional_wanted env st' J HT); done.
Qed.

(** [django_db_reset_sequences] and nothing else: its level, once. *)
Lemma reset_sequences_only :
  "django_db_reset_sequences" ∈ names_closure env →
  "transactional_db" ∉ names_closure env →
  "live_server" ∉ names_closure env →
  (∀ n, n ∈ db_users → n ∉ names_closure env) →
  levels (resolved st') = [TransactionalResetSeq].
Proof.
  intros HR HnoT HnoL Hnodb.
  destruct (setup_returned env session st' Hunit Hrun) as (J & _ & Hall).
  unfold levels.
  rewrite (bool_decide_eq_true_2 _ (Hall _ HR)).
  rewrite (bool_decide_eq_false_2 ("transactional_db" ∈ resolved st')).
  - rewrite (bool_decide_eq_false_2 ("db" ∈ resolved st')); [done|].
    intros Hdb.
    destruct (db_declared env st' J "db") as (n & Hn & Hcl); [elem_now | done |].
    by apply (Hnodb n).
  - intros HT. destruct (transactional_wanted env st' J HT); done.
Qed.

(** [django_db_reset_sequences] with [db] or [transactional_db]: its level
    and then a second one. *)
Lemma reset_sequences_and_another :
  "django_db_reset_sequences" ∈ names_closure env →
  "db" ∈ names_closure env ∨ "transactional_db" ∈ names_closure env →
  ∃ second,
    (second = Transactional ∨ second = Plain)
    ∧ levels (resolved st') = [TransactionalResetSeq; second].
Proof.
  intros HR Hother.
  destruct (setup_returned env session st' Hunit Hrun) as (J & _ & Hall).
  unfold levels. rewrite (bool_decide_eq_true_2 _ (Hall _ HR)).
  destruct (decide ("transactional_db" ∈ resolved st')) as [HT|HT].
  - exists Transactional. split; [by left|].
    by rewrite (bool_decide_eq_true_2 _ HT).
  - exists Plain. split; [by right|].
    rewrite (bool_decide_eq_false_2 _ HT).
    destruct Hother as [Hdb|HT']; [|by destruct HT; apply Hall].
    by rewrite (bool_decide_eq_true_2 _ (Hall _ Hdb)).
Qed.

End Levels.

(** *** The claims about the isolation controller *)

(** What the helper has done and scheduled in a state with levels [ls]. *)
Lemma levels_done (env : environment) (st : state) (ls : list isolation) :
  consistent env st → levels (resolved st) = ls →
  List.filter is_helper_event (trace st) = flat_map (level_events env) ls
  ∧ pre_setups (trace st) = omap (class_of env) ls
  ∧ List.filter is_helper_finalizer (teardown_order st)
    = flat_map (level_finalizers env) (rev ls).
Proof.
  intros J <-. split; [apply (helper_trace env st J)|].
  split; [by apply pre_setups_levels | apply (helper_teardown env st J)].
Qed.

(** C2: in a test with [live_server] and, of the database fixtures, only
    [db], the helper called for the plain level returns at once; when
    set-up returns, the one level set up is the transactional one, set up
    once; and set-up does return when Django raises nothing. *)
Theorem live_server_forces_transactional (env : environment) (session : list string) :
  is_django_unittest env = false →
  "live_server" ∈ names_closure env →
  "db" ∈ names_closure env →
  "transactional_db" ∉ names_closure env →
  "django_db_reset_sequences" ∉ names_closure env →
  (∀ st, _django_db_fixture_helper env false false st = (st, inr ()))
  ∧ (∀ st', setup env (initial session) = (st', inr ()) →
       levels (resolved st') = [Transactional]
       ∧ List.filter is_helper_event (trace st') = helper_events env true false
       ∧ pre_setups (trace st') = [PytestDjangoTestCase env true false]
       ∧ List.filter is_helper_finalizer (teardown_order st')
         = helper_finalizers env true false)
  ∧ (healthy env → ∃ st', setup env (initial session) = (st', inr ())).
Proof.
  intros Hunit Hlive Hdb HnoT HnoR. split; [|split].
  - intros st. by apply helper_plain_defers_to_live_server.
  - intros st' Hrun.
    assert (Hlevels : levels (resolved st') = [Transactional]).
    { apply (transactional_only env session st' Hunit Hrun HnoR). by right. }
    destruct (setup_returned env session st' Hunit Hrun) as (J & _ & _).
    destruct (levels_done env st' _ J Hlevels) as (Hev & Hpre & Hfin).
    split; [done|]. simpl in Hev, Hpre, Hfin. rewrite ?app_nil_r in Hev, Hfin. done.
  - intros Hhealthy. by apply setup_returns.
Qed.

(** A test function with the arguments [live_server] and [db]. *)
Lemma live_server_forces_transactional_witness :
  pre_setups (trace (setup (defaults ["live_server"; "_live_server_helper"; "db"])
                       (initial [])).1)
  = [{| base := "django.test.TransactionTestCase";
        reset_sequences := None; databases := None |}].
Proof.
  destruct (live_server_forces_transactional
              (defaults ["live_server"; "_live_server_helper"; "db"]) [])
    as (_ & Hreturned & Hreturns);
    [reflexivity | elem_now | elem_now | not_elem_now | not_elem_now |].
  destruct (Hreturns (healthy_defaults _)) as [st' Hrun].
  rewrite Hrun. cbn [fst]. by destruct (Hreturned st' Hrun) as (_ & _ & -> & _).
Defined.

(** C4: in a test whose only database fixture is
    [django_db_reset_sequences], set-up is: unblock, import of the class,
    class set-up, instance pre-set-up; the finalizers run as: instance
    post-teardown, class teardown, restore of the blocker; and they run
    whether the test function fails or not. *)
Theorem reset_sequences_lifecycle (env : environment) (session : list string)
    (body_fails : bool) :
  is_django_unittest env = false →
  healthy env →
  "django_db_reset_sequences" ∈ names_closure env →
  "transactional_db" ∉ names_closure env →
  "live_server" ∉ names_closure env →
  (∀ n, n ∈ db_users → n ∉ names_closure env) →
  let c := PytestDjangoTestCase env true true in
  reset_sequences c = Some true
  ∧ (∃ st', setup env (initial session) = (st', inr ())
            ∧ trace st' = [Unblock; ImportString (base c); SetUpClass c; PreSetup c]
            ∧ teardown_order st' = [_post_teardown c; tearDownClass c; restore])
  ∧ trace (runtest env body_fails (initial session))
    = [Unblock; ImportString (base c); SetUpClass c; PreSetup c;
       CallTest body_fails;
       PostTeardown c; TearDownClass c; Restore].
Proof.
  intros Hunit Hhealthy HR HnoT HnoL Hnodb c.
  destruct (setup_returns env session Hunit Hhealthy) as [st' Hrun].
  destruct (setup_returned env session st' Hunit Hrun) as (J & _ & _).
  pose proof (reset_sequences_only env session st' Hunit Hrun HR HnoT HnoL Hnodb)
    as Hlevels.
  destruct (levels_done env st' _ J Hlevels) as (Hev & _ & Hfin).
  destruct (nothing_else env st' J HnoL) as [Hall_ev Hall_fin].
  rewrite Hall_ev in Hev. rewrite Hall_fin in Hfin.
  simpl in Hev, Hfin. fold c in Hev, Hfin.
  split; [reflexivity|]. split.
  - exists st'. done.
  - unfold runtest. rewrite Hrun. unfold teardown; simpl.
    unfold teardown_order in *. simpl. rewrite Hev, Hfin. reflexivity.
Qed.

(** A test function with the argument [django_db_reset_sequences] that
    fails. *)
Lemma reset_sequences_lifecycle_witness :
  let c := {| base := "django.test.TransactionTestCase";
              reset_sequences := Some true; databases := None |} in
  trace (runtest (defaults ["_live_server_helper"; "django_db_reset_sequences"])
           true (initial []))
  = [Unblock; ImportString "django.test.TransactionTestCase"; SetUpClass c; PreSetup c;
     CallTest true;
     PostTeardown c; TearDownClass c; Restore].
Proof.
  intros c.
  destruct (reset_sequences_lifecycle
              (defaults ["_live_server_helper"; "django_db_reset_sequences"]) [] true)
    as (_ & _ & Htrace);
    [reflexivity | apply healthy_defaults | elem_now | not_elem_now | not_elem_now | |].
  - intros n Hn Hcl.
    repeat (apply elem_of_cons in Hcl as [->|Hcl]; [revert Hn; not_elem_now|]).
    by apply elem_of_nil in Hcl.
  - exact Htrace.
Defined.

(** The blocker is restored when set-up itself fails: whatever Django
    raises, the run of a test with [django_db_reset_sequences] ends with the
    restore. *)
Lemma restore_after_failed_setup (env : environment) (session : list string) :
  is_django_unittest env = false →
  names_closure env = ["django_db_reset_sequences"] →
  ∀ body_fails,
    last (trace (runtest env body_fails (initial session))) = Some Restore.
Proof.
  intros Hunit Hnames body_fails.
  unfold runtest, setup. rewrite Hnames. simpl.
  unfold getfixturevalue; simpl.
  unfold get_django_db_reset_sequences, function_fixture; simpl.
  unfold django_db_reset_sequences, _django_db_fixture_helper. rewrite Hunit.
  unfold mbind, M_bind. rewrite requested_eq. simpl.
  unfold call, mbind, M_bind; simpl.
  destruct (import_string env _); [reflexivity|]. simpl.
  destruct (setUpClass_raises env _); [reflexivity|]. simpl.
  destruct (_pre_setup_raises env _); reflexivity.
Qed.

(** C1, at the inputs where the code departs from it: when
    [django_db_reset_sequences] is requested with [db] or
    [transactional_db], the helper sets up the sequence-reset level and then
    a second level, and two instance post-teardowns are scheduled. *)
Theorem reset_sequences_with_another_sets_up_twice (env : environment)
    (session : list string) :
  is_django_unittest env = false →
  healthy env →
  "django_db_reset_sequences" ∈ names_closure env →
  "db" ∈ names_closure env ∨ "transactional_db" ∈ names_closure env →
  ∃ st' second,
    setup env (initial session) = (st', inr ())
    ∧ (second = Transactional ∨ second = Plain)
    ∧ levels (resolved st') = [TransactionalResetSeq; second]
    ∧ pre_setups (trace st')
      = omap (class_of env) [TransactionalResetSeq; second]
    ∧ List.filter is_helper_finalizer (teardown_order st')
      = (level_finalizers env second
         ++ level_finalizers env TransactionalResetSeq)%list.
Proof.
  intros Hunit Hhealthy HR Hother.
  destruct (setup_returns env session Hunit Hhealthy) as [st' Hrun].
  destruct (setup_returned env session st' Hunit Hrun) as (J & _ & _).
  destruct (reset_sequences_and_another env session st' Hunit Hrun HR Hother)
    as (second & Hsecond & Hlevels).
  destruct (levels_done env st' _ J Hlevels) as (_ & Hpre & Hfin).
  exists st', second. split; [done|]. split; [done|]. split; [done|].
  split; [done|]. simpl in Hfin. by rewrite ?app_nil_r in Hfin.
Qed.

(** A test function with the arguments [db] and
    [django_db_reset_sequences]: the transaction test case with sequence
    reset is set up, then the plain test case inside it. *)
Lemma reset_sequences_with_another_sets_up_twice_witness :
  pre_setups (trace (setup (defaults ["_live_server_helper"; "db";
                                      "django_db_reset_sequences"])
                       (initial [])).1)
  = [ {| base := "django.test.TransactionTestCase";
         reset_sequences := Some true; databases := None |};
      {| base := "django.test.TestCase";
         reset_sequences := None; databases := None |} ].
Proof.
  destruct (reset_sequences_with_another_sets_up_twice
              (defaults ["_live_server_helper"; "db"; "django_db_reset_sequences"]) [])
    as (st' & second & Hrun & _ & Hlevels & Hpre & _);
    [reflexivity | apply healthy_defaults | elem_now | left; elem_now |].
  rewrite Hrun. cbn [fst]. rewrite Hpre.
  assert (Hsecond : levels (resolved st') = [TransactionalResetSeq; Plain]).
  { vm_compute in Hrun. by injection Hrun as <-. }
  rewrite Hsecond in Hlevels. by injection Hlevels as <-.
Defined.

(** C6, at the input where the code departs from it: when the class path
    cannot be imported the helper raises right after unblocking, before any
    class is set up, and what it raises is the exception of [import_string]
    itself; the setting the path came from is not added to it. *)
Theorem import_error_is_not_wrapped (env : environment)
    (transactional reset_sequences : bool) (st : state) (e : exc) :
  is_django_unittest env = false →
  helper_acts env transactional st = true →
  import_string env (test_case_classname env transactional) = Some e →
  let r := _django_db_fixture_helper env transactional reset_sequences st in
  r.2 = inl e
  ∧ trace r.1
    = (trace st ++ [Unblock; ImportString (test_case_classname env transactional)])%list
  ∧ own r.1 = restore :: own st.
Proof.
  intros Hunit Hacts Himport. unfold helper_acts in Hacts. rewrite Hunit in Hacts.
  simpl in Hacts.
  unfold _django_db_fixture_helper. rewrite Hunit.
  unfold mbind, M_bind. rewrite requested_eq.
  assert (Hguard : negb transactional
                   && (bool_decide ("live_server" ∈ names_closure env)
                       || bool_decide ("live_server" ∈ resolved st)) = false).
  { destruct transactional; [done|]. simpl in *. by apply negb_true_iff. }
  rewrite Hguard. unfold call, mbind, M_bind. simpl. rewrite Himport. simpl.
  by rewrite <- app_assoc.
Qed.

(** [--transaction-testcase-class=nomodule]: the test gets Django's
    message, while [import_from_string], which nothing calls, would have
    named the setting. *)
Lemma import_error_is_not_wrapped_witness :
  (_django_db_fixture_helper (nomodule ["transactional_db"]) true false (initial [])).2
  = inl (ImportError "nomodule doesn't look like a module path")
  ∧ import_from_string (nomodule ["transactional_db"]) "nomodule"
      "transaction_testcase_class"
    = Some (ImportError
              "Could not import 'nomodule' for API setting 'transaction_testcase_class'. ImportError: nomodule doesn't look like a module path.").
Proof.
  split; [|reflexivity].
  by destruct (import_error_is_not_wrapped (nomodule ["transactional_db"]) true false
                 (initial []) (ImportError "nomodule doesn't look like a module path")
                 eq_refl eq_refl eq_refl) as (-> & _).
Defined.

End IsolationFacts.

(** ** More on the query-count assertions *)

Module QueriesMore.
Import Py Queries.

(** What the two assertions decide for a block that ran to its end. *)
Lemma exact_passed_iff (cfg : config) (num : Z) (info : option string) (b : block) :
  django_assert_num_queries cfg num info b = Passed
  ↔ raised b = None ∧ num = num_performed_of b.
Proof.
  unfold django_assert_num_queries, _assert_num_queries.
  destruct (raised b) as [e|]; [split; [done | by intros [? _]]|].
  destruct (Z.eqb_spec num (num_performed_of b)); simpl; split; try done.
  - by intros [_ ?].
Qed.

Lemma bound_passed_iff (cfg : config) (num : Z) (info : option string) (b : block) :
  django_assert_max_num_queries cfg num info b = Passed
  ↔ raised b = None ∧ (num_performed_of b <= num)%Z.
Proof.
  unfold django_assert_max_num_queries, _assert_num_queries.
  destruct (raised b) as [e|]; [split; [done | by intros [? _]]|].
  destruct (Z.ltb_spec num (num_performed_of b)); simpl; split; try done.
  - intros [_ ?]. lia.
Qed.

(** X1: The upper-bound assertion is weaker than the exact one and grows with
    its bound: a block that passes the exact assertion for [num], or the
    upper-bound assertion for [num], passes the upper-bound assertion for
    every [bound] at least [num], whatever the info and the verbosity. *)
Theorem bound_assertion_is_monotone (cfg cfg' : config) (num bound : Z)
    (info info' : option string) (b : block) :
  (num <= bound)%Z →
  (django_assert_num_queries cfg num info b = Passed →
   django_assert_max_num_queries cfg' bound info' b = Passed)
  ∧ (django_assert_max_num_queries cfg num info b = Passed →
     django_assert_max_num_queries cfg' bound info' b = Passed).
Proof.
  intros Hle. rewrite exact_passed_iff, !bound_passed_iff. split.
  - intros [Hr ->]. split; [done | lia].
  - intros [Hr Hp]. split; [done | lia].
Qed.

Lemma bound_assertion_is_monotone_witness :
  django_assert_max_num_queries {| verbose_option := 0 |} 5 None
    {| captured_queries := [ {| sql := "SELECT 1"; time := "0.001" |} ];
       raised := None |}
  = Passed.
Proof.
  eapply (bound_assertion_is_monotone {| verbose_option := 0 |} _ 1 5 None None);
    [lia | reflexivity].
Defined.

(** X2: A negative count can never be met: for a block that ran to its end the
    exact assertion fails, and so does the upper-bound assertion, even when
    the block issued no query at all. *)
Theorem negative_count_always_fails (cfg : config) (num : Z)
    (info : option string) (qs : list query) :
  (num < 0)%Z →
  (∃ msg, django_assert_num_queries cfg num info
            {| captured_queries := qs; raised := None |} = Failed msg)
  ∧ (∃ msg, django_assert_max_num_queries cfg num info
              {| captured_queries := qs; raised := None |} = Failed msg).
Proof.
  intros Hneg.
  unfold django_assert_num_queries, django_assert_max_num_queries,
    _assert_num_queries, num_performed_of; simpl.
  destruct (Z.eqb_spec num (Z.of_nat (length qs))); [lia|].
  destruct (Z.ltb_spec num (Z.of_nat (length qs))); [|lia].
  simpl. split; eexists; reflexivity.
Qed.

Lemma negative_count_always_fails_witness :
  ∃ msg, django_assert_max_num_queries {| verbose_option := 0 |} (-1) None
           {| captured_queries := []; raised := None |} = Failed msg.
Proof.
  by destruct (negative_count_always_fails {| verbose_option := 0 |} (-1) None [])
    as [_ H]; [lia|].
Defined.

(** X3: The message of a failed upper-bound assertion: the headline with
    "or less", the singular "1 was" when one query was performed, the info
    when it is not empty, then the statements or the hint. *)
Theorem bound_failure_message (cfg : config) (num : Z)
    (info : option string) (qs : list query) :
  (num < Z.of_nat (length qs))%Z →
  django_assert_max_num_queries cfg num info
    {| captured_queries := qs; raised := None |}
  = Failed ("Expected to perform " +:+ pretty num +:+ " queries or less but "
            +:+ (if (Z.of_nat (length qs) =? 1)%Z then "1 was"
                 else pretty (Z.of_nat (length qs)) +:+ " were")
            +:+ " done"
            +:+ (match info with
                 | Some i => if String.eqb i "" then "" else nl +:+ i
                 | None => ""
                 end)
            +:+ (if (0 <? verbose_option cfg)%Z
                 then nl +:+ nl +:+ "Queries:" +:+ nl +:+ "========" +:+ nl +:+ nl
                      +:+ join (nl +:+ nl) (map sql qs)
                 else " (add -v option to show queries)")).
Proof.
  intros Hlt.
  unfold django_assert_max_num_queries, _assert_num_queries, num_performed_of; simpl.
  destruct (Z.ltb_spec num (Z.of_nat (length qs))); [|lia].
  f_equal. unfold failure_message, fmt.
  destruct info as [i|]; [destruct (String.eqb i "")|];
    destruct (0 <? verbose_option cfg)%Z; autorewrite with pystr; reflexivity.
Qed.

Lemma bound_failure_message_witness :
  django_assert_max_num_queries {| verbose_option := 0 |} 0 (Some "cache miss")
    {| captured_queries := [ {| sql := "SELECT 1"; time := "0.001" |} ];
       raised := None |}
  = Failed ("Expected to perform 0 queries or less but 1 was done" +:+ nl
            +:+ "cache miss (add -v option to show queries)").
Proof.
  rewrite (bound_failure_message {| verbose_option := 0 |} 0 (Some "cache miss"))
    by (simpl; lia).
  reflexivity.
Defined.

End QueriesMore.

(** ** More on the parallel suffixes *)

Module SuffixMore.
Import Py Suffix Naming.

(** An iteration that does not raise follows the rule, whatever keys the
    entry has. *)
Lemma suffix_one_returns (suffix : string) (d d' : db_settings) :
  suffix_one suffix d = inr d' → d' = suffixed suffix d.
Proof.
  unfold suffix_one, loop_body, suffixed, in_memory, subscript.
  destruct (get_test_name d) as [|t] eqn:Ht; simpl;
    [| destruct (String.eqb_spec t "") as [->|Hnonempty]; simpl];
    destruct (items d !! "ENGINE") as [engine|] eqn:Hengine;
    destruct (items d !! "NAME") as [name|] eqn:Hname; simpl;
    repeat (case_decide || case_bool_decide); simplify_eq/=;
    autorewrite with pystr; try done; try (by intros [= <-]).
Qed.

(** What the rule does, in terms of the base name. *)
Lemma suffixed_base_name (suffix : string) (d : db_settings) :
  in_memory d = false →
  suffixed suffix d = set_test_name d (base_name d +:+ "_" +:+ suffix).
Proof.
  unfold suffixed, base_name. intros ->.
  destruct (get_test_name d) as [|t]; simpl; [by autorewrite with pystr|].
  destruct (String.eqb t ""); simpl; by autorewrite with pystr.
Qed.

(** No suffixed name is [":memory:"], and none is empty. *)
Lemma suffixed_name_not_memory (base suffix : string) :
  base +:+ "_" +:+ suffix ≠ ":memory:".
Proof.
  intros H.
  do 8 (destruct base as [|? base];
        [ rewrite PyFacts.append_empty_l, PyFacts.append_cons in H; discriminate H
        | rewrite PyFacts.append_cons in H; injection H as _ H ]).
  destruct base; rewrite ?PyFacts.append_empty_l, PyFacts.append_cons in H;
    discriminate H.
Qed.

Lemma suffixed_name_not_empty (base suffix : string) :
  base +:+ "_" +:+ suffix ≠ "".
Proof.
  destruct base; rewrite ?PyFacts.append_empty_l, PyFacts.append_cons; discriminate.
Qed.

(** In-memory entries stay in memory and the others stay out of it. *)
Lemma in_memory_suffixed (suffix : string) (d : db_settings) :
  in_memory (suffixed suffix d) = in_memory d.
Proof.
  destruct (in_memory d) eqn:Hmem.
  - unfold suffixed. by rewrite Hmem.
  - rewrite suffixed_base_name by done. unfold in_memory.
    rewrite SuffixFacts.get_test_name_set. simpl.
    destruct (String.eqb_spec (base_name d +:+ "_" +:+ suffix) "") as [Heq|_];
      [by apply suffixed_name_not_empty in Heq|]. simpl.
    apply bool_decide_eq_false_2. intros [= Heq].
    by apply suffixed_name_not_memory in Heq.
Qed.

Lemma base_name_suffixed (suffix : string) (d : db_settings) :
  in_memory d = false →
  base_name (suffixed suffix d) = base_name d +:+ "_" +:+ suffix.
Proof.
  intros Hmem. rewrite suffixed_base_name by done. unfold base_name at 1.
  rewrite SuffixFacts.get_test_name_set. simpl.
  destruct (String.eqb_spec (base_name d +:+ "_" +:+ suffix) "") as [Heq|_];
    [by apply suffixed_name_not_empty in Heq | done].
Qed.

(** X4: Two workers never share a database: for an entry that is not in memory,
    iterations with different suffixes that do not raise leave different
    test names. *)
Theorem different_suffixes_different_names (s1 s2 : string) (d d1 d2 : db_settings) :
  in_memory d = false →
  suffix_one s1 d = inr d1 →
  suffix_one s2 d = inr d2 →
  s1 ≠ s2 →
  get_test_name d1 ≠ get_test_name d2.
Proof.
  intros Hmem H1%suffix_one_returns H2%suffix_one_returns Hne. subst d1 d2.
  rewrite !suffixed_base_name by done. rewrite !SuffixFacts.get_test_name_set.
  intros [= Heq]. apply Hne.
  by apply (inj (String.append "_")), (inj (String.append (base_name d))).
Qed.

(** A PostgreSQL database under the workers gw0 and gw1. *)
Lemma different_suffixes_different_names_witness :
  get_test_name (set_test_name
                   {| items := {[ "ENGINE" := Str "django.db.backends.postgresql";
                                  "NAME" := Str "myapp" ]}; TEST := None |}
                   "test_myapp_gw0")
  ≠ get_test_name (set_test_name
                     {| items := {[ "ENGINE" := Str "django.db.backends.postgresql";
                                    "NAME" := Str "myapp" ]}; TEST := None |}
                     "test_myapp_gw1").
Proof.
  by apply (different_suffixes_different_names "gw0" "gw1"
              {| items := {[ "ENGINE" := Str "django.db.backends.postgresql";
                             "NAME" := Str "myapp" ]}; TEST := None |}).
Defined.

(** X5: The loop only ever assigns [TEST]["NAME"]: whether it returns or raises,
    the aliases and their order, every other key of each entry and every
    other key of each ["TEST"] dictionary are as before. *)
Theorem set_suffix_changes_only_test_names (suffix : string) (dbs : databases) :
  let dbs' := (_set_suffix_to_test_databases suffix dbs).1 in
  map fst dbs' = map fst dbs
  ∧ Forall2 (fun ad ad' =>
       items ad'.2 = items ad.2
       ∧ ∀ k, k ≠ "NAME" → test_settings ad'.2 !! k = test_settings ad.2 !! k)
      dbs dbs'.
Proof.
  induction dbs as [|[alias d] dbs [IH1 IH2]]; simpl; [by split; constructor|].
  destruct (suffix_one suffix d) as [e|d'] eqn:Hone; simpl.
  - split; [done|]. apply Forall2_same_length_lookup_2; [done|].
    intros i x y Hx Hy. by simplify_eq.
  - destruct (_set_suffix_to_test_databases suffix dbs) as [rest r]; simpl in *.
    split; [by rewrite IH1|]. constructor; [|done]. simpl.
    apply suffix_one_returns in Hone as ->. unfold suffixed.
    destruct (in_memory d); [done|].
    assert (Hset : ∀ n, items (set_test_name d n) = items d
                        ∧ ∀ k, k ≠ "NAME" →
                               test_settings (set_test_name d n) !! k
                               = test_settings d !! k).
    { intros n. split; [done|]. intros k Hk. unfold test_settings, set_test_name; simpl.
      by rewrite lookup_insert_ne. }
    destruct (get_test_name d) as [|t]; [apply Hset|].
    destruct (String.eqb t ""); apply Hset.
Qed.



Lemma apply_if_set_falsy (x : option string) (dbs : databases) :
  falsy x → apply_if_set x dbs = (dbs, Returned).
Proof. by intros [->| ->]. Qed.

Lemma apply_if_set_configured (s : string) (dbs : databases) :
  s ≠ "" → Forall (fun ad => configured ad.2) dbs →
  apply_if_set (Some s) dbs
  = (map (fun ad => (ad.1, suffixed s ad.2)) dbs, Returned).
Proof.
  intros Hs Hcfg. unfold apply_if_set.
  destruct (String.eqb_spec s "") as [?|_]; [done|].
  by rewrite SuffixFacts.set_suffix_map.
Qed.

(** X7: Without a tox environment and without an xdist worker id (each unset
    or empty) the session fixture leaves [settings.DATABASES] as it is; all
    it does is the check of [skip_if_no_django]. *)
Theorem no_worker_no_suffix (env : environment) (dbs : databases) :
  falsy (TOX_PARALLEL_ENV env) → falsy (workerid env) →
  django_db_modify_db_settings env dbs = (dbs, skip_if_no_django env).
Proof.
  intros Htox Hwid.
  unfold django_db_modify_db_settings, django_db_modify_db_settings_parallel_suffix,
    django_db_modify_db_settings_tox_suffix, django_db_modify_db_settings_xdist_suffix.
  destruct (skip_if_no_django env) eqn:Hskip; [|done].
  by rewrite !apply_if_set_falsy.
Qed.

Lemma no_worker_no_suffix_witness :
  django_db_modify_db_settings
    {| no_django := None; TOX_PARALLEL_ENV := Some ""; workerid := None |}
    [("default", {| items := {[ "ENGINE" := Str "django.db.backends.postgresql";
                                "NAME" := Str "myapp" ]}; TEST := None |})]
  = ([("default", {| items := {[ "ENGINE" := Str "django.db.backends.postgresql";
                                 "NAME" := Str "myapp" ]}; TEST := None |})],
     Returned).
Proof. apply no_worker_no_suffix; [by right | by left]. Defined.



End SuffixMore.

(** ** More on the session database setup *)

Module SessionMore.
Import Py Session.

(** X9: What the flags make of the call of [setup_databases]: it is made once,
    inside an unblocked window, non-interactive, with the verbosity of the
    command line, and with [keepdb=True] exactly when --reuse-db is given
    without --create-db.  When it returns, the teardown finalizer is
    registered exactly when --reuse-db is not given, so --reuse-db with
    --create-db creates the databases anew and still keeps them. *)
Theorem flags_of_setup_databases (env : environment) (cfg : Options.config)
    (st : state) (dbs : db_cfg) :
  setup_databases env = inr dbs →
  let st1 := (Options.django_db_setup env cfg st).1 in
  trace st1
  = (trace st
     ++ [Unblock;
         SetupDatabases (verbose env) false
           (if Options.reuse_db cfg && negb (Options.create_db cfg)
            then Some true else None);
         Restore])%list
  ∧ finalizers st1
    = (if Options.reuse_db cfg then finalizers st
       else teardown_database dbs :: finalizers st)
  ∧ MIGRATION_MODULES st1
    = (if Options.nomigrations cfg then DisableMigrations else MIGRATION_MODULES st).
Proof.
  intros Hsetup. unfold Options.django_db_setup, django_db_setup,
    Options.django_db_use_migrations, Options.django_db_keepdb,
    Options.django_db_createdb, setup_databases_args.
  rewrite Hsetup.
  destruct cfg as [[] [] []]; simpl; rewrite <- ?app_assoc; done.
Qed.

(** --reuse-db --create-db on a fresh process. *)
Lemma flags_of_setup_databases_witness :
  trace (Options.django_db_setup db_in_use
           {| Options.nomigrations := false; Options.reuse_db := true;
              Options.create_db := true |} fresh).1
  = [Unblock; SetupDatabases 2 false None; Restore]
  ∧ finalizers (Options.django_db_setup db_in_use
                  {| Options.nomigrations := false; Options.reuse_db := true;
                     Options.create_db := true |} fresh).1
    = [].
Proof.
  destruct (flags_of_setup_databases db_in_use
              {| Options.nomigrations := false; Options.reuse_db := true;
                 Options.create_db := true |} fresh 0 eq_refl) as (Ht & Hf & _).
  split; [exact Ht | exact Hf].
Defined.

(** X10: The whole session, started with no finalizer pending.  When
    [setup_databases] returns and --reuse-db is not given, teardown is
    called once, with what [setup_databases] returned and with the same
    verbosity, inside a second unblocked window that is closed whatever
    teardown raises.  With --reuse-db, or when [setup_databases] raises,
    [teardown_databases] is never called. *)
Theorem session_calls (env : environment) (cfg : Options.config) (st : state) :
  finalizers st = [] →
  trace (Options.session env cfg st).1
  = (trace st
     ++ [Unblock;
         SetupDatabases (verbose env) false
           (if Options.reuse_db cfg && negb (Options.create_db cfg)
            then Some true else None);
         Restore]
     ++ match setup_databases env with
        | inr dbs =>
            if Options.reuse_db cfg then []
            else [Unblock; TeardownDatabases dbs (verbose env); Restore]
        | inl _ => []
        end)%list.
Proof.
  intros Hfin. unfold Options.session, session, session_finish, django_db_setup,
    Options.django_db_use_migrations, Options.django_db_keepdb,
    Options.django_db_createdb, setup_databases_args.
  destruct (setup_databases env) as [e|dbs];
    destruct cfg as [[] [] []]; simpl; rewrite Hfin; simpl;
    rewrite <- ?app_assoc; try done;
    destruct (teardown_databases env dbs) as [e|]; simpl;
    try destruct (isinstance e "Exception"); simpl; rewrite <- ?app_assoc; done.
Qed.

Lemma session_calls_witness :
  trace (Options.session interrupted
           {| Options.nomigrations := true; Options.reuse_db := false;
              Options.create_db := false |} fresh).1
  = [Unblock; SetupDatabases 0 false None; Restore;
     Unblock; TeardownDatabases 0 0; Restore].
Proof.
  by rewrite (session_calls interrupted
                {| Options.nomigrations := true; Options.reuse_db := false;
                   Options.create_db := false |} fresh eq_refl).
Defined.

Lemma session_unblocks_app (t t' : list event) :
  Options.unblocks (t ++ t') = Options.unblocks t + Options.unblocks t'.
Proof. unfold Options.unblocks. by rewrite List.filter_app, length_app. Qed.

Lemma session_restores_app (t t' : list event) :
  Options.restores (t ++ t') = Options.restores t + Options.restores t'.
Proof. unfold Options.restores. by rewrite List.filter_app, length_app. Qed.

Lemma run_finalizer_balanced (env : environment) (f : finalizer) (st : state) :
  Options.unblocks (trace (run_finalizer env f st).1) + Options.restores (trace st)
  = Options.unblocks (trace st) + Options.restores (trace (run_finalizer env f st).1).
Proof.
  destruct f as [dbs]; unfold run_finalizer.
  destruct (teardown_databases env dbs) as [e|]; [destruct (isinstance e "Exception")|];
    cbn -[Options.unblocks Options.restores];
    rewrite !session_unblocks_app, !session_restores_app; cbn; lia.
Qed.

Lemma run_finalizers_balanced (env : environment) (fs : list finalizer) (st : state) :
  Options.unblocks (trace (run_finalizers env fs st).1) + Options.restores (trace st)
  = Options.unblocks (trace st) + Options.restores (trace (run_finalizers env fs st).1).
Proof.
  revert st. induction fs as [|f fs IH]; intros st; simpl; [lia|].
  pose proof (run_finalizer_balanced env f st) as H1.
  destruct (run_finalizer env f st) as [st1 r]; simpl in *.
  specialize (IH st1).
  destruct (run_finalizers env fs st1) as [st2 errs]; simpl in *. lia.
Qed.

(** X11: The gate is restored as often as it is opened: by [django_db_setup]
    alone, whether [setup_databases] returns or raises, and by the whole
    session with whatever finalizers were pending, whatever teardown
    raises. *)
Theorem session_gate_balanced (env : environment) (cfg : Options.config) (st : state) :
  let st1 := (Options.django_db_setup env cfg st).1 in
  let st2 := (Options.session env cfg st).1 in
  (Options.unblocks (trace st1) + Options.restores (trace st)
   = Options.unblocks (trace st) + Options.restores (trace st1))
  ∧ (Options.unblocks (trace st2) + Options.restores (trace st)
     = Options.unblocks (trace st) + Options.restores (trace st2)).
Proof.
  assert (Hsetup : Options.unblocks (trace (Options.django_db_setup env cfg st).1)
                   + Options.restores (trace st)
                   = Options.unblocks (trace st)
                     + Options.restores (trace (Options.django_db_setup env cfg st).1)).
  { assert (Htrace : ∃ args, trace (Options.django_db_setup env cfg st).1
                             = (trace st ++ [Unblock; SetupDatabases (verbose env) false args;
                                             Restore])%list).
    { unfold Options.django_db_setup, django_db_setup.
      exists (setup_databases_args (Options.django_db_keepdb cfg)
                (Options.django_db_createdb cfg)).
      destruct (setup_databases env) as [e|dbs];
        destruct cfg as [[] [] []]; simpl; rewrite <- ?app_assoc; reflexivity. }
    destruct Htrace as [args ->].
    rewrite session_unblocks_app, session_restores_app. cbn. lia. }
  split; [exact Hsetup|].
  unfold Options.session, session. unfold Options.django_db_setup in Hsetup.
  destruct (django_db_setup env _ _ _ st) as [st1 r]; simpl in Hsetup.
  unfold session_finish.
  match goal with
  | |- context [run_finalizers env ?fs ?s] =>
      pose proof (run_finalizers_balanced env fs s) as Hfin
  end.
  simpl in Hfin. lia.
Qed.

(** X12: When [setup_databases] raises, [django_db_setup] raises the same
    exception after the gate is restored and registers no teardown, so the
    end of the session has nothing to call; a sentinel put in place for
    --nomigrations stays in place. *)
Theorem failed_setup_registers_nothing (env : environment) (cfg : Options.config)
    (st : state) (e : exc) :
  setup_databases env = inl e →
  let r := Options.django_db_setup env cfg st in
  r.2 = Some e
  ∧ finalizers r.1 = finalizers st
  ∧ last (trace r.1) = Some Restore
  ∧ warnings r.1 = warnings st
  ∧ MIGRATION_MODULES r.1
    = (if Options.nomigrations cfg then DisableMigrations else MIGRATION_MODULES st).
Proof.
  intros He. unfold Options.django_db_setup, django_db_setup. rewrite He.
  destruct cfg as [[] [] []]; simpl; rewrite ?last_snoc; done.
Qed.

Lemma failed_setup_registers_nothing_witness :
  (Options.django_db_setup
     {| verbose := 0;
        setup_databases := inl (OperationalError "could not connect to server");
        teardown_databases := fun _ => None;
        repr := repr_one_arg |}
     {| Options.nomigrations := true; Options.reuse_db := false;
        Options.create_db := false |} fresh).2
  = Some (OperationalError "could not connect to server").
Proof.
  by destruct (failed_setup_registers_nothing
                 {| verbose := 0;
                    setup_databases := inl (OperationalError "could not connect to server");
                    teardown_databases := fun _ => None;
                    repr := repr_one_arg |}
                 {| Options.nomigrations := true; Options.reuse_db := false;
                    Options.create_db := false |} fresh
                 (OperationalError "could not connect to server") eq_refl) as (-> & _).
Defined.

End SessionMore.

(** ** The settings fixture *)

Module SettingsFacts.
Import Py SettingsFixture.

Lemma apply_conf_restore (c : change) (st : state) :
  ∃ o, _to_restore (apply c st) = (_to_restore st ++ [o])%list ∧ wrapped o = conf st.
Proof. destruct c; simpl; eexists; split; reflexivity. Qed.

(** Changes keep the overrides that were pending and add one each; the
    oldest override keeps the settings from before the first change. *)
Lemma apply_all_oldest (cs : list change) (st : state) :
  ∃ added,
    _to_restore (apply_all cs st) = (_to_restore st ++ added)%list
    ∧ length added = length cs
    ∧ (_to_restore st = [] → ∀ o, head added = Some o → wrapped o = conf st).
Proof.
  revert st. induction cs as [|c cs IH]; intros st; simpl.
  { exists []. rewrite app_nil_r. done. }
  destruct (apply_conf_restore c st) as (o & Ho & Hw).
  destruct (IH (apply c st)) as (added & Hadded & Hlen & _).
  exists (o :: added). rewrite Hadded, Ho, <- app_assoc. simpl.
  split; [done|]. split; [by rewrite Hlen|].
  intros _ o' [= <-]. done.
Qed.

Lemma disable_all_conf (l : list override) (st : state) :
  conf (foldl (fun st o => disable o st) st (rev l))
  = match l with
    | o :: _ => wrapped o
    | [] => conf st
    end.
Proof.
  destruct l as [|o l]; [done|]. simpl. by rewrite foldl_app.
Qed.

(** X13: Whatever a test sets and deletes through the wrapper, in any number and
    order, the fixture puts the settings back as they were before the test
    and leaves no override pending. *)
Theorem settings_are_restored (cs : list change) (st : state) :
  _to_restore st = [] →
  settings None cs st = (st, None).
Proof.
  intros Hempty. unfold settings. f_equal. unfold finalize.
  rewrite disable_all_conf.
  destruct (apply_all_oldest cs st) as (added & Hadded & Hlen & Holdest).
  rewrite Hadded, Hempty. simpl.
  destruct st as [c r]; simpl in *. subst r. f_equal.
  destruct added as [|o added]; simpl.
  - destruct cs; [done | discriminate Hlen].
  - by apply Holdest.
Qed.

Lemma settings_are_restored_witness :
  settings None [Set_ "DEBUG" (Str "1"); Del "SECRET_KEY"; Set_ "DEBUG" (Str "0")]
    {| conf := {[ "SECRET_KEY" := Str "s3cret" ]}; _to_restore := [] |}
  = ({| conf := {[ "SECRET_KEY" := Str "s3cret" ]}; _to_restore := [] |}, None).
Proof. by apply settings_are_restored. Defined.

(** X14: [finalize] serves every wrapper at once: the list of overrides belongs
    to the class, so with overrides pending from before, the settings go
    back to those kept by the oldest pending override, not to those the
    test started with. *)
Theorem finalize_goes_back_to_oldest (cs : list change) (st : state)
    (o : override) (pending : list override) :
  _to_restore st = o :: pending →
  finalize (apply_all cs st) = {| conf := wrapped o; _to_restore := [] |}.
Proof.
  intros Hpending. unfold finalize. rewrite disable_all_conf.
  destruct (apply_all_oldest cs st) as (added & -> & _ & _).
  by rewrite Hpending.
Qed.

Lemma finalize_goes_back_to_oldest_witness :
  finalize (apply_all [Set_ "DEBUG" (Str "1")]
              {| conf := {[ "DEBUG" := Str "0" ]};
                 _to_restore := [ {| options := {[ "DEBUG" := Str "0" ]};
                                     wrapped := ∅ |} ] |})
  = {| conf := ∅; _to_restore := [] |}.
Proof.
  by rewrite (finalize_goes_back_to_oldest _ _
                {| options := {[ "DEBUG" := Str "0" ]}; wrapped := ∅ |} []).
Defined.


End SettingsFacts.

(** ** The gate through set-up and teardown of a test *)

Module GateFacts.
Import Py Isolation Gate.

Lemma opened_app (t t' : list event) : opened (t ++ t') = opened t + opened t'.
Proof. unfold opened. by rewrite List.filter_app, length_app. Qed.

Lemma restored_app (t t' : list event) : restored (t ++ t') = restored t + restored t'.
Proof. unfold restored. by rewrite List.filter_app, length_app. Qed.

Lemma isolation_app (t t' : list event) :
  length (List.filter is_isolation_event (t ++ t'))
  = length (List.filter is_isolation_event t)
    + length (List.filter is_isolation_event t').
Proof. by rewrite List.filter_app, length_app. Qed.

Lemma restores_app (fs fs' : list finalizer) :
  restores (fs ++ fs') = restores fs + restores fs'.
Proof. unfold restores. by rewrite List.filter_app, length_app. Qed.

Lemma helpers_app (fs fs' : list finalizer) :
  helpers (fs ++ fs') = helpers fs + helpers fs'.
Proof. unfold helpers. by rewrite List.filter_app, length_app. Qed.

Lemma restores_cons (f : finalizer) (fs : list finalizer) :
  restores (f :: fs) = restores [f] + restores fs.
Proof. apply (restores_app [f]). Qed.

Lemma helpers_cons (f : finalizer) (fs : list finalizer) :
  helpers (f :: fs) = helpers [f] + helpers fs.
Proof. apply (helpers_app [f]). Qed.

(** Bring the counts of a goal to sums of counts of variables. *)
Ltac count :=
  unfold gate_kept, teardown_order in *;
  cbn -[opened restored restores helpers is_isolation_event List.filter length] in *;
  rewrite ?opened_app, ?restored_app, ?isolation_app, ?restores_app, ?helpers_app in *;
  repeat match goal with
         | |- context [restores (?f :: ?fs)] =>
             lazymatch fs with [] => fail | _ => rewrite (restores_cons f fs) end
         | |- context [helpers (?f :: ?fs)] =>
             lazymatch fs with [] => fail | _ => rewrite (helpers_cons f fs) end
         end;
  cbn in *.

Section Respects.
Context (env : environment).

Lemma gate_kept_refl (st : state) : gate_kept env st st.
Proof. unfold gate_kept. split; [lia|]. split; [done|]. by intros _. Qed.

Lemma gate_kept_trans (st1 st2 st3 : state) :
  gate_kept env st1 st2 → gate_kept env st2 st3 → gate_kept env st1 st3.
Proof.
  unfold gate_kept. intros (H1 & H2 & H3) (H4 & H5 & H6).
  split; [lia|]. split; [congruence|].
  intros Hu. destruct (H3 Hu), (H6 Hu). split; lia.
Qed.

Lemma respects_ret : respects env [] (mret ()).
Proof. intros st. split; [apply gate_kept_refl | by left]. Qed.

Lemma respects_raise (e : exc) : respects env [] (raise e).
Proof. intros st. split; [apply gate_kept_refl | by left]. Qed.

Lemma respects_weaken (names names' : list string) (m : M unit) :
  (∀ n, n ∈ names → n ∈ names') → respects env names m → respects env names' m.
Proof.
  intros Hsub Hm st. destruct (Hm st) as [Hg Hf]. split; [done|].
  intros n Hn. destruct (Hf n Hn); [by left | right; by apply Hsub].
Qed.

Lemma respects_bind (names1 names2 : list string) (m1 : M unit) (m2 : unit → M unit) :
  respects env names1 m1 → (∀ u, respects env names2 (m2 u)) →
  respects env (names1 ++ names2) (m1 ≫= m2).
Proof.
  intros H1 H2 st. unfold mbind, M_bind.
  destruct (H1 st) as [Hg1 Hf1]. destruct (m1 st) as [st1 [e|u]]; simpl in *.
  - split; [done|]. intros n Hn. destruct (Hf1 n Hn); [by left|].
    right. apply elem_of_app. by left.
  - destruct (H2 u st1) as [Hg2 Hf2]. split; [by eapply gate_kept_trans|].
    intros n Hn. destruct (Hf2 n Hn) as [Hn1|Hn2].
    + destruct (Hf1 n Hn1); [by left|]. right. apply elem_of_app. by left.
    + right. apply elem_of_app. by right.
Qed.

Lemma respects_requested (names : list string) (name : string) (f : bool → M unit) :
  (∀ b, respects env names (f b)) → respects env names (requested env name ≫= f).
Proof.
  intros Hf st. unfold mbind, M_bind. rewrite IsolationFacts.requested_eq. apply Hf.
Qed.

Lemma respects_when (names : list string) (b : bool) (m : M unit) :
  respects env names m → respects env names (when b m).
Proof.
  intros Hm. destruct b; [done|].
  apply (respects_weaken []); [by intros n ?%elem_of_nil | apply respects_ret].
Qed.

Lemma respects_emit (ev : event) :
  is_isolation_event ev = false → respects env [] (emit ev).
Proof.
  intros Hev st. split; [|by left].
  destruct ev; try discriminate Hev; count; (split; [lia|]; split; [lia|]; intros _; lia).
Qed.

Lemma respects_call (ev : event) (r : option exc) :
  is_isolation_event ev = false → respects env [] (call ev r).
Proof.
  intros Hev. unfold call.
  apply (respects_bind [] []); [by apply respects_emit|].
  intros _. destruct r; [apply respects_raise | apply respects_ret].
Qed.

Lemma respects_addfinalizer (f : finalizer) :
  is_helper_finalizer f = false → respects env [] (addfinalizer f).
Proof.
  intros Hf st. split; [|by left].
  destruct f; try discriminate Hf; count; (split; [lia|]; split; [lia|]; intros _; lia).
Qed.

Lemma respects_session_addfinalizer (f : finalizer) :
  respects env [] (session_addfinalizer f).
Proof. intros st. split; [|by left]. count. split; [lia|]. split; [lia|]. intros _; lia. Qed.

Lemma respects_function_fixture (names : list string) (name : string) (body : M unit) :
  respects env names body → respects env (name :: names) (function_fixture name body).
Proof.
  intros Hbody st. unfold function_fixture.
  case_bool_decide; [split; [apply gate_kept_refl | by left]|].
  match goal with |- context [body ?s] => destruct (Hbody s) as [Hg Hf] end.
  destruct (body _) as [st1 r]. split.
  - destruct Hg as (H1 & H2 & H3). count.
    split; [lia|]. split; [lia|]. intros Hu. destruct (H3 Hu). lia.
  - cbn. intros n Hn.
    assert (Hn' : n = name ∨ n ∈ resolved st1).
    { destruct r; [by right|]. by apply elem_of_cons in Hn. }
    destruct Hn' as [->|Hn']; [right; by left|].
    destruct (Hf n Hn'); [by left | right; by right].
Qed.

Lemma respects_session_fixture (names : list string) (name : string) (body : M unit) :
  respects env names body → respects env (name :: names) (session_fixture name body).
Proof.
  intros Hbody st. unfold session_fixture.
  case_bool_decide; [split; [apply gate_kept_refl | by left]|].
  case_bool_decide.
  { split; [count; split; [lia|]; split; [lia|]; intros _; lia|].
    cbn. intros n [->|Hn]%elem_of_cons; [right; by left | by left]. }
  destruct (Hbody st) as [Hg Hf].
  destruct (body st) as [st1 [e|[]]].
  - split; [done|]. cbn in *. intros n Hn.
    destruct (Hf n Hn); [by left | right; by right].
  - split.
    + destruct Hg as (H1 & H2 & H3). count.
      split; [lia|]. split; [lia|]. intros Hu. destruct (H3 Hu). lia.
    + cbn in *. intros n [->|Hn]%elem_of_cons; [right; by left|].
      destruct (Hf n Hn); [by left | right; by right].
Qed.

(** The helper: the gate is opened together with the registration of its
    restore, before anything can raise. *)
Lemma respects_helper (transactional reset_sequences : bool) :
  respects env [] (_django_db_fixture_helper env transactional reset_sequences).
Proof.
  intros st. unfold _django_db_fixture_helper.
  destruct (is_django_unittest env) eqn:Hunit;
    [split; [apply gate_kept_refl | by left]|].
  unfold mbind, M_bind. rewrite IsolationFacts.requested_eq.
  destruct (negb transactional && _); [split; [apply gate_kept_refl | by left]|].
  unfold call, mbind, M_bind; cbn.
  destruct (import_string env _); cbn;
    [|destruct (setUpClass_raises env _); cbn;
      [|destruct (_pre_setup_raises env _); cbn]];
    (split; [|by left]); unfold gate_kept; rewrite Hunit; count;
    (split; [lia|]; split; [lia|]; done).
Qed.

Ltac subset_now :=
  let n := fresh in let H := fresh in
  intros n H;
  repeat (apply elem_of_cons in H as [->|H]; [IsolationFacts.elem_now|]);
  by apply elem_of_nil in H.

Lemma respects_get_django_db_reset_sequences :
  respects env ["django_db_reset_sequences"] (get_django_db_reset_sequences env).
Proof. apply respects_function_fixture, respects_helper. Qed.

Lemma respects_get_transactional_db :
  respects env ["transactional_db"; "django_db_reset_sequences"]
    (get_transactional_db env).
Proof.
  apply respects_function_fixture. unfold transactional_db.
  apply respects_requested. intros r.
  apply (respects_bind ["django_db_reset_sequences"] []).
  - apply respects_when, respects_get_django_db_reset_sequences.
  - intros _. apply respects_helper.
Qed.

Lemma respects_get_db :
  respects env ["db"; "transactional_db"; "django_db_reset_sequences"] (get_db env).
Proof.
  apply respects_function_fixture. unfold db.
  apply respects_requested. intros r.
  apply (respects_weaken (["django_db_reset_sequences"]
                          ++ ["transactional_db"; "django_db_reset_sequences"]));
    [subset_now|].
  apply respects_bind.
  - apply respects_when, respects_get_django_db_reset_sequences.
  - intros _. apply respects_requested. intros t. apply respects_requested. intros l.
    destruct (t || l); [apply respects_get_transactional_db|].
    apply (respects_weaken []); [by intros n ?%elem_of_nil | apply respects_helper].
Qed.

Lemma respects_get_live_server :
  respects env ["live_server"] (get_live_server env).
Proof.
  apply respects_session_fixture. unfold live_server, skip_if_no_django.
  apply (respects_bind [] []).
  - destruct (no_django env); [apply respects_raise | apply respects_ret].
  - intros _. apply (respects_bind [] []); [by apply respects_call|].
    intros _. apply respects_session_addfinalizer.
Qed.

Lemma respects_get__live_server_helper :
  respects env ["_live_server_helper"; "transactional_db";
                "django_db_reset_sequences"; "live_server"]
    (get__live_server_helper env).
Proof.
  apply respects_function_fixture. unfold _live_server_helper.
  apply respects_requested. intros l.
  destruct (negb l).
  { apply (respects_weaken []); [by intros n ?%elem_of_nil | apply respects_ret]. }
  apply (respects_bind ["transactional_db"; "django_db_reset_sequences"]
           ["live_server"]); [apply respects_get_transactional_db|].
  intros _. apply (respects_bind ["live_server"] []); [apply respects_get_live_server|].
  intros _. apply (respects_bind [] []); [by apply respects_emit|].
  intros _. by apply respects_addfinalizer.
Qed.

Lemma respects_get_django_user_model :
  respects env ["django_user_model"; "db"; "transactional_db";
                "django_db_reset_sequences"]
    (get_django_user_model env).
Proof. apply respects_function_fixture, respects_get_db. Qed.

Lemma respects_get_django_username_field :
  respects env ["django_username_field"; "django_user_model"; "db";
                "transactional_db"; "django_db_reset_sequences"]
    (get_django_username_field env).
Proof. apply respects_function_fixture, respects_get_django_user_model. Qed.

Lemma respects_get_admin_user :
  respects env ("admin_user" :: below) (get_admin_user env).
Proof.
  apply (respects_weaken
           ("admin_user"
            :: ["db"; "transactional_db"; "django_db_reset_sequences"]
            ++ ["django_user_model"; "db"; "transactional_db";
                "django_db_reset_sequences"]
            ++ ["django_username_field"; "django_user_model"; "db";
                "transactional_db"; "django_db_reset_sequences"]));
    [unfold below; subset_now|].
  apply respects_function_fixture.
  apply respects_bind; [apply respects_get_db|]. intros _.
  apply respects_bind; [apply respects_get_django_user_model|]. intros _.
  apply respects_get_django_username_field.
Qed.

Lemma respects_get_admin_client :
  respects env ("admin_client" :: below) (get_admin_client env).
Proof.
  apply (respects_weaken
           ("admin_client"
            :: ["db"; "transactional_db"; "django_db_reset_sequences"]
            ++ "admin_user" :: below));
    [unfold below; subset_now|].
  apply respects_function_fixture.
  apply respects_bind; [apply respects_get_db|]. intros _.
  apply respects_get_admin_user.
Qed.

(** Every fixture keeps the gate, and sets up only itself and fixtures of
    [below]. *)
Lemma respects_getfixturevalue (name : string) :
  respects env (name :: below) (getfixturevalue env name).
Proof.
  unfold getfixturevalue. repeat case_decide; subst.
  - eapply respects_weaken; [|apply respects_get_django_db_reset_sequences].
    unfold below; subset_now.
  - eapply respects_weaken; [|apply respects_get_transactional_db].
    unfold below; subset_now.
  - eapply respects_weaken; [|apply respects_get_db]. unfold below; subset_now.
  - eapply respects_weaken; [|apply respects_get_live_server]. unfold below; subset_now.
  - eapply respects_weaken; [|apply respects_get__live_server_helper].
    unfold below; subset_now.
  - eapply respects_weaken; [|apply respects_get_django_user_model].
    unfold below; subset_now.
  - eapply respects_weaken; [|apply respects_get_django_username_field].
    unfold below; subset_now.
  - apply respects_get_admin_user.
  - apply respects_get_admin_client.
  - eapply respects_weaken; [|apply respects_function_fixture, respects_ret].
    intros n [->|Hn]%elem_of_cons; [by left | by apply elem_of_nil in Hn].
Qed.

(** Set-up as a whole keeps the gate, whether it returns or raises. *)
Lemma setup_names_gate_kept (names : list string) (st : state) :
  gate_kept env st (setup_names env names st).1.
Proof.
  revert st. induction names as [|n names IH]; intros st; [apply gate_kept_refl|].
  simpl. unfold mbind, M_bind.
  destruct (respects_getfixturevalue n st) as [Hg _].
  destruct (getfixturevalue env n st) as [st1 [e|[]]]; [done|].
  by eapply gate_kept_trans.
Qed.

(** Pytest sets fixtures up one after the other: none of them leaves a
    finalizer outside the fixtures that are finished. *)
Lemma getfixturevalue_own (name : string) (st : state) :
  own (getfixturevalue env name st).1 = own st.
Proof.
  assert (Hfun : ∀ n body, own (function_fixture n body st).1 = own st).
  { intros n body. unfold function_fixture. case_bool_decide; [done|].
    by destruct (body _). }
  unfold getfixturevalue. repeat case_decide; try apply Hfun.
  unfold get_live_server, session_fixture.
  case_bool_decide; [done|]. case_bool_decide; [done|].
  unfold live_server, skip_if_no_django, call, mbind, M_bind.
  destruct (no_django env); [done|]. cbn.
  by destruct (LiveServer_raises env _).
Qed.

Lemma setup_names_own (names : list string) (st : state) :
  own (setup_names env names st).1 = own st.
Proof.
  revert st. induction names as [|n names IH]; intros st; [done|].
  simpl. unfold mbind, M_bind.
  pose proof (getfixturevalue_own n st) as Hown.
  destruct (getfixturevalue env n st) as [st1 [e|[]]]; [done|].
  by rewrite IH.
Qed.

End Respects.

Lemma finalizer_events_counts (fs : list finalizer) :
  opened (map finalizer_event fs) = 0
  ∧ restored (map finalizer_event fs) = restores fs
  ∧ length (List.filter is_isolation_event (map finalizer_event fs)) = helpers fs.
Proof.
  induction fs as [|f fs (IH1 & IH2 & IH3)]; [done|].
  unfold opened, restored, restores, helpers in *.
  destruct f; cbn; rewrite ?IH1, ?IH2, ?IH3; done.
Qed.

(** The trace of a run in terms of the state set-up leaves. *)
Lemma runtest_trace (env : environment) (body_fails : bool) (st : state) :
  ∃ call, (call = [] ∨ call = [CallTest body_fails])
    ∧ trace (runtest env body_fails st)
      = (trace (setup env st).1 ++ call
         ++ map finalizer_event (teardown_order (setup env st).1))%list.
Proof.
  unfold runtest. destruct (setup env st) as [st1 [e|[]]]; cbn.
  - exists []. split; [by left | done].
  - exists [CallTest body_fails]. split; [by right | by rewrite <- app_assoc].
Qed.

(** X16: In the run of a test the gate is restored exactly as often as it is
    opened, for every combination of fixtures and whatever raises during
    set-up: an import that fails, a class set-up or a pre-set-up that
    raises, a live server that does not start, a test body that fails. *)
Theorem gate_restored_as_often_as_opened (env : environment)
    (session : list string) (body_fails : bool) :
  restored (trace (runtest env body_fails (initial session)))
  = opened (trace (runtest env body_fails (initial session))).
Proof.
  destruct (runtest_trace env body_fails (initial session)) as (call & Hcall & ->).
  pose proof (setup_names_gate_kept env (names_closure env) (initial session))
    as (Hbal & Hres & _).
  pose proof (setup_names_own env (names_closure env) (initial session)) as Hown.
  fold (setup env) in Hbal, Hres, Hown.
  destruct (finalizer_events_counts (teardown_order (setup env (initial session)).1))
    as (Ho & Hr & _).
  rewrite !restored_app, !opened_app, Ho, Hr, Hres.
  rewrite Hown in Hbal. cbn in Hbal.
  destruct Hcall as [-> | ->]; cbn; lia.
Qed.

(** X17: A Django test case is left alone: whatever database fixtures such a
    test requests, the run opens no gate, imports and sets up no test-case
    class, and schedules no teardown of one. *)
Theorem django_test_case_is_left_alone (env : environment)
    (session : list string) (body_fails : bool) :
  is_django_unittest env = true →
  List.filter is_isolation_event (trace (runtest env body_fails (initial session))) = [].
Proof.
  intros Hunit. apply length_zero_iff_nil.
  destruct (runtest_trace env body_fails (initial session)) as (call & Hcall & ->).
  pose proof (setup_names_gate_kept env (names_closure env) (initial session))
    as (_ & _ & Hquiet).
  pose proof (setup_names_own env (names_closure env) (initial session)) as Hown.
  fold (setup env) in Hquiet, Hown.
  destruct (Hquiet Hunit) as [Hev Hfin]. rewrite Hown in Hfin. cbn in Hev, Hfin.
  destruct (finalizer_events_counts (teardown_order (setup env (initial session)).1))
    as (_ & _ & Hh).
  rewrite !isolation_app, Hev, Hh, Hfin.
  destruct Hcall as [-> | ->]; done.
Qed.

(** A Django test case marked with the three database fixtures and
    [live_server]. *)
Lemma django_test_case_is_left_alone_witness :
  List.filter is_isolation_event (trace (runtest marked_test_case true (initial []))) = []
  ∧ trace (runtest marked_test_case true (initial []))
    = [LiveServerStart "localhost"; SettingsEnable; CallTest true; SettingsDisable].
Proof.
  split; [by apply django_test_case_is_left_alone | reflexivity].
Defined.

End GateFacts.

(** ** More on the isolation controller *)

Module IsolationMore.
Import Py Isolation Gate.

(** Without a live server the run of a test is the set-up of its levels,
    the call, and their teardown, newest level first. *)
Lemma run_of_levels (env : environment) (session : list string) (body_fails : bool) :
  is_django_unittest env = false → healthy env →
  "live_server" ∉ names_closure env →
  ∃ st', setup env (initial session) = (st', inr ())
    ∧ trace (runtest env body_fails (initial session))
      = (flat_map (level_events env) (levels (resolved st'))
         ++ [CallTest body_fails]
         ++ map finalizer_event
              (flat_map (level_finalizers env) (rev (levels (resolved st')))))%list.
Proof.
  intros Hunit Hhealthy HnoL.
  destruct (IsolationFacts.setup_returns env session Hunit Hhealthy) as [st' Hrun].
  destruct (IsolationFacts.setup_returned env session st' Hunit Hrun) as (J & _ & _).
  destruct (nothing_else env st' J HnoL) as [Hev Hfin].
  rewrite (helper_trace env st' J) in Hev. rewrite (helper_teardown env st' J) in Hfin.
  exists st'. split; [done|].
  unfold runtest. rewrite Hrun. unfold teardown, teardown_order in *. cbn.
  by rewrite <- Hev, <- Hfin, <- app_assoc.
Qed.

(** X18: [db] as the only database fixture, with or without the fixtures that
    depend on it: the plain level is set up once, from the class named by
    the option [testcase_class], else by the variable
    [DJANGO_TEST_CASE_CLASS], else [django.test.TestCase], and it is torn
    down after the test whether the test fails or not. *)
Theorem db_alone_is_plain (env : environment) (session : list string)
    (body_fails : bool) :
  is_django_unittest env = false → healthy env →
  "db" ∈ names_closure env →
  "transactional_db" ∉ names_closure env →
  "live_server" ∉ names_closure env →
  "django_db_reset_sequences" ∉ names_closure env →
  let c := {| base := or_ (getvalue env "testcase_class")
                        (or_ (getenv env "DJANGO_TEST_CASE_CLASS") "django.test.TestCase");
              reset_sequences := None;
              databases := _pytest_django_databases env |} in
  trace (runtest env body_fails (initial session))
  = [Unblock; ImportString (base c); SetUpClass c; PreSetup c;
     CallTest body_fails;
     PostTeardown c; TearDownClass c; Restore].
Proof.
  intros Hunit Hhealthy Hdb HnoT HnoL HnoR c.
  destruct (run_of_levels env session body_fails Hunit Hhealthy HnoL)
    as (st' & Hrun & ->).
  by rewrite (IsolationFacts.plain_only env session st' Hunit Hrun Hdb HnoT HnoL HnoR).
Qed.

(** A test with [admin_user], on two databases, with the class taken from
    the environment. *)
Lemma db_alone_is_plain_witness :
  let c := {| base := "myproject.tests.Base"; reset_sequences := None;
              databases := Some (Aliases ["default"; "replica"]) |} in
  trace (runtest (two_databases ["_live_server_helper"; "db"; "django_user_model";
                                 "django_username_field"; "admin_user"])
           false (initial []))
  = [Unblock; ImportString "myproject.tests.Base"; SetUpClass c; PreSetup c;
     CallTest false;
     PostTeardown c; TearDownClass c; Restore].
Proof.
  intros c.
  apply (db_alone_is_plain
           (two_databases ["_live_server_helper"; "db"; "django_user_model";
                           "django_username_field"; "admin_user"]) [] false);
    [reflexivity | repeat split | IsolationFacts.elem_now
     | IsolationFacts.not_elem_now | IsolationFacts.not_elem_now
     | IsolationFacts.not_elem_now].
Defined.

(** X19: [db] together with [transactional_db]: [db] leaves the set-up to
    [transactional_db], so the transactional level is set up once, from the
    class named by [transaction_testcase_class], else by
    [DJANGO_TRANSACTION_TEST_CASE_CLASS], else
    [django.test.TransactionTestCase], in whichever order pytest sets the
    two fixtures up. *)
Theorem db_with_transactional_db_is_transactional (env : environment)
    (session : list string) (body_fails : bool) :
  is_django_unittest env = false → healthy env →
  "db" ∈ names_closure env →
  "transactional_db" ∈ names_closure env →
  "live_server" ∉ names_closure env →
  "django_db_reset_sequences" ∉ names_closure env →
  let c := {| base := or_ (getvalue env "transaction_testcase_class")
                        (or_ (getenv env "DJANGO_TRANSACTION_TEST_CASE_CLASS")
                           "django.test.TransactionTestCase");
              reset_sequences := None;
              databases := _pytest_django_databases env |} in
  trace (runtest env body_fails (initial session))
  = [Unblock; ImportString (base c); SetUpClass c; PreSetup c;
     CallTest body_fails;
     PostTeardown c; TearDownClass c; Restore].
Proof.
  intros Hunit Hhealthy Hdb HT HnoL HnoR c.
  destruct (run_of_levels env session body_fails Hunit Hhealthy HnoL)
    as (st' & Hrun & ->).
  rewrite (IsolationFacts.transactional_only env session st' Hunit Hrun HnoR);
    [done | by left].
Qed.

Lemma db_with_transactional_db_is_transactional_witness :
  let c := {| base := "django.test.TransactionTestCase"; reset_sequences := None;
              databases := None |} in
  trace (runtest (defaults ["_live_server_helper"; "transactional_db"; "db"])
           true (initial []))
  = [Unblock; ImportString "django.test.TransactionTestCase"; SetUpClass c; PreSetup c;
     CallTest true;
     PostTeardown c; TearDownClass c; Restore].
Proof.
  intros c.
  apply (db_with_transactional_db_is_transactional
           (defaults ["_live_server_helper"; "transactional_db"; "db"]) [] true);
    [reflexivity | repeat split | IsolationFacts.elem_now | IsolationFacts.elem_now
     | IsolationFacts.not_elem_now | IsolationFacts.not_elem_now].
Defined.

Lemma reset_level_needs_reset_fixture (rs : list string) :
  TransactionalResetSeq ∈ levels rs → "django_db_reset_sequences" ∈ rs.
Proof.
  unfold levels. case_bool_decide; [done|].
  repeat case_bool_decide; cbn; intros Hin;
    repeat (apply elem_of_cons in Hin as [Hin|Hin]; [discriminate Hin|]);
    by apply elem_of_nil in Hin.
Qed.

(** X20: Every test-case class that is set up for a test carries the databases
    the test declared, whatever the combination of fixtures, and has
    [reset_sequences] set only if [django_db_reset_sequences] is among the
    fixtures of the test. *)
Theorem classes_carry_the_declared_databases (env : environment)
    (session : list string) (st' : state) :
  is_django_unittest env = false →
  setup env (initial session) = (st', inr ()) →
  Forall (fun c =>
            databases c = _pytest_django_databases env
            ∧ (reset_sequences c = Some true →
               "django_db_reset_sequences" ∈ names_closure env))
    (pre_setups (trace st')).
Proof.
  intros Hunit Hrun.
  destruct (IsolationFacts.setup_returned env session st' Hunit Hrun) as (J & _ & _).
  rewrite (IsolationFacts.pre_setups_levels env st' J).
  apply Forall_forall. intros c Hc.
  apply list_elem_of_omap in Hc as (i & Hi & Hclass).
  destruct i; simplify_eq/=; (split; [done|]); try done.
  intros _. by apply (reset_declared env st' J), reset_level_needs_reset_fixture.
Qed.

Lemma classes_carry_the_declared_databases_witness :
  Forall (fun c => databases c = Some (Aliases ["default"; "replica"]))
    (pre_setups (trace (setup (two_databases ["db"; "django_db_reset_sequences"])
                          (initial [])).1)).
Proof.
  destruct (IsolationFacts.setup_returns
              (two_databases ["db"; "django_db_reset_sequences"]) [] eq_refl)
    as [st' Hrun]; [repeat split|].
  rewrite Hrun. cbn [fst].
  eapply Forall_impl;
    [apply (classes_carry_the_declared_databases
              (two_databases ["db"; "django_db_reset_sequences"]) [] st' eq_refl Hrun)|].
  by intros c [Hc _].
Defined.

(** X21: A set-up that raises half way leaves finalizers for what it did and
    for nothing else: when the class set-up raises, only the restore of the
    gate is registered; when the instance pre-set-up raises, the class
    teardown and the restore are, and the instance post-teardown is not.
    The helper raises the exception as it is. *)
Theorem partial_setup_is_undone (env : environment)
    (transactional reset_sequences : bool) (st : state) (e : exc) :
  is_django_unittest env = false →
  helper_acts env transactional st = true →
  import_string env (test_case_classname env transactional) = None →
  let c := PytestDjangoTestCase env transactional reset_sequences in
  let r := _django_db_fixture_helper env transactional reset_sequences st in
  (setUpClass_raises env c = Some e →
   r.2 = inl e
   ∧ own r.1 = restore :: own st
   ∧ trace r.1
     = (trace st ++ [Unblock; ImportString (base c); SetUpClass c])%list)
  ∧ (setUpClass_raises env c = None → _pre_setup_raises env c = Some e →
     r.2 = inl e
     ∧ own r.1 = tearDownClass c :: restore :: own st
     ∧ trace r.1
       = (trace st ++ [Unblock; ImportString (base c); SetUpClass c; PreSetup c])%list).
Proof.
  intros Hunit Hacts Himport c r. subst r.
  unfold helper_acts in Hacts. rewrite Hunit in Hacts. cbn in Hacts.
  unfold _django_db_fixture_helper. rewrite Hunit.
  unfold mbind, M_bind. rewrite IsolationFacts.requested_eq.
  assert (Hguard : negb transactional
                   && (bool_decide ("live_server" ∈ names_closure env)
                       || bool_decide ("live_server" ∈ resolved st)) = false).
  { destruct transactional; [done|]. cbn in *. by apply negb_true_iff. }
  rewrite Hguard. unfold call, mbind, M_bind. cbn. rewrite Himport. cbn. fold c.
  split.
  - intros ->. cbn. by rewrite <- !app_assoc.
  - intros -> ->. cbn. by rewrite <- !app_assoc.
Qed.

(** [transactional_db] on a database that cannot be flushed: the class is
    torn down and the gate restored, and the test is not called. *)
Lemma partial_setup_is_undone_witness :
  let c := {| base := "django.test.TransactionTestCase"; reset_sequences := None;
              databases := None |} in
  own (_django_db_fixture_helper (flush_fails ["transactional_db"]) true false
         (initial [])).1
  = [tearDownClass c; restore]
  ∧ trace (runtest (flush_fails ["transactional_db"]) false (initial []))
    = [Unblock; ImportString "django.test.TransactionTestCase"; SetUpClass c; PreSetup c;
       TearDownClass c; Restore].
Proof.
  intros c.
  destruct (partial_setup_is_undone (flush_fails ["transactional_db"]) true false
              (initial [])
              {| exc_class := "OperationalError";
                 exc_bases := ["DatabaseError"; "Error"; "Exception"; "BaseException"];
                 exc_str := "database is locked" |} eq_refl eq_refl eq_refl)
    as [_ Hpre].
  destruct (Hpre eq_refl eq_refl) as (_ & Hown & _).
  split; [exact Hown | reflexivity].
Defined.

(** X26: [import_from_string] lets a successful import and every exception
    that is not an [ImportError] through as they are; an [ImportError], or
    an instance of a class derived from it, is replaced by an [ImportError]
    whose message contains the value, the name of the setting, and the class
    and the text of the original exception. *)
Theorem import_from_string_names_the_setting (env : environment)
    (val setting_name : string) :
  match import_string env val with
  | None => import_from_string env val setting_name = None
  | Some e =>
      if isinstance e "ImportError" then
        ∃ msg,
          import_from_string env val setting_name = Some (ImportError msg)
          ∧ contains val msg ∧ contains setting_name msg
          ∧ contains (exc_class e) msg ∧ contains (exc_str e) msg
      else import_from_string env val setting_name = Some e
  end.
Proof.
  unfold import_from_string.
  destruct (import_string env val) as [e|]; [|done].
  destruct (isinstance e "ImportError"); [|done].
  eexists. split; [reflexivity|]. repeat split.
  - exists "Could not import '". eexists. reflexivity.
  - exists ("Could not import '" +:+ val +:+ "' for API setting '"). eexists.
    autorewrite with pystr. reflexivity.
  - exists ("Could not import '" +:+ val +:+ "' for API setting '"
            +:+ setting_name +:+ "'. "). eexists.
    autorewrite with pystr. reflexivity.
  - exists ("Could not import '" +:+ val +:+ "' for API setting '"
            +:+ setting_name +:+ "'. " +:+ exc_class e +:+ ": "), ".".
    autorewrite with pystr. reflexivity.
Qed.

(** *** [live_server] without a database fixture *)

Section LiveServer.
Context (F : Prop) (env : environment).
Context (Hexc : excused F env) (Hunit : is_django_unittest env = false).
Context (Hlive : "live_server" ∈ names_closure env).

(** After [_live_server_helper], [transactional_db] is set up. *)
Lemma wp_helper_brings_transactional_db (st : state) :
  consistent env st →
  ("_live_server_helper" ∈ resolved st → "transactional_db" ∈ resolved st) →
  wp F (get__live_server_helper env)
    (fun _ st' => "transactional_db" ∈ resolved st') st.
Proof.
  intros J HE. apply IsolationFacts.wp_function_fixture; [done|].
  intros Hout. unfold _live_server_helper.
  apply IsolationFacts.wp_bind, IsolationFacts.wp_requested. simpl resolved.
  rewrite (bool_decide_eq_true_2 _ Hlive). cbn.
  apply IsolationFacts.wp_bind.
  eapply IsolationFacts.wp_mono;
    [| apply (IsolationFacts.wp_get_transactional_db F env Hexc Hunit);
       [by apply (IsolationFacts.consistent_view env st) | by right] ].
  intros [] st1 (J1 & _ & HT).
  apply IsolationFacts.wp_bind.
  eapply IsolationFacts.wp_mono;
    [| by apply (IsolationFacts.wp_get_live_server F env Hexc) ].
  intros [] st2 (_ & [_ Hmono] & _).
  apply IsolationFacts.wp_bind, IsolationFacts.wp_emit.
  apply IsolationFacts.wp_addfinalizer. cbn.
  by apply list_elem_of_further, Hmono.
Qed.

Lemma below_has_no_helper : "_live_server_helper" ∉ below.
Proof. unfold below. IsolationFacts.not_elem_now. Qed.

Lemma wp_setup_names_helper (names : list string) (st : state) :
  (∀ n, n ∈ names → n ∈ names_closure env) →
  consistent env st →
  ("_live_server_helper" ∈ resolved st → "transactional_db" ∈ resolved st) →
  wp F (setup_names env names)
    (fun _ st' => "_live_server_helper" ∈ resolved st'
                  → "transactional_db" ∈ resolved st') st.
Proof.
  revert st. induction names as [|n names IH]; intros st Hcl J HE; [done|].
  simpl. apply IsolationFacts.wp_bind.
  pose proof (IsolationFacts.resolving_getfixturevalue F env Hexc Hunit n
                (Hcl n ltac:(by left)) st J) as Hres.
  destruct (GateFacts.respects_getfixturevalue env n st) as [_ Hframe].
  pose proof (wp_helper_brings_transactional_db st J HE) as Hhelper.
  unfold wp in *.
  destruct (getfixturevalue env n st) as [st1 [e|[]]] eqn:Hrun; [done|].
  destruct Hres as (J1 & [_ Hmono] & _). cbn in Hframe.
  apply IH; [intros m Hm; apply Hcl; by right | done |].
  intros Hin. destruct (decide (n = "_live_server_helper")) as [->|Hn].
  - assert (Heq : getfixturevalue env "_live_server_helper"
                  = get__live_server_helper env) by reflexivity.
    rewrite Heq in Hrun. by rewrite Hrun in Hhelper.
  - destruct (Hframe _ Hin) as [Hbefore|Hadded].
    + by apply Hmono, HE.
    + apply elem_of_cons in Hadded as [Heq|Hbelow]; [done|].
      by apply below_has_no_helper in Hbelow.
Qed.

End LiveServer.

(** X22: [live_server] in a test without a database fixture: the autouse
    [_live_server_helper] asks for [transactional_db], so the test has the
    transactional level, set up once, when set-up returns; and set-up
    returns when Django and the live server raise nothing. *)
Theorem live_server_alone_is_transactional (env : environment) (session : list string) :
  is_django_unittest env = false →
  "live_server" ∈ names_closure env →
  "_live_server_helper" ∈ names_closure env →
  "django_db_reset_sequences" ∉ names_closure env →
  (∀ st', setup env (initial session) = (st', inr ()) →
     pre_setups (trace st') = [PytestDjangoTestCase env true false]
     ∧ List.filter is_helper_event (trace st') = helper_events env true false
     ∧ List.filter is_helper_finalizer (teardown_order st')
       = helper_finalizers env true false)
  ∧ (healthy env → ∃ st', setup env (initial session) = (st', inr ())).
Proof.
  intros Hunit Hlive Hhelper HnoR. split; [|by apply IsolationFacts.setup_returns].
  intros st' Hrun.
  destruct (IsolationFacts.setup_returned env session st' Hunit Hrun) as (J & _ & Hall).
  pose proof (wp_setup_names_helper True env (IsolationFacts.excused_True env) Hunit
                Hlive (names_closure env) (initial session) ltac:(done)
                (IsolationFacts.consistent_initial env session)
                ltac:(by intros ?%elem_of_nil)) as HT.
  unfold wp in HT. fold (setup env) in HT. rewrite Hrun in HT.
  specialize (HT (Hall _ Hhelper)).
  assert (Hlevels : levels (resolved st') = [Transactional]).
  { unfold levels.
    rewrite (bool_decide_eq_false_2 ("django_db_reset_sequences" ∈ resolved st'))
      by (intros HR; by apply HnoR, (reset_declared env st' J)).
    by rewrite (bool_decide_eq_true_2 _ HT). }
  destruct (IsolationFacts.levels_done env st' _ J Hlevels) as (Hev & Hpre & Hfin).
  cbn in Hev, Hpre, Hfin. rewrite ?app_nil_r in Hev, Hfin. done.
Qed.

(** A test function with the single argument [live_server]. *)
Lemma live_server_alone_is_transactional_witness :
  pre_setups (trace (setup (defaults ["live_server"; "_live_server_helper"])
                       (initial [])).1)
  = [{| base := "django.test.TransactionTestCase";
        reset_sequences := None; databases := None |}].
Proof.
  destruct (live_server_alone_is_transactional
              (defaults ["live_server"; "_live_server_helper"]) [])
    as (Hreturned & Hreturns);
    [reflexivity | IsolationFacts.elem_now | IsolationFacts.elem_now
     | IsolationFacts.not_elem_now |].
  destruct (Hreturns (IsolationFacts.healthy_defaults _)) as [st' Hrun].
  rewrite Hrun. cbn [fst]. by destruct (Hreturned st' Hrun) as (-> & _).
Defined.

End IsolationMore.

(** ** Capturing on-commit callbacks *)

Module OnCommitFacts.
Import Py OnCommit.

(** The loop calls the callbacks in order and stops at the first that
    raises. *)
Lemma run_stops_at_first_raise (env : environment) (callbacks : list nat) :
  match run env callbacks with
  | (called, None) =>
      called = callbacks ∧ Forall (fun c => call env c = None) callbacks
  | (called, Some e) =>
      ∃ quiet c rest,
        callbacks = (quiet ++ c :: rest)%list
        ∧ called = (quiet ++ [c])%list
        ∧ call env c = Some e
        ∧ Forall (fun c => call env c = None) quiet
  end.
Proof.
  induction callbacks as [|c callbacks IH]; cbn; [done|].
  destruct (call env c) as [e|] eqn:Hc.
  - exists [], c, callbacks. done.
  - destruct (run env callbacks) as [called [e|]].
    + destruct IH as (quiet & c' & rest & -> & -> & Hc' & Hquiet).
      exists (c :: quiet), c', rest. repeat split; try done. by constructor.
    + destruct IH as [-> Hall]. split; [done | by constructor].
Qed.

(** X23: Before Django 3.2, with a block that only registers callbacks on the
    connection it names: the callbacks captured are those the block
    registered on that connection, in the order of registration, whether
    the block raised or not and whether they are executed or not; callbacks
    registered before the block and on other connections are not among
    them. *)
Theorem captures_what_the_block_registered (env : environment)
    (using_ : option string) (execute : bool) (before : world) (b : block)
    (queue added : list entry) :
  before_3_2 (django_version env) = true →
  connections before !! default (DEFAULT_DB_ALIAS env) using_ = Some queue →
  connections (after b) !! default (DEFAULT_DB_ALIAS env) using_
  = Some (queue ++ added)%list →
  (_capture_on_commit_callbacks env using_ execute before b).1.1 = map func added.
Proof.
  intros Hversion Hbefore Hafter. unfold _capture_on_commit_callbacks.
  rewrite Hversion, Hbefore, Hafter, drop_app_length.
  destruct execute; [|done]. by destruct (run env (map func added)).
Qed.

(** X24: With [execute=True] the captured callbacks are called when the [with]
    statement is left, also when the block raised.  If none of them raises
    they are all called, in order, and the statement raises what the block
    raised; otherwise the calls stop with the first callback that raises,
    and its exception is the one the statement raises.  With
    [execute=False] no callback is called. *)
Theorem executes_until_a_callback_raises (env : environment)
    (using_ : option string) (before : world) (b : block)
    (queue added : list entry) :
  before_3_2 (django_version env) = true →
  connections before !! default (DEFAULT_DB_ALIAS env) using_ = Some queue →
  connections (after b) !! default (DEFAULT_DB_ALIAS env) using_
  = Some (queue ++ added)%list →
  let callbacks := map func added in
  _capture_on_commit_callbacks env using_ false before b = (callbacks, [], raised b)
  ∧ match _capture_on_commit_callbacks env using_ true before b with
    | (captured, called, r) =>
        captured = callbacks
        ∧ ((Forall (fun c => call env c = None) callbacks
            ∧ called = callbacks ∧ r = raised b)
           ∨ (∃ quiet c rest e,
                callbacks = (quiet ++ c :: rest)%list
                ∧ Forall (fun c => call env c = None) quiet
                ∧ call env c = Some e
                ∧ called = (quiet ++ [c])%list ∧ r = Some e))
    end.
Proof.
  intros Hversion Hbefore Hafter callbacks. unfold _capture_on_commit_callbacks.
  rewrite Hversion, Hbefore, Hafter, drop_app_length. fold callbacks.
  split; [done|].
  pose proof (run_stops_at_first_raise env callbacks) as Hrun.
  destruct (run env callbacks) as [called [e|]]; (split; [done|]).
  - right. destruct Hrun as (quiet & c & rest & H1 & H2 & H3 & H4).
    by exists quiet, c, rest, e.
  - left. by destruct Hrun as [-> Hall].
Qed.

Lemma captures_what_the_block_registered_witness :
  (_capture_on_commit_callbacks django_3_1 None false one_pending registers_three).1.1
  = [1; 2; 3].
Proof.
  by apply (captures_what_the_block_registered django_3_1 None false one_pending
              registers_three [ {| sids := ["s1"]; func := 0 |} ]
              [ {| sids := ["s1"]; func := 1 |};
                {| sids := ["s1"; "s2"]; func := 2 |};
                {| sids := ["s1"]; func := 3 |} ]).
Defined.

Lemma executes_until_a_callback_raises_witness :
  _capture_on_commit_callbacks django_3_1 None true one_pending registers_three
  = ([1; 2; 3], [1; 2], Some (ValueError "callback 2"))
  ∧ _capture_on_commit_callbacks django_3_1 None false one_pending registers_three
    = ([1; 2; 3], [], Some (ValueError "the block")).
Proof.
  destruct (executes_until_a_callback_raises django_3_1 None one_pending
              registers_three [ {| sids := ["s1"]; func := 0 |} ]
              [ {| sids := ["s1"]; func := 1 |};
                {| sids := ["s1"; "s2"]; func := 2 |};
                {| sids := ["s1"]; func := 3 |} ] eq_refl eq_refl eq_refl)
    as [Hplain _].
  split; [reflexivity | exact Hplain].
Defined.

End OnCommitFacts.

(** ** The admin user *)

Module AdminUserFacts.
Import Py AdminUser.

(** X25: The admin user is looked up under "admin", or under
    "admin@example.com" when the username field is "email".  A user that
    exists is returned as it is and none is created.  One that does not
    exist is created with one call whose keyword arguments are: the
    username field with that name, the password "password", and an e-mail
    address (always "admin@example.com") exactly when e-mail is required or
    is the username field; nothing else. *)
Theorem admin_user_is_found_or_created (env : environment) :
  django_username_field env ≠ "password" →
  let field := django_username_field env in
  let username := if String.eqb field "email" then "admin@example.com" else "admin" in
  match get_by_natural_key env username with
  | Found user => admin_user env = ([GetByNaturalKey username], inr user)
  | Fails e => admin_user env = ([GetByNaturalKey username], inl e)
  | DoesNotExist =>
      ∃ data,
        admin_user env
        = ([GetByNaturalKey username; CreateSuperuser data], create_superuser env data)
        ∧ data !! field = Some username
        ∧ data !! "password" = Some "password"
        ∧ data !! "email"
          = (if bool_decide ("email" ∈ REQUIRED_FIELDS (django_user_model env)
                             ∨ field = "email")
             then Some "admin@example.com" else None)
        ∧ ∀ k, k ≠ field → k ≠ "password" → k ≠ "email" → data !! k = None
  end.
Proof.
  intros Hfield field username. unfold admin_user. fold field. fold username.
  destruct (get_by_natural_key env username); [done| |done].
  eexists. split; [reflexivity|]. unfold user_data.
  split; [by rewrite lookup_insert_eq|].
  split; [by rewrite lookup_insert_ne, lookup_insert_eq|].
  split.
  - subst username. destruct (String.eqb_spec field "email") as [Heq|Hne].
    + rewrite Heq, lookup_insert_eq. rewrite bool_decide_eq_true_2; [done | by right].
    + rewrite lookup_insert_ne by done. rewrite lookup_insert_ne by done.
      case_bool_decide as Hreq.
      * rewrite lookup_insert_eq. rewrite bool_decide_eq_true_2; [done | by left].
      * rewrite lookup_empty. rewrite bool_decide_eq_false_2; [done | tauto].
  - intros k Hk1 Hk2 Hk3. rewrite !lookup_insert_ne by done.
    case_bool_decide; [by rewrite lookup_insert_ne|done].
Qed.

Lemma admin_user_is_found_or_created_witness :
  admin_user email_login
  = ([GetByNaturalKey "admin@example.com";
      CreateSuperuser {[ "email" := "admin@example.com"; "password" := "password" ]}],
     inr 1).
Proof.
  pose proof (admin_user_is_found_or_created email_login ltac:(discriminate))
    as (data & Hrun & Hfield & Hpassword & _ & Hrest).
  rewrite Hrun. cbn. do 4 f_equal.
  change (django_username_field email_login) with "email" in *. cbn in Hfield.
  apply map_eq. intros k.
  destruct (decide (k = "email")) as [->|Hemail];
    [by rewrite Hfield; simplify_map_eq|].
  destruct (decide (k = "password")) as [->|Hpass];
    [by rewrite Hpassword; simplify_map_eq|].
  rewrite Hrest by done. by simplify_map_eq.
Defined.

End AdminUserFacts.
